(** * CNC-Mill backend: a shallow embedding of the control core

    The Python sources embedded here are
    - [backend/gcode_parser.py]  (class [GCodeParser]),
    - [backend/machine.py]       (classes [SimpleMoveTracker], [MachineController]),
    - [backend/grbl_client.py]   (classes [GrblClient], [SpindleShim]),
    - [backend/storage.py]       (class [FileStore]),
    - [backend/models.py], [backend/config.py].

    Conventions.
    - Text is a [string] of 8-bit characters read as the ASCII code points of a
      Python [str]; the helpers of [PyStr] follow [str.split], [str.strip],
      [str.upper], [str.splitlines], ... on that range.
    - A raised exception is the [Raise] branch of [result]; a method that
      mutates the controller and may raise returns the controller it leaves
      behind together with the [result].
    - Python [float] is an abstract carrier ([FloatOps]): the theorems on the
      parser, the tracker and the controller hold whatever the arithmetic is.
      The instance [Qfloat] reads decimal literals as exact rationals; it is
      the carrier of the concrete runs and of the voltage bounds. *)

From Stdlib Require Import String Ascii List Bool Arith ZArith QArith Qround Lia Lqa.
Import ListNotations.
Close Scope Q_scope.
Open Scope nat_scope.
Open Scope string_scope.
Open Scope list_scope.

(** ** Exceptions *)

Inductive exn : Type :=
| ValueError
| IndexError
| ZeroDivisionError
| FileNotFoundError (name : string)
| RuntimeError (msg : string).

Inductive result (A : Type) : Type :=
| Ok (a : A)
| Raise (e : exn).
Arguments Ok {A} a.
Arguments Raise {A} e.

Definition bind {A B : Type} (m : result A) (k : A -> result B) : result B :=
  match m with
  | Ok a => k a
  | Raise e => Raise e
  end.

Notation "x <- m ;; k" := (bind m (fun x => k))
  (at level 61, m at next level, right associativity).

(** ** Python string operations on ASCII text *)

Module PyStr.

Definition LF : ascii := ascii_of_nat 10.
Definition CR : ascii := ascii_of_nat 13.

(** [str.isspace] of one character: TAB, LF, VT, FF, CR, FS, GS, RS, US and
    the space. *)
Definition isspace (c : ascii) : bool :=
  let n := nat_of_ascii c in
  (Nat.leb 9 n && Nat.leb n 13) || (Nat.leb 28 n && Nat.leb n 32).

(** Line boundaries of [str.splitlines]: LF, VT, FF, CR, FS, GS, RS. *)
Definition is_linebreak (c : ascii) : bool :=
  let n := nat_of_ascii c in
  (Nat.leb 10 n && Nat.leb n 13) || (Nat.leb 28 n && Nat.leb n 30).

Definition upper_char (c : ascii) : ascii :=
  let n := nat_of_ascii c in
  if Nat.leb 97 n && Nat.leb n 122 then ascii_of_nat (n - 32) else c.

Fixpoint upper (s : string) : string :=
  match s with
  | EmptyString => EmptyString
  | String c r => String (upper_char c) (upper r)
  end.

Definition is_empty (s : string) : bool :=
  match s with EmptyString => true | String _ _ => false end.

Fixpoint lstrip (s : string) : string :=
  match s with
  | EmptyString => EmptyString
  | String c r => if isspace c then lstrip r else s
  end.

Fixpoint rstrip (s : string) : string :=
  match s with
  | EmptyString => EmptyString
  | String c r =>
      let r' := rstrip r in
      if isspace c && is_empty r' then EmptyString else String c r'
  end.

(** [s.strip()] *)
Definition strip (s : string) : string := rstrip (lstrip s).

(** [s.strip(chars)] for a set of characters given as a predicate. *)
Fixpoint lstrip_chars (p : ascii -> bool) (s : string) : string :=
  match s with
  | EmptyString => EmptyString
  | String c r => if p c then lstrip_chars p r else s
  end.

Fixpoint rstrip_chars (p : ascii -> bool) (s : string) : string :=
  match s with
  | EmptyString => EmptyString
  | String c r =>
      let r' := rstrip_chars p r in
      if p c && is_empty r' then EmptyString else String c r'
  end.

Definition strip_chars (p : ascii -> bool) (s : string) : string :=
  rstrip_chars p (lstrip_chars p s).

(** [s.split()]: the maximal runs of non-space characters. *)
Fixpoint split (s : string) : list string :=
  match s with
  | EmptyString => []
  | String c r =>
      if isspace c then split r
      else
        match r with
        | EmptyString => [String c EmptyString]
        | String d _ =>
            if isspace d then String c EmptyString :: split r
            else
              match split r with
              | t :: ts => String c t :: ts
              | [] => [String c EmptyString]
              end
        end
  end.

(** [s.split(sep)] for a one-character separator. *)
Fixpoint split_on (sep : ascii) (s : string) : list string :=
  match s with
  | EmptyString => [EmptyString]
  | String c r =>
      if Ascii.eqb c sep then EmptyString :: split_on sep r
      else
        match split_on sep r with
        | t :: ts => String c t :: ts
        | [] => [String c EmptyString]
        end
  end.

(** [xs[i]], raising [IndexError] out of range. *)
Definition index {A : Type} (xs : list A) (i : nat) : result A :=
  match nth_error xs i with
  | Some x => Ok x
  | None => Raise IndexError
  end.

(** [s.startswith(p)] *)
Definition startswith (p s : string) : bool := String.prefix p s.

(** [sub in s] *)
Fixpoint contains (sub s : string) : bool :=
  String.prefix sub s ||
  match s with
  | EmptyString => false
  | String _ r => contains sub r
  end.

(** [s[1:]] *)
Definition tail (s : string) : string :=
  match s with
  | EmptyString => EmptyString
  | String _ r => r
  end.

(** [s.splitlines()] *)
Fixpoint splitlines (s : string) : list string :=
  match s with
  | EmptyString => []
  | String c r =>
      if Ascii.eqb c CR then
        match r with
        | String d r' =>
            if Ascii.eqb d LF then EmptyString :: splitlines r'
            else EmptyString :: splitlines r
        | EmptyString => [EmptyString]
        end
      else if is_linebreak c then EmptyString :: splitlines r
      else
        match splitlines r with
        | t :: ts => String c t :: ts
        | [] => [String c EmptyString]
        end
  end.

(** Reading a file in text mode with the default [newline=None]: the
    sequences CR LF and CR are delivered as LF. *)
Fixpoint universal_newlines (s : string) : string :=
  match s with
  | EmptyString => EmptyString
  | String c r =>
      if Ascii.eqb c CR then
        match r with
        | String d r' =>
            if Ascii.eqb d LF then String LF (universal_newlines r')
            else String LF (universal_newlines r)
        | EmptyString => String LF EmptyString
        end
      else String c (universal_newlines r)
  end.

(** Number of items when iterating over a text-mode file object: one per
    LF-terminated line, and one for a non-empty unterminated last line. *)
Fixpoint count_iter_lines (s : string) : nat :=
  match s with
  | EmptyString => O
  | String c r =>
      if Ascii.eqb c LF then S (count_iter_lines r)
      else
        match r with
        | EmptyString => 1%nat
        | String _ _ => count_iter_lines r
        end
  end.

End PyStr.

(** ** Python floats *)

Class FloatOps (float : Type) : Type := {
  (** [float(s)]; [None] is [ValueError] *)
  float_of_string : string -> option float;
  (** [float(n)] of an [int] *)
  float_of_Z : Z -> float;
  fadd : float -> float -> float;
  fmul : float -> float -> float;
  (** [a / b]; [None] is [ZeroDivisionError] *)
  fdiv : float -> float -> option float;
  (** [a < b] *)
  fltb : float -> float -> bool
}.

(** The decimal literals of [float()] read as exact rationals:
    [[sign] (digits [. [digits]] | . digits) [(e|E) [sign] digits]],
    surrounded by optional white space.  The literals [inf] and [nan] and the
    digit separator [_] have no rational value and are not part of this
    instance. *)
Module DecimalLiteral.

Definition digit (c : ascii) : option Z :=
  let n := nat_of_ascii c in
  if Nat.leb 48 n && Nat.leb n 57 then Some (Z.of_nat (n - 48)) else None.

Fixpoint take_digits (s : string) : list Z * string :=
  match s with
  | EmptyString => ([], EmptyString)
  | String c r =>
      match digit c with
      | Some d => let (ds, rest) := take_digits r in (d :: ds, rest)
      | None => ([], s)
      end
  end.

Definition number (ds : list Z) : Z :=
  fold_left (fun acc d => 10 * acc + d)%Z ds 0%Z.

Definition sign (s : string) : bool * string :=
  match s with
  | String "+"%char r => (false, r)
  | String "-"%char r => (true, r)
  | _ => (false, s)
  end.

Definition exponent (s : string) : option Z :=
  match s with
  | EmptyString => Some 0%Z
  | String c r =>
      if Ascii.eqb c "e"%char || Ascii.eqb c "E"%char then
        let (neg, r1) := sign r in
        let (ds, r2) := take_digits r1 in
        match ds, r2 with
        | _ :: _, EmptyString =>
            Some (if neg then (- number ds)%Z else number ds)
        | _, _ => None
        end
      else None
  end.

Definition pow10 (e : Z) : Q :=
  if (0 <=? e)%Z then inject_Z (10 ^ e)%Z
  else Qinv (inject_Z (10 ^ (- e))%Z).

Definition parse (s : string) : option Q :=
  let (neg, s1) := sign (PyStr.strip s) in
  let (ip, s2) := take_digits s1 in
  let (fp, s3) :=
    match s2 with
    | String "."%char r => take_digits r
    | _ => ([], s2)
    end in
  match (ip ++ fp)%list with
  | [] => None
  | ds =>
      match exponent s3 with
      | None => None
      | Some e =>
          let m := inject_Z (number ds) in
          let v := Qred (m * pow10 (e - Z.of_nat (List.length fp)))%Q in
          Some (if neg then Qred (- v)%Q else v)
      end
  end.

End DecimalLiteral.

#[export] Instance Qfloat : FloatOps Q := {|
  float_of_string := DecimalLiteral.parse;
  float_of_Z := inject_Z;
  fadd := fun a b => Qred (a + b)%Q;
  fmul := fun a b => Qred (a * b)%Q;
  fdiv := fun a b => if Qeq_bool b 0%Q then None else Some (Qred (a / b)%Q);
  fltb := fun a b => negb (Qle_bool b a)
|}.



(** ** models.py and the settings of config.py *)

Inductive SpindleDirection : Type := CW | CCW | OFF.

Inductive MachineStatus : Type :=
| Idle | Running | Paused | Homing | Alarm | Stopped | Complete.

Definition MachineStatus_eqb (a b : MachineStatus) : bool :=
  match a, b with
  | Idle, Idle | Running, Running | Paused, Paused | Homing, Homing
  | Alarm, Alarm | Stopped, Stopped | Complete, Complete => true
  | _, _ => false
  end.

(** [MachineStatus.x.value] and [MachineStatus(value)] *)
Definition MachineStatus_value (s : MachineStatus) : string :=
  match s with
  | Idle => "Idle" | Running => "Running" | Paused => "Paused"
  | Homing => "Homing" | Alarm => "Alarm" | Stopped => "Stopped"
  | Complete => "Complete"
  end.

Definition MachineStatus_of_value (v : string) : result MachineStatus :=
  if String.eqb v "Idle" then Ok Idle
  else if String.eqb v "Running" then Ok Running
  else if String.eqb v "Paused" then Ok Paused
  else if String.eqb v "Homing" then Ok Homing
  else if String.eqb v "Alarm" then Ok Alarm
  else if String.eqb v "Stopped" then Ok Stopped
  else if String.eqb v "Complete" then Ok Complete
  else Raise ValueError.

Record JobRequest : Type := {
  filename : string;
  tool_id : option Z
}.

Section Models.
Context {float : Type}.

(** A three-element list [[x, y, z]]; the fields are the indices 0, 1, 2. *)
Record vec3 : Type := Vec3 { v0 : float; v1 : float; v2 : float }.

Definition vec_list (v : vec3) : list float := [v0 v; v1 v; v2 v].

Definition set0 (v : vec3) (x : float) : vec3 := Vec3 x (v1 v) (v2 v).
Definition set1 (v : vec3) (x : float) : vec3 := Vec3 (v0 v) x (v2 v).
Definition set2 (v : vec3) (x : float) : vec3 := Vec3 (v0 v) (v1 v) x.

Record Tool : Type := {
  tool_ident : Z;
  tool_name : string;
  diameter_mm : float;
  length_mm : float;
  tool_rpm : Z;
  feed_mm_min : float;
  tool_direction : SpindleDirection;
  climb : bool
}.

Record PathSegment : Type := {
  seg_start : vec3;
  seg_end : vec3;
  rapid : bool
}.

Record Preview : Type := {
  segments : list PathSegment;
  bbox_min : vec3;
  bbox_max : vec3
}.

Record WorkOffset : Type := { wx : float; wy : float; wz : float }.

Record MachineState : Type := {
  status : MachineStatus;
  machine_pos : list float;
  work_offset : WorkOffset;
  feed_rate : float;
  spindle_rpm : float;
  spindle_dir : SpindleDirection;
  tool : option Tool;
  current_line : nat;
  total_lines : nat;
  job_file : option string
}.

Record Config : Type := {
  gcode_dir : string;
  simulation : bool;
  dac_vref : float;
  spindle_max_rpm : float;
  spindle_min_rpm : float
}.

Context {FO : FloatOps float}.

Definition fzero : float := float_of_Z 0.
Definition zero3 : vec3 := Vec3 fzero fzero fzero.

(** [MachineState(status=MachineStatus.idle)] with the declared defaults *)
Definition initial_state : MachineState := {|
  status := Idle;
  machine_pos := [fzero; fzero; fzero];
  work_offset := {| wx := fzero; wy := fzero; wz := fzero |};
  feed_rate := fzero;
  spindle_rpm := fzero;
  spindle_dir := OFF;
  tool := None;
  current_line := 0;
  total_lines := 0;
  job_file := None
|}.

(** Assignments to the fields of the state. *)
Definition set_status (st : MachineState) (v : MachineStatus) : MachineState :=
  {| status := v; machine_pos := machine_pos st; work_offset := work_offset st;
     feed_rate := feed_rate st; spindle_rpm := spindle_rpm st;
     spindle_dir := spindle_dir st; tool := tool st;
     current_line := current_line st; total_lines := total_lines st;
     job_file := job_file st |}.
Definition set_machine_pos (st : MachineState) (v : list float) : MachineState :=
  {| status := status st; machine_pos := v; work_offset := work_offset st;
     feed_rate := feed_rate st; spindle_rpm := spindle_rpm st;
     spindle_dir := spindle_dir st; tool := tool st;
     current_line := current_line st; total_lines := total_lines st;
     job_file := job_file st |}.
Definition set_work_offset (st : MachineState) (v : WorkOffset) : MachineState :=
  {| status := status st; machine_pos := machine_pos st; work_offset := v;
     feed_rate := feed_rate st; spindle_rpm := spindle_rpm st;
     spindle_dir := spindle_dir st; tool := tool st;
     current_line := current_line st; total_lines := total_lines st;
     job_file := job_file st |}.
Definition set_feed_rate (st : MachineState) (v : float) : MachineState :=
  {| status := status st; machine_pos := machine_pos st; work_offset := work_offset st;
     feed_rate := v; spindle_rpm := spindle_rpm st;
     spindle_dir := spindle_dir st; tool := tool st;
     current_line := current_line st; total_lines := total_lines st;
     job_file := job_file st |}.
Definition set_spindle_rpm (st : MachineState) (v : float) : MachineState :=
  {| status := status st; machine_pos := machine_pos st; work_offset := work_offset st;
     feed_rate := feed_rate st; spindle_rpm := v;
     spindle_dir := spindle_dir st; tool := tool st;
     current_line := current_line st; total_lines := total_lines st;
     job_file := job_file st |}.
Definition set_spindle_dir (st : MachineState) (v : SpindleDirection) : MachineState :=
  {| status := status st; machine_pos := machine_pos st; work_offset := work_offset st;
     feed_rate := feed_rate st; spindle_rpm := spindle_rpm st;
     spindle_dir := v; tool := tool st;
     current_line := current_line st; total_lines := total_lines st;
     job_file := job_file st |}.
Definition set_tool_field (st : MachineState) (v : option Tool) : MachineState :=
  {| status := status st; machine_pos := machine_pos st; work_offset := work_offset st;
     feed_rate := feed_rate st; spindle_rpm := spindle_rpm st;
     spindle_dir := spindle_dir st; tool := v;
     current_line := current_line st; total_lines := total_lines st;
     job_file := job_file st |}.
Definition set_current_line (st : MachineState) (v : nat) : MachineState :=
  {| status := status st; machine_pos := machine_pos st; work_offset := work_offset st;
     feed_rate := feed_rate st; spindle_rpm := spindle_rpm st;
     spindle_dir := spindle_dir st; tool := tool st;
     current_line := v; total_lines := total_lines st;
     job_file := job_file st |}.
Definition set_total_lines (st : MachineState) (v : nat) : MachineState :=
  {| status := status st; machine_pos := machine_pos st; work_offset := work_offset st;
     feed_rate := feed_rate st; spindle_rpm := spindle_rpm st;
     spindle_dir := spindle_dir st; tool := tool st;
     current_line := current_line st; total_lines := v;
     job_file := job_file st |}.
Definition set_job_file (st : MachineState) (v : option string) : MachineState :=
  {| status := status st; machine_pos := machine_pos st; work_offset := work_offset st;
     feed_rate := feed_rate st; spindle_rpm := spindle_rpm st;
     spindle_dir := spindle_dir st; tool := tool st;
     current_line := current_line st; total_lines := total_lines st;
     job_file := v |}.

(** [float(s)] as a computation that may raise *)
Definition to_float (s : string) : result float :=
  match float_of_string s with
  | Some v => Ok v
  | None => Raise ValueError
  end.

End Models.

Arguments vec3 : clear implicits.
Arguments Tool : clear implicits.
Arguments PathSegment : clear implicits.
Arguments Preview : clear implicits.
Arguments WorkOffset : clear implicits.
Arguments MachineState : clear implicits.
Arguments Config : clear implicits.

(** ** gcode_parser.py *)

Module GCodeParser.
Section GCodeParser.
Context {float : Type} {FO : FloatOps float}.

Record t : Type := {
  position : vec3 float;
  absolute : bool
}.

Definition reset : t := {| position := zero3; absolute := true |}.

(** The right-hand side
    [float(tok[1:]) if self.absolute else self.position[i] + float(tok[1:])] *)
Definition coordinate (self : t) (cur : float) (tok : string) : result float :=
  d <- to_float (PyStr.tail tok) ;;
  Ok (if absolute self then d else fadd cur d).

(** One round of the loop over the tokens of [_extract_move]. *)
Definition move_token (self : t) (target : vec3 float) (tok : string) : result (vec3 float) :=
  target <- (if PyStr.startswith "X" tok
             then v <- coordinate self (v0 (position self)) tok ;; Ok (set0 target v)
             else Ok target) ;;
  target <- (if PyStr.startswith "Y" tok
             then v <- coordinate self (v1 (position self)) tok ;; Ok (set1 target v)
             else Ok target) ;;
  if PyStr.startswith "Z" tok
  then v <- coordinate self (v2 (position self)) tok ;; Ok (set2 target v)
  else Ok target.

Fixpoint move_tokens (self : t) (target : vec3 float) (tokens : list string)
  : result (vec3 float) :=
  match tokens with
  | [] => Ok target
  | tok :: rest =>
      target <- move_token self target tok ;;
      move_tokens self target rest
  end.

Definition _extract_move (self : t) (line : string) : result (vec3 float * vec3 float) :=
  target <- move_tokens self (position self) (PyStr.split line) ;;
  Ok (position self, target).

(** [min(m, a, b)] and [max(m, a, b)] of the built-ins: the first argument is
    kept unless a later one is strictly smaller (larger). *)
Definition min3 (m a b : float) : float :=
  let r := if fltb a m then a else m in if fltb b r then b else r.
Definition max3 (m a b : float) : float :=
  let r := if fltb m a then a else m in if fltb r b then b else r.
(** The same with [m] the initial [inf] ([-inf]) of the box. *)
Definition min2 (a b : float) : float := if fltb b a then b else a.
Definition max2 (a b : float) : float := if fltb a b then b else a.

Definition zip3 (f : float -> float -> float) (a b : vec3 float) : vec3 float :=
  Vec3 (f (v0 a) (v0 b)) (f (v1 a) (v1 b)) (f (v2 a) (v2 b)).
Definition zip3' (f : float -> float -> float -> float) (m a b : vec3 float) : vec3 float :=
  Vec3 (f (v0 m) (v0 a) (v0 b)) (f (v1 m) (v1 a) (v1 b)) (f (v2 m) (v2 a) (v2 b)).

(** The bounding box under construction: [None] is the initial pair
    [[inf, inf, inf]], [[-inf, -inf, -inf]]. *)
Definition bbox : Type := option (vec3 float * vec3 float).

Definition extend (b : bbox) (start end_ : vec3 float) : bbox :=
  match b with
  | None => Some (zip3 min2 start end_, zip3 max2 start end_)
  | Some (lo, hi) => Some (zip3' min3 lo start end_, zip3' max3 hi start end_)
  end.

(** The local variables of [parse_file] together with [self]. *)
Record frame : Type := {
  self_ : t;
  segs : list (PathSegment float);
  box : bbox
}.

(** The comment-free residue [raw.split(";")[0].split("(")[0].strip()] *)
Definition residue (raw : string) : string :=
  PyStr.strip
    (hd EmptyString
        (PyStr.split_on "("%char
           (hd EmptyString (PyStr.split_on ";"%char raw)))).

Definition set_mode (self : t) (code : string) : t :=
  let self := if PyStr.contains "G90" code
              then {| position := position self; absolute := true |} else self in
  if PyStr.contains "G91" code
  then {| position := position self; absolute := false |} else self.

Definition is_motion (code : string) : bool :=
  PyStr.startswith "G0" code || PyStr.startswith "G1" code.

(** The body of the loop of [parse_file] for one physical line. *)
Definition parse_line (fr : frame) (raw : string) : result frame :=
  let line := residue raw in
  if PyStr.is_empty line then Ok fr
  else
    let code := PyStr.upper line in
    let self := set_mode (self_ fr) code in
    if is_motion code then
      let rapid := PyStr.startswith "G0" code in
      mv <- _extract_move self code ;;
      let start := position self in
      let end_ := snd mv in
      Ok {| self_ := {| position := end_; absolute := absolute self |};
            segs := segs fr ++ [{| seg_start := start; seg_end := end_; rapid := rapid |}];
            box := extend (box fr) start end_ |}
    else Ok {| self_ := self; segs := segs fr; box := box fr |}.

Fixpoint parse_lines (fr : frame) (lines : list string) : result frame :=
  match lines with
  | [] => Ok fr
  | raw :: rest => fr <- parse_line fr raw ;; parse_lines fr rest
  end.

(** The lines [path.read_text(encoding="utf-8", errors="ignore").splitlines()]
    of a file whose decoded content is [content]. *)
Definition file_lines (content : string) : list string :=
  PyStr.splitlines (PyStr.universal_newlines content).

Definition parse_file (content : string) : result (Preview float) :=
  fr <- parse_lines {| self_ := reset; segs := []; box := None |}
                    (file_lines content) ;;
  Ok match box fr with
     | None => {| segments := segs fr; bbox_min := zero3; bbox_max := zero3 |}
     | Some (lo, hi) => {| segments := segs fr; bbox_min := lo; bbox_max := hi |}
     end.

End GCodeParser.
End GCodeParser.

Arguments GCodeParser.t : clear implicits.
Arguments GCodeParser.frame : clear implicits.
Arguments GCodeParser.bbox : clear implicits.

(** ** machine.py: SimpleMoveTracker *)

Module SimpleMoveTracker.
Section SimpleMoveTracker.
Context {float : Type} {FO : FloatOps float}.

Record t : Type := {
  position : vec3 float;
  absolute : bool
}.

Definition init : t := {| position := zero3; absolute := true |}.

Definition coordinate (self : t) (cur : float) (tok : string) : result float :=
  d <- to_float (PyStr.tail tok) ;;
  Ok (if absolute self then d else fadd cur d).

Definition move_token (self : t) (target : vec3 float) (tok : string) : result (vec3 float) :=
  target <- (if PyStr.startswith "X" tok
             then v <- coordinate self (v0 (position self)) tok ;; Ok (set0 target v)
             else Ok target) ;;
  target <- (if PyStr.startswith "Y" tok
             then v <- coordinate self (v1 (position self)) tok ;; Ok (set1 target v)
             else Ok target) ;;
  if PyStr.startswith "Z" tok
  then v <- coordinate self (v2 (position self)) tok ;; Ok (set2 target v)
  else Ok target.

Fixpoint move_tokens (self : t) (target : vec3 float) (tokens : list string)
  : result (vec3 float) :=
  match tokens with
  | [] => Ok target
  | tok :: rest =>
      target <- move_token self target tok ;;
      move_tokens self target rest
  end.

(** [consume(line)]: the tracker after the call and the returned position;
    an exception leaves the mode already updated. *)
Definition consume (self : t) (line : string) : t * result (vec3 float) :=
  let code := PyStr.upper line in
  let self := if PyStr.contains "G90" code
              then {| position := position self; absolute := true |} else self in
  let self := if PyStr.contains "G91" code
              then {| position := position self; absolute := false |} else self in
  if PyStr.startswith "G0" code || PyStr.startswith "G1" code then
    match move_tokens self (position self) (PyStr.split code) with
    | Ok target =>
        let self := {| position := target; absolute := absolute self |} in
        (self, Ok (position self))
    | Raise e => (self, Raise e)
    end
  else (self, Ok (position self)).

End SimpleMoveTracker.
End SimpleMoveTracker.

Arguments SimpleMoveTracker.t : clear implicits.

(** ** grbl_client.py *)

Module GrblClient.
Section GrblClient.
Context {float : Type} {FO : FloatOps float}.

(** The link as the controller sees it: the connected flag, the lines put on
    the transmit queue and the real-time bytes written to the device. *)
Record t : Type := {
  connected : bool;
  tx_queue : list string;
  realtime : list string
}.

Definition init : t := {| connected := false; tx_queue := []; realtime := [] |}.

Definition send_line (self : t) (line : string) : t :=
  if negb (connected self) then self
  else {| connected := connected self;
          tx_queue := tx_queue self
                      ++ [(PyStr.strip line ++ String PyStr.LF EmptyString)%string];
          realtime := realtime self |}.

Definition realtime_command (self : t) (code : string) : t :=
  if negb (connected self) then self
  else {| connected := connected self;
          tx_queue := tx_queue self;
          realtime := realtime self ++ [code] |}.

(** The dict built by [_parse_status]: a key that is absent is [None]. *)
Record payload : Type := {
  p_status : option string;
  p_machine_pos : option (list float);
  p_work_offset : option (list float);
  p_feed_rate : option float;
  p_spindle_rpm : option float
}.

Definition is_state_word (token : string) : bool :=
  String.eqb token "Idle" || String.eqb token "Run" || String.eqb token "Hold"
  || String.eqb token "Alarm" || String.eqb token "Home".

(** The inner dict [{...}.get(token, MachineStatus.idle.value)] *)
Definition state_word (token : string) : string :=
  if String.eqb token "Idle" then MachineStatus_value Idle
  else if String.eqb token "Run" then MachineStatus_value Running
  else if String.eqb token "Hold" then MachineStatus_value Paused
  else if String.eqb token "Home" then MachineStatus_value Homing
  else if String.eqb token "Alarm" then MachineStatus_value Alarm
  else MachineStatus_value Idle.

(** [[float(c) for c in coords]] *)
Fixpoint floats (coords : list string) : result (list float) :=
  match coords with
  | [] => Ok []
  | c :: rest => v <- to_float c ;; vs <- floats rest ;; Ok (v :: vs)
  end.

(** [token.split(":")[1].split(",")] *)
Definition fields (token : string) : result (list string) :=
  f <- PyStr.index (PyStr.split_on ":"%char token) 1 ;;
  Ok (PyStr.split_on ","%char f).

(** One round of the loop over the tokens of the frame. *)
Definition parse_token (p : payload) (token : string) : result payload :=
  let p := if is_state_word token
           then {| p_status := Some (state_word token);
                   p_machine_pos := p_machine_pos p;
                   p_work_offset := p_work_offset p;
                   p_feed_rate := p_feed_rate p;
                   p_spindle_rpm := p_spindle_rpm p |}
           else p in
  p <- (if PyStr.startswith "MPos:" token
        then coords <- fields token ;; vs <- floats coords ;;
             Ok {| p_status := p_status p;
                   p_machine_pos := Some vs;
                   p_work_offset := p_work_offset p;
                   p_feed_rate := p_feed_rate p;
                   p_spindle_rpm := p_spindle_rpm p |}
        else Ok p) ;;
  p <- (if PyStr.startswith "WCO:" token
        then coords <- fields token ;; vs <- floats coords ;;
             Ok {| p_status := p_status p;
                   p_machine_pos := p_machine_pos p;
                   p_work_offset := Some vs;
                   p_feed_rate := p_feed_rate p;
                   p_spindle_rpm := p_spindle_rpm p |}
        else Ok p) ;;
  if PyStr.startswith "FS:" token
  then vals <- fields token ;;
       a <- PyStr.index vals 0 ;; feed <- to_float a ;;
       b <- PyStr.index vals 1 ;; rpm <- to_float b ;;
       Ok {| p_status := p_status p;
             p_machine_pos := p_machine_pos p;
             p_work_offset := p_work_offset p;
             p_feed_rate := Some feed;
             p_spindle_rpm := Some rpm |}
  else Ok p.

Fixpoint parse_tokens (p : payload) (raw : list string) : result payload :=
  match raw with
  | [] => Ok p
  | token :: rest => p <- parse_token p token ;; parse_tokens p rest
  end.

Definition angle (c : ascii) : bool :=
  Ascii.eqb c "<"%char || Ascii.eqb c ">"%char.

(** [status_line.strip("<>").split("|")] *)
Definition frame_fields (status_line : string) : list string :=
  PyStr.split_on "|"%char (PyStr.strip_chars angle status_line).

Definition _parse_status (status_line : string) : result payload :=
  let raw := frame_fields status_line in
  parse_tokens {| p_status := Some (MachineStatus_value Idle);
                  p_machine_pos := None;
                  p_work_offset := None;
                  p_feed_rate := None;
                  p_spindle_rpm := None |} raw.

End GrblClient.
End GrblClient.

Arguments GrblClient.payload : clear implicits.

(** ** grbl_client.py: SpindleShim *)

Module SpindleShim.
Section SpindleShim.
Context {float : Type} {FO : FloatOps float}.

(** The calls received by the spindle sink ([vfd]), oldest first. *)
Inductive call : Type :=
| set_direction (direction : SpindleDirection)
| set_voltage (volts : float).

(** [max(a, b)] and [min(a, b)] of the built-ins *)
Definition py_max (a b : float) : float := if fltb a b then b else a.
Definition py_min (a b : float) : float := if fltb b a then b else a.

Definition clamp (cfg : Config float) (rpm : float) : float :=
  py_min (py_max rpm (spindle_min_rpm cfg)) (spindle_max_rpm cfg).

Definition volts_of (cfg : Config float) (rpm : float) : result float :=
  match fdiv (clamp cfg rpm) (spindle_max_rpm cfg) with
  | Some ratio => Ok (fmul ratio (dac_vref cfg))
  | None => Raise ZeroDivisionError
  end.

(** [apply(rpm, direction)] on a sink that has received [vfd] so far. *)
Definition apply (cfg : Config float) (vfd : list call) (rpm : float)
           (direction : SpindleDirection) : result (list call) :=
  volts <- volts_of cfg rpm ;;
  Ok (vfd ++ [set_direction direction; set_voltage volts]).

End SpindleShim.
End SpindleShim.

Arguments SpindleShim.call : clear implicits.

(** ** storage.py: FileStore *)

Module FileStore.

(** A [pathlib] path on POSIX: absolute or relative, and its components
    (empty components and [.] are dropped on construction, [..] is kept). *)
Record Path : Type := {
  anchored : bool;
  parts : list string
}.

Definition keep (part : string) : bool :=
  negb (PyStr.is_empty part) && negb (String.eqb part ".").

Definition path_of (s : string) : Path :=
  {| anchored := PyStr.startswith "/" s;
     parts := filter keep (PyStr.split_on "/"%char s) |}.

(** [p / name] *)
Definition joinpath (p : Path) (name : string) : Path :=
  let q := path_of name in
  if anchored q then q
  else {| anchored := anchored p; parts := parts p ++ parts q |}.

(** [os.path.basename(name)]: what follows the last slash. *)
Definition basename (name : string) : string :=
  last (PyStr.split_on "/"%char name) EmptyString.

(** The components after the operating system has followed every [..]. *)
Fixpoint resolve_parts (done : list string) (todo : list string) : list string :=
  match todo with
  | [] => rev done
  | part :: rest =>
      if String.eqb part ".." then resolve_parts (List.tl done) rest
      else resolve_parts (part :: done) rest
  end.

Definition resolve (p : Path) : list string := resolve_parts [] (parts p).

Fixpoint is_prefix (xs ys : list string) : bool :=
  match xs, ys with
  | [], _ => true
  | x :: xs', y :: ys' => String.eqb x y && is_prefix xs' ys'
  | _ :: _, [] => false
  end.

(** The path denotes a location inside the directory [root]. *)
Definition inside (root p : Path) : bool :=
  is_prefix (resolve root) (resolve p).

(** The store: the content directory and the decoded content of the regular
    files of the file system, by resolved location. *)
Record t : Type := {
  root : Path;
  content : list string -> option string
}.

Definition exists_ (self : t) (p : Path) : bool :=
  match content self (resolve p) with Some _ => true | None => false end.

(** [save_file(filename, data)]: the path written to. *)
Definition save_file (self : t) (filename : string) : Path :=
  let safe_name := basename filename in
  joinpath (root self) safe_name.

Definition path_for (self : t) (filename : string) : Path :=
  joinpath (root self) filename.

(** [delete(filename)]: the path unlinked, if it exists. *)
Definition delete (self : t) (filename : string) : option Path :=
  let path := joinpath (root self) filename in
  if exists_ self path then Some path else None.

(** [line_count]: the number of items of the text-mode file iterator. *)
Definition line_count (self : t) (filename : string) : result nat :=
  match content self (resolve (path_for self filename)) with
  | Some text => Ok (PyStr.count_iter_lines (PyStr.universal_newlines text))
  | None => Raise (FileNotFoundError filename)
  end.

(** [path.read_text(encoding="utf-8", errors="ignore").splitlines()] *)
Definition read_lines (self : t) (p : Path) : result (list string) :=
  match content self (resolve p) with
  | Some text => Ok (PyStr.splitlines (PyStr.universal_newlines text))
  | None => Raise (FileNotFoundError EmptyString)
  end.

End FileStore.

(** ** machine.py: MachineController *)

Module MachineController.
Section MachineController.
Context {float : Type} {FO : FloatOps float}.

(** The job executor thread running [_run_job(lines)]: [Looping idx rest] is
    at the head of the [for] loop, [rest] being the lines not yet taken and
    [idx] the index [enumerate(lines, start=1)] gives to the first of them. *)
Inductive thread : Type :=
| NoThread
| Looping (idx : nat) (rest : list string)
| Finished
| Died (e : exn).

Record t : Type := {
  files : FileStore.t;
  tools : Z -> option (Tool float);
  cfg : Config float;
  grbl : GrblClient.t;
  vfd : list (SpindleShim.call float);
  vacuum : list bool;
  state : MachineState float;
  stop_flag : bool;
  move_tracker : SimpleMoveTracker.t float;
  job_thread : thread
}.

Definition with_grbl (self : t) (v : GrblClient.t) : t :=
  {| files := files self; tools := tools self; cfg := cfg self; grbl := v;
     vfd := vfd self; vacuum := vacuum self; state := state self;
     stop_flag := stop_flag self; move_tracker := move_tracker self;
     job_thread := job_thread self |}.
Definition with_vfd (self : t) (v : list (SpindleShim.call float)) : t :=
  {| files := files self; tools := tools self; cfg := cfg self; grbl := grbl self;
     vfd := v; vacuum := vacuum self; state := state self;
     stop_flag := stop_flag self; move_tracker := move_tracker self;
     job_thread := job_thread self |}.
Definition with_vacuum (self : t) (v : list bool) : t :=
  {| files := files self; tools := tools self; cfg := cfg self; grbl := grbl self;
     vfd := vfd self; vacuum := v; state := state self;
     stop_flag := stop_flag self; move_tracker := move_tracker self;
     job_thread := job_thread self |}.
Definition with_state (self : t) (v : MachineState float) : t :=
  {| files := files self; tools := tools self; cfg := cfg self; grbl := grbl self;
     vfd := vfd self; vacuum := vacuum self; state := v;
     stop_flag := stop_flag self; move_tracker := move_tracker self;
     job_thread := job_thread self |}.
Definition with_stop_flag (self : t) (v : bool) : t :=
  {| files := files self; tools := tools self; cfg := cfg self; grbl := grbl self;
     vfd := vfd self; vacuum := vacuum self; state := state self;
     stop_flag := v; move_tracker := move_tracker self;
     job_thread := job_thread self |}.
Definition with_move_tracker (self : t) (v : SimpleMoveTracker.t float) : t :=
  {| files := files self; tools := tools self; cfg := cfg self; grbl := grbl self;
     vfd := vfd self; vacuum := vacuum self; state := state self;
     stop_flag := stop_flag self; move_tracker := v;
     job_thread := job_thread self |}.
Definition with_job_thread (self : t) (v : thread) : t :=
  {| files := files self; tools := tools self; cfg := cfg self; grbl := grbl self;
     vfd := vfd self; vacuum := vacuum self; state := state self;
     stop_flag := stop_flag self; move_tracker := move_tracker self;
     job_thread := v |}.

(** [MachineController(files, tools, parser, vfd, vacuum)] *)
Definition init (files : FileStore.t) (tools : Z -> option (Tool float))
           (cfg : Config float) : t :=
  {| files := files; tools := tools; cfg := cfg; grbl := GrblClient.init;
     vfd := []; vacuum := []; state := initial_state;
     stop_flag := false; move_tracker := SimpleMoveTracker.init;
     job_thread := NoThread |}.

(** [_ingest_status(payload)]; the assignments made before an exception
    stay in the state. *)
Definition _ingest_status (self : t) (p : GrblClient.payload float)
  : t * result unit :=
  let st := state self in
  match (match GrblClient.p_status p with
         | Some v => m <- MachineStatus_of_value v ;; Ok (set_status st m)
         | None => Ok st
         end) with
  | Raise e => (self, Raise e)
  | Ok st =>
      let st := match GrblClient.p_machine_pos p with
                | Some v => set_machine_pos st v | None => st end in
      let st := match GrblClient.p_feed_rate p with
                | Some v => set_feed_rate st v | None => st end in
      let st := match GrblClient.p_spindle_rpm p with
                | Some v => set_spindle_rpm st v | None => st end in
      match GrblClient.p_work_offset p with
      | Some w =>
          match (x <- PyStr.index w 0 ;; y <- PyStr.index w 1 ;;
                 z <- PyStr.index w 2 ;;
                 Ok {| wx := x; wy := y; wz := z |}) with
          | Ok o => (with_state self (set_work_offset st o), Ok tt)
          | Raise e => (with_state self st, Raise e)
          end
      | None => (with_state self st, Ok tt)
      end
  end.

(** One line read by the ingress worker ([GrblClient._rx_loop]) with the
    controller's [_ingest_status] as the callback. *)
Definition receive (self : t) (data : string) : t * result unit :=
  let line := PyStr.strip data in
  if PyStr.is_empty line then (self, Ok tt)
  else if PyStr.startswith "<" line then
    match GrblClient._parse_status line with
    | Ok parsed => _ingest_status self parsed
    | Raise e => (self, Raise e)
    end
  else (self, Ok tt).

(** [set_tool(tool_id)] *)
Definition set_tool (self : t) (tool_id : option Z) : t * option (Tool float) :=
  let tool := match tool_id with
              | Some n => if Z.eqb n 0 then None else tools self n
              | None => None
              end in
  (with_state self (set_tool_field (state self) tool), tool).

Definition busy (s : MachineStatus) : bool :=
  MachineStatus_eqb s Running || MachineStatus_eqb s Paused.

(** [start_job(request)] *)
Definition start_job (self : t) (request : JobRequest) : t * result unit :=
  let path := FileStore.path_for (files self) (filename request) in
  if negb (FileStore.exists_ (files self) path)
  then (self, Raise (FileNotFoundError (filename request)))
  else if busy (status (state self))
  then (self, Raise (RuntimeError "Job already running"))
  else
    let st := set_status (state self) Running in
    let st := set_job_file st (Some (filename request)) in
    let st := set_current_line st 0 in
    match FileStore.line_count (files self) (filename request) with
    | Raise e => (with_state self st, Raise e)
    | Ok n =>
        let self := with_state self (set_total_lines st n) in
        let (self, tool) := set_tool self (tool_id request) in
        match (match tool with
               | Some tl =>
                   let rpm := float_of_Z (tool_rpm tl) in
                   let st := set_spindle_rpm (state self) rpm in
                   let st := set_spindle_dir st (tool_direction tl) in
                   let self := with_state self st in
                   match SpindleShim.apply (cfg self) (vfd self) rpm
                                           (tool_direction tl) with
                   | Ok log => (with_vfd self log, Ok tt)
                   | Raise e => (self, Raise e)
                   end
               | None => (self, Ok tt)
               end) with
        | (self, Raise e) => (self, Raise e)
        | (self, Ok _) =>
            let self := with_vacuum self (vacuum self ++ [true]) in
            let self := with_stop_flag self false in
            match FileStore.read_lines (files self) path with
            | Raise e => (self, Raise e)
            | Ok lines =>
                let self := with_move_tracker self SimpleMoveTracker.init in
                (with_job_thread self (Looping 1 lines), Ok tt)
            end
        end
    end.

(** The direction and the rpm found by [_handle_spindle_tokens]. *)
Definition scan_direction (code : string) : option SpindleDirection :=
  if PyStr.contains "M3" code then Some CW
  else if PyStr.contains "M4" code then Some CCW
  else if PyStr.contains "M5" code then Some OFF
  else None.

Definition scan_rpm (code : string) : option float :=
  if PyStr.contains "S" code then
    match filter (PyStr.startswith "S") (PyStr.split code) with
    | token :: _ => float_of_string (PyStr.tail token)
    | [] => None
    end
  else None.

Definition _handle_spindle_tokens (self : t) (line : string) : t * result unit :=
  let code := PyStr.upper line in
  let direction := scan_direction code in
  let rpm := scan_rpm code in
  let st := state self in
  let st := match rpm with Some v => set_spindle_rpm st v | None => st end in
  let st := match direction with Some d => set_spindle_dir st d | None => st end in
  let self := with_state self st in
  match SpindleShim.apply (cfg self) (vfd self)
                          (spindle_rpm (state self)) (spindle_dir (state self)) with
  | Ok log => (with_vfd self log, Ok tt)
  | Raise e => (self, Raise e)
  end.

(** The end of [_run_job], after the loop. *)
Definition finish (self : t) : t :=
  let st := set_status (state self)
              (if stop_flag self then Stopped else Complete) in
  let self := with_state self st in
  let self := with_vacuum self (vacuum self ++ [false]) in
  with_job_thread self Finished.

(** One turn of the executor: at the head of the loop it leaves the loop
    when the stop flag is set, waits in the pause gate while the status is
    [Paused], and otherwise runs the body on the next line. *)
Definition step (self : t) : t :=
  match job_thread self with
  | Looping idx [] => finish self
  | Looping idx (raw :: rest) =>
      if stop_flag self then finish self
      else if MachineStatus_eqb (status (state self)) Paused then self
      else
        let line := PyStr.strip raw in
        if PyStr.is_empty line then with_job_thread self (Looping (S idx) rest)
        else
          match _handle_spindle_tokens self line with
          | (self, Raise e) => with_job_thread self (Died e)
          | (self, Ok _) =>
              if GrblClient.connected (grbl self) then
                let self := with_grbl self (GrblClient.send_line (grbl self) line) in
                let self := with_state self (set_current_line (state self) idx) in
                with_job_thread self (Looping (S idx) rest)
              else
                match SimpleMoveTracker.consume (move_tracker self) line with
                | (tr, Ok new_pos) =>
                    let self := with_move_tracker self tr in
                    let st := set_machine_pos (state self) (vec_list new_pos) in
                    let st := set_current_line st idx in
                    let self := with_state self st in
                    with_job_thread self (Looping (S idx) rest)
                | (tr, Raise e) =>
                    with_job_thread (with_move_tracker self tr) (Died e)
                end
          end
  | NoThread | Finished | Died _ => self
  end.

Definition pause (self : t) : t :=
  let self := if GrblClient.connected (grbl self)
              then with_grbl self (GrblClient.realtime_command (grbl self) "!")
              else self in
  if MachineStatus_eqb (status (state self)) Running
  then with_state self (set_status (state self) Paused)
  else self.

Definition resume (self : t) : t :=
  let self := if GrblClient.connected (grbl self)
              then with_grbl self (GrblClient.realtime_command (grbl self) "~")
              else self in
  if MachineStatus_eqb (status (state self)) Paused
  then with_state self (set_status (state self) Running)
  else self.

Definition CAN : string := String (ascii_of_nat 24) EmptyString.

Definition stop (self : t) : t :=
  let self := with_stop_flag self true in
  let self := if GrblClient.connected (grbl self)
              then with_grbl self (GrblClient.realtime_command (grbl self) CAN)
              else self in
  with_state self (set_status (state self) Stopped).

Definition home (self : t) : t :=
  let self := if GrblClient.connected (grbl self)
              then with_grbl self (GrblClient.send_line (grbl self) "$H")
              else self in
  with_state self (set_status (state self) Homing).

(** What can happen to the controller, one at a time: a turn of the
    executor thread, an operator command, a line from the link. *)
Inductive event : Type :=
| Turn
| StartJob (request : JobRequest)
| Pause
| Resume
| Stop
| Home
| Line (data : string).

Definition handle (self : t) (ev : event) : t :=
  match ev with
  | Turn => step self
  | StartJob request => fst (start_job self request)
  | Pause => pause self
  | Resume => resume self
  | Stop => stop self
  | Home => home self
  | Line data => fst (receive self data)
  end.

Definition run (self : t) (evs : list event) : t := fold_left handle evs self.

(** The states the controller goes through, the initial one first. *)
Fixpoint trace (self : t) (evs : list event) : list t :=
  self ::
  match evs with
  | [] => []
  | ev :: rest => trace (handle self ev) rest
  end.

End MachineController.
End MachineController.

Arguments MachineController.t : clear implicits.

(** ** Concrete settings for the runs below *)

Module Scenario.

Definition nl : string := String PyStr.LF EmptyString.
(** the form feed *)
Definition ff : string := String (ascii_of_nat 12) EmptyString.

(** The defaults of [config.py]: 5 V full scale, 0 to 24000 rpm. *)
Definition cfg : Config Q := {|
  gcode_dir := "/srv/data/gcode";
  simulation := true;
  dac_vref := 5%Q;
  spindle_max_rpm := 24000%Q;
  spindle_min_rpm := 0%Q
|}.


Fixpoint parts_eqb (xs ys : list string) : bool :=
  match xs, ys with
  | [], [] => true
  | x :: xs', y :: ys' => String.eqb x y && parts_eqb xs' ys'
  | _, _ => false
  end.

Fixpoint lookup (files : list (string * string)) (p : list string) : option string :=
  match files with
  | [] => None
  | (name, text) :: rest =>
      if parts_eqb (FileStore.resolve (FileStore.path_of name)) p
      then Some text else lookup rest p
  end.

(** A file system holding the given files (absolute name, content), with
    the content directory of [cfg]. *)
Definition store (files : list (string * string)) : FileStore.t :=
  {| FileStore.root := FileStore.path_of (gcode_dir cfg);
     FileStore.content := lookup files |}.

Definition no_tools : Z -> option (Tool Q) := fun _ => None.

(** A freshly built controller in simulation (no link) whose content
    directory holds [job.nc] with the given text, and a tool database file
    next to the content directory. *)
Definition controller (text : string) : MachineController.t Q :=
  MachineController.init
    (store [("/srv/data/gcode/job.nc", text); ("/srv/data/tools.db", "SQLite")])
    no_tools cfg.

Definition job : JobRequest := {| filename := "job.nc"; tool_id := None |}.

(** The same controller while a job is running. *)
Definition running (text : string) : MachineController.t Q :=
  MachineController.handle (controller text) (MachineController.StartJob job).

(** [start_job] followed by [n] turns of the executor. *)
Definition simulate (text : string) (n : nat) : MachineController.t Q :=
  MachineController.run (controller text)
    (MachineController.StartJob job :: repeat MachineController.Turn n).

Definition q3 (x y z : Q) : vec3 Q := Vec3 x y z.

End Scenario.

(** ** Line classes used by the statements on the preview *)

Module Lines.

(** The test the parser makes: the comment-free, trimmed, upper-cased text
    of the line starts with the characters [G0] or [G1]. *)
Definition starts_with_motion_prefix (raw : string) : bool :=
  GCodeParser.is_motion (PyStr.upper (GCodeParser.residue raw)).

(** The wording of the specification: the first white-space separated token
    of the comment-free, trimmed (and upper-cased) line is the word [G0] or
    the word [G1]. *)
Definition first_token_is_G0_or_G1 (raw : string) : bool :=
  match PyStr.split (PyStr.upper (GCodeParser.residue raw)) with
  | tok :: _ => String.eqb tok "G0" || String.eqb tok "G1"
  | [] => false
  end.

Definition count (p : string -> bool) (lines : list string) : nat :=
  List.length (filter p lines).

(** The character occurs in the text. *)
Fixpoint has_char (c : ascii) (s : string) : bool :=
  match s with
  | EmptyString => false
  | String d r => Ascii.eqb d c || has_char c r
  end.

(** The line carries no comment: neither [;] nor [(] occurs in it. *)
Definition comment_free (raw : string) : bool :=
  negb (has_char ";"%char raw) && negb (has_char "("%char raw).

End Lines.

(** ** The tracker as the executor drives it *)

Module Simulation.
Section Simulation.
Context {float : Type} {FO : FloatOps float}.

(** What [_run_job] does with the tracker for one line when no link is
    attached: nothing for a line that is empty once stripped,
    [consume(raw.strip())] otherwise. *)
Definition track_line (tr : SimpleMoveTracker.t float) (raw : string)
  : result (SimpleMoveTracker.t float) :=
  let line := PyStr.strip raw in
  if PyStr.is_empty line then Ok tr
  else
    match SimpleMoveTracker.consume tr line with
    | (tr', Ok _) => Ok tr'
    | (_, Raise e) => Raise e
    end.

Fixpoint track (tr : SimpleMoveTracker.t float) (lines : list string)
  : result (SimpleMoveTracker.t float) :=
  match lines with
  | [] => Ok tr
  | raw :: rest => tr <- track_line tr raw ;; track tr rest
  end.

(** The position of a fresh tracker after the lines of the file. *)
Definition final_position (content : string) : result (vec3 float) :=
  tr <- track SimpleMoveTracker.init (GCodeParser.file_lines content) ;;
  Ok (SimpleMoveTracker.position tr).

(** The line is empty once stripped: the executor skips it. *)
Definition blank (raw : string) : bool := PyStr.is_empty (PyStr.strip raw).

(** Some line reaches the tracker. *)
Definition consumed (lines : list string) : bool :=
  existsb (fun raw => negb (blank raw)) lines.

(** [segments[-1].end], when there is a segment *)
Definition last_end (segs : list (PathSegment float)) : option (vec3 float) :=
  match rev segs with
  | seg :: _ => Some (seg_end seg)
  | [] => None
  end.

End Simulation.
End Simulation.

(** ** The clamp of the specification *)

Module Spec.

(** [clamp(x, lo, hi)]: [lo] below the interval, [hi] above it, [x] inside. *)
Definition clamp (x lo hi : Q) : Q :=
  if Qle_bool lo x then (if Qle_bool x hi then x else hi) else lo.

End Spec.

(** ** Relations and invariants used by the statements *)

Section Invariants.
Context {float : Type} {FO : FloatOps float}.

(** The parser's state and the tracker's hold the same position and mode. *)
Definition same_state (p : GCodeParser.t float)
           (tr : SimpleMoveTracker.t float) : Prop :=
  GCodeParser.position p = SimpleMoveTracker.position tr /\
  GCodeParser.absolute p = SimpleMoveTracker.absolute tr.

(** The last segment, when there is one, ends at the parser's position. *)
Definition ends_at_position (fr : GCodeParser.frame float) : Prop :=
  forall pos, Simulation.last_end (GCodeParser.segs fr) = Some pos ->
              pos = GCodeParser.position (GCodeParser.self_ fr).

(** The outcomes of the parser and of the tracker match. *)
Definition agree (a : result (GCodeParser.frame float))
           (b : result (SimpleMoveTracker.t float)) : Prop :=
  match a, b with
  | Ok fr, Ok tr => same_state (GCodeParser.self_ fr) tr
  | Raise e, Raise e' => e = e'
  | _, _ => False
  end.

(** The status of an update is the value of a member of [MachineStatus]. *)
Definition known_status (o : option string) : Prop :=
  exists m, o = Some (MachineStatus_value m).

(** The executor runs undisturbed without a link: no stop, no pause, and the
    division by [max_rpm] of the spindle shim is defined. *)
Definition simulating (self : MachineController.t float) : Prop :=
  MachineController.stop_flag self = false /\
  status (MachineController.state self) = Running /\
  GrblClient.connected (MachineController.grbl self) = false /\
  forall rpm, exists volts,
      SpindleShim.volts_of (MachineController.cfg self) rpm = Ok volts.

(** Within a job over [n] lines the counter stays below the index of the
    next line, hence at most [n]. *)
Definition in_job (n : nat) (self : MachineController.t float) : Prop :=
  match MachineController.job_thread self with
  | MachineController.Looping idx rest =>
      current_line (MachineController.state self) < idx /\
      idx + List.length rest = S n
  | _ => current_line (MachineController.state self) <= n
  end.

Definition within_job (ev : MachineController.event) : Prop :=
  match ev with
  | MachineController.StartJob _ => False
  | _ => True
  end.

Fixpoint nondecreasing (xs : list nat) : Prop :=
  match xs with
  | x :: rest =>
      match rest with
      | y :: _ => x <= y
      | [] => True
      end /\ nondecreasing rest
  | [] => True
  end.

End Invariants.

(** ** Shapes of previews *)

Module Path.
Section Path.
Context {float : Type} {FO : FloatOps float}.

(** The segments lead from [start] to [stop] without a gap: each one starts
    where the one before ended. *)
Fixpoint connects (start : vec3 float) (segs : list (PathSegment float))
         (stop : vec3 float) : Prop :=
  match segs with
  | [] => start = stop
  | seg :: rest => seg_start seg = start /\ connects (seg_end seg) rest stop
  end.

Definition is_some {A : Type} (o : option A) : bool :=
  match o with Some _ => true | None => false end.

(** The number after an axis letter can be read by [float()]. *)
Definition axis_word_ok (tok : string) : bool :=
  (if PyStr.startswith "X" tok then is_some (float_of_string (PyStr.tail tok)) else true)
  && (if PyStr.startswith "Y" tok then is_some (float_of_string (PyStr.tail tok)) else true)
  && (if PyStr.startswith "Z" tok then is_some (float_of_string (PyStr.tail tok)) else true).

(** The line is no motion line, or all its axis words can be read. *)
Definition line_readable (raw : string) : bool :=
  negb (Lines.starts_with_motion_prefix raw)
  || forallb axis_word_ok (PyStr.split (PyStr.upper (GCodeParser.residue raw))).

End Path.




End Path.

(** ** Files whose lines end in LF, CR or CR LF only *)

Module TextLines.

(** No line boundary other than LF and CR. *)
Definition plain_char (c : ascii) : bool :=
  negb (PyStr.is_linebreak c) || Ascii.eqb c PyStr.LF || Ascii.eqb c PyStr.CR.

Fixpoint plain_breaks (s : string) : bool :=
  match s with
  | EmptyString => true
  | String c r => plain_char c && plain_breaks r
  end.

(** No line boundary other than LF. *)
Definition unix_char (c : ascii) : bool :=
  negb (PyStr.is_linebreak c) || Ascii.eqb c PyStr.LF.

Fixpoint unix_breaks (s : string) : bool :=
  match s with
  | EmptyString => true
  | String c r => unix_char c && unix_breaks r
  end.

End TextLines.

(** ** Conditions on a running job *)

Section JobConditions.
Context {float : Type} {FO : FloatOps float}.

(** The executor runs undisturbed with the link attached. *)
Definition streaming (self : MachineController.t float) : Prop :=
  MachineController.stop_flag self = false /\
  status (MachineController.state self) = Running /\
  GrblClient.connected (MachineController.grbl self) = true /\
  forall rpm, exists volts,
      SpindleShim.volts_of (MachineController.cfg self) rpm = Ok volts.

(** What [send_line] puts on the queue for a line of the job. *)
Definition framed (raw : string) : string :=
  (PyStr.strip raw ++ String PyStr.LF EmptyString)%string.

Definition not_blank (raw : string) : bool := negb (Simulation.blank raw).

End JobConditions.

(** ** A controller with the link attached *)

Module Linked.

Definition link : GrblClient.t :=
  {| GrblClient.connected := true; GrblClient.tx_queue := []; GrblClient.realtime := [] |}.

(** The controller of [Scenario] after [connect()] and an accepted
    [start_job]. *)
Definition running (text : string) : MachineController.t Q :=
  MachineController.handle
    (MachineController.with_grbl (Scenario.controller text) link)
    (MachineController.StartJob Scenario.job).

End Linked.

(** ** Path components *)

Module Parts.

Definition not_parent (part : string) : bool := negb (String.eqb part "..").

(** No component is [..]. *)
Definition descending (parts : list string) : bool := forallb not_parent parts.

End Parts.

(** ** storage.py: ToolStore *)

Module ToolStore.
Section ToolStore.
Context {float : Type}.

(** [ToolCreate]: the fields of a tool without its id *)
Record ToolCreate : Type := {
  c_name : string;
  c_diameter_mm : float;
  c_length_mm : float;
  c_rpm : Z;
  c_feed_mm_min : float;
  c_direction : SpindleDirection;
  c_climb : bool
}.

(** [ToolUpdate]: every field optional *)
Record ToolUpdate : Type := {
  u_name : option string;
  u_diameter_mm : option float;
  u_length_mm : option float;
  u_rpm : option Z;
  u_feed_mm_min : option float;
  u_direction : option SpindleDirection;
  u_climb : option bool
}.

(** The database: the rows of the table [tools], in the order they were
    inserted, and the largest id the table ever held, which SQLite keeps in
    [sqlite_sequence] for an AUTOINCREMENT column. *)
Record t : Type := {
  rows : list (Tool float);
  seq : Z
}.

(** [_init_db] on a new database file *)
Definition empty : t := {| rows := []; seq := 0 |}.

Definition max_id (rs : list (Tool float)) : Z :=
  fold_right (fun r m => Z.max (tool_ident r) m) 0%Z rs.

(** The id an [INSERT] gets from AUTOINCREMENT: one more than the largest id
    of the table and of [sqlite_sequence]. *)
Definition next_id (self : t) : Z := (Z.max (seq self) (max_id (rows self)) + 1)%Z.

(** [add_tool(tool)]: the database after the call and [Tool(id=new_id, ...)] *)
Definition add_tool (self : t) (tool : ToolCreate) : t * Tool float :=
  let new_id := next_id self in
  let row := {| tool_ident := new_id;
                tool_name := c_name tool;
                diameter_mm := c_diameter_mm tool;
                length_mm := c_length_mm tool;
                tool_rpm := c_rpm tool;
                feed_mm_min := c_feed_mm_min tool;
                tool_direction := c_direction tool;
                climb := c_climb tool |} in
  ({| rows := rows self ++ [row]; seq := new_id |}, row).

Definition has_id (tool_id : Z) (r : Tool float) : bool := Z.eqb (tool_ident r) tool_id.

(** [get_tool(tool_id)]: [SELECT ... WHERE id=?] and [fetchone()] *)
Definition get_tool (self : t) (tool_id : Z) : option (Tool float) :=
  find (has_id tool_id) (rows self).

(** [delete_tool(tool_id)]: the database after [DELETE ... WHERE id=?] and
    [cur.rowcount > 0] *)
Definition delete_tool (self : t) (tool_id : Z) : t * bool :=
  let kept := filter (fun r => negb (has_id tool_id r)) (rows self) in
  ({| rows := kept; seq := seq self |},
   Nat.ltb 0 (List.length (filter (has_id tool_id) (rows self)))).

Definition override {A : Type} (old : A) (new : option A) : A :=
  match new with Some v => v | None => old end.

(** [current.dict()] with the fields of [update.dict(exclude_none=True)] *)
Definition merged (current : Tool float) (update : ToolUpdate) : Tool float :=
  {| tool_ident := tool_ident current;
     tool_name := override (tool_name current) (u_name update);
     diameter_mm := override (diameter_mm current) (u_diameter_mm update);
     length_mm := override (length_mm current) (u_length_mm update);
     tool_rpm := override (tool_rpm current) (u_rpm update);
     feed_mm_min := override (feed_mm_min current) (u_feed_mm_min update);
     tool_direction := override (tool_direction current) (u_direction update);
     climb := override (climb current) (u_climb update) |}.

(** The row written by [UPDATE tools SET ... WHERE id=?]: the seven columns
    of [data], the id of the row kept. *)
Definition written (data r : Tool float) : Tool float :=
  {| tool_ident := tool_ident r;
     tool_name := tool_name data;
     diameter_mm := diameter_mm data;
     length_mm := length_mm data;
     tool_rpm := tool_rpm data;
     feed_mm_min := feed_mm_min data;
     tool_direction := tool_direction data;
     climb := climb data |}.

(** [update_tool(tool_id, update)] *)
Definition update_tool (self : t) (tool_id : Z) (update : ToolUpdate)
  : t * option (Tool float) :=
  match get_tool self tool_id with
  | None => (self, None)
  | Some current =>
      let data := merged current update in
      let self' := {| rows := map (fun r => if has_id tool_id r then written data r else r)
                                  (rows self);
                      seq := seq self |} in
      (self', get_tool self' tool_id)
  end.

(** [ORDER BY id] *)
Fixpoint insert_by_id (r : Tool float) (rs : list (Tool float)) : list (Tool float) :=
  match rs with
  | [] => [r]
  | r' :: rest =>
      if Z.leb (tool_ident r) (tool_ident r') then r :: rs
      else r' :: insert_by_id r rest
  end.

Definition order_by_id (rs : list (Tool float)) : list (Tool float) :=
  fold_right insert_by_id [] rs.

(** [list_tools()] *)
Definition list_tools (self : t) : list (Tool float) := order_by_id (rows self).

(** The calls that change the database. *)
Inductive call : Type :=
| Add (tool : ToolCreate)
| Delete (tool_id : Z)
| Update (tool_id : Z) (update : ToolUpdate).

Definition perform (self : t) (c : call) : t :=
  match c with
  | Add tool => fst (add_tool self tool)
  | Delete tool_id => fst (delete_tool self tool_id)
  | Update tool_id update => fst (update_tool self tool_id update)
  end.

Definition perform_all (self : t) (calls : list call) : t :=
  fold_left perform calls self.

(** The ids of the rows increase along the table and none exceeds the
    recorded largest id. *)
Fixpoint increasing (low : Z) (rs : list (Tool float)) : Prop :=
  match rs with
  | [] => True
  | r :: rest => (low < tool_ident r)%Z /\ increasing (tool_ident r) rest
  end.

Definition consistent (self : t) : Prop :=
  increasing 0 (rows self) /\ (max_id (rows self) <= seq self)%Z.

End ToolStore.
End ToolStore.

Arguments ToolStore.t : clear implicits.
Arguments ToolStore.ToolCreate : clear implicits.
Arguments ToolStore.ToolUpdate : clear implicits.
Arguments ToolStore.call : clear implicits.

(** ** io.py: the peripherals, over the rational reading of floats *)

Module VFDController.

(** [int(x)] of a float: the integer part, rounding toward zero. *)
Definition py_int (x : Q) : Z :=
  if Qle_bool 0 x then Qfloor x else (- Qfloor (- x))%Z.

(** The controller and its hardware: the levels of the forward and the reverse
    pin when [RPi.GPIO] could be imported, the data blocks written to
    register 0 of the DAC when [smbus] could. *)
Record t : Type := {
  vref : Q;
  pins : option (bool * bool);
  bus : option (list (list Z))
}.


Definition with_pins (self : t) (p : option (bool * bool)) : t :=
  {| vref := vref self; pins := p; bus := bus self |}.

Definition forward_output (level : bool) (p : bool * bool) : bool * bool := (level, snd p).
Definition reverse_output (level : bool) (p : bool * bool) : bool * bool := (fst p, level).

Definition set_direction (self : t) (direction : SpindleDirection) : t :=
  match pins self with
  | None => self
  | Some p =>
      match direction with
      | CW => with_pins self (Some (reverse_output false (forward_output true p)))
      | CCW => with_pins self (Some (reverse_output true (forward_output false p)))
      | OFF => with_pins self (Some (reverse_output false (forward_output false p)))
      end
  end.

(** The 12-bit code [int((volts / vref) * 4095)] of the clamped voltage. *)
Definition dac_value (vref volts : Q) : result Z :=
  let volts := SpindleShim.py_max 0%Q (SpindleShim.py_min vref volts) in
  match fdiv volts vref with
  | Some ratio => Ok (py_int (fmul ratio 4095%Q))
  | None => Raise ZeroDivisionError
  end.

(** [[value >> 8, value & 0xFF]] *)
Definition dac_block (value : Z) : list Z := [Z.shiftr value 8; Z.land value 255].

(** [set_voltage(volts)], the write to the bus succeeding. *)
Definition set_voltage (self : t) (volts : Q) : result t :=
  match bus self with
  | None => Ok self
  | Some written =>
      value <- dac_value (vref self) volts ;;
      Ok {| vref := vref self; pins := pins self;
            bus := Some (written ++ [dac_block value]) |}
  end.

(** A call of the spindle shim carried out by the controller. *)
Definition perform (self : t) (c : SpindleShim.call Q) : result t :=
  match c with
  | SpindleShim.set_direction d => Ok (set_direction self d)
  | SpindleShim.set_voltage v => set_voltage self v
  end.

Fixpoint perform_all (self : t) (calls : list (SpindleShim.call Q)) : result t :=
  match calls with
  | [] => Ok self
  | c :: rest => self <- perform self c ;; perform_all self rest
  end.

End VFDController.

(** ** machine.py: MachineController, jog and work offset *)

Module Operator.
Section Operator.
Context {float : Type} {FO : FloatOps float}.

(** the assignment [self.state.work_offset = offset] *)
Definition state_work_offset (st : MachineState float) (offset : WorkOffset float)
  : MachineState float := set_work_offset st offset.

(** The texts of a float under the format specifications [.3f] and [.1f] and
    under plain interpolation in an f-string. *)
Variables (fixed3 fixed1 plain : float -> string).

Definition set_work_offset (self : MachineController.t float) (offset : WorkOffset float)
  : MachineController.t float :=
  let self := MachineController.with_state self
                (state_work_offset (MachineController.state self) offset) in
  if GrblClient.connected (MachineController.grbl self) then
    let cmd := ("G10 L20 P1 X" ++ plain (wx offset) ++ " Y" ++ plain (wy offset)
                ++ " Z" ++ plain (wz offset))%string in
    MachineController.with_grbl self (GrblClient.send_line (MachineController.grbl self) cmd)
  else self.

(** [{"X": 0, "Y": 1, "Z": 2}[axis_norm]], for an axis of the set *)
Definition axis_index (axis_norm : string) : option nat :=
  if String.eqb axis_norm "X" then Some 0
  else if String.eqb axis_norm "Y" then Some 1
  else if String.eqb axis_norm "Z" then Some 2
  else None.

(** [pos[i] += delta] *)
Fixpoint add_at (i : nat) (delta : float) (pos : list float) : result (list float) :=
  match pos, i with
  | [], _ => Raise IndexError
  | x :: rest, O => Ok (fadd x delta :: rest)
  | x :: rest, S j => rest' <- add_at j delta rest ;; Ok (x :: rest')
  end.

Definition jog (self : MachineController.t float) (axis : string) (delta feed : float)
  : MachineController.t float * result unit :=
  let axis_norm := PyStr.upper axis in
  match axis_index axis_norm with
  | None => (self, Raise ValueError)
  | Some axis_idx =>
      if GrblClient.connected (MachineController.grbl self) then
        let cmd := ("$J=G91 " ++ axis_norm ++ fixed3 delta ++ " F" ++ fixed1 feed)%string in
        (MachineController.with_grbl self
           (GrblClient.send_line (MachineController.grbl self) cmd), Ok tt)
      else
        match add_at axis_idx delta (machine_pos (MachineController.state self)) with
        | Ok pos =>
            (MachineController.with_state self
               (set_machine_pos (MachineController.state self) pos), Ok tt)
        | Raise e => (self, Raise e)
        end
  end.

End Operator.
End Operator.

(** ** A controller with a tool database *)

Module Workshop.

Definition end_mill : ToolStore.ToolCreate Q :=
  {| ToolStore.c_name := "6mm end mill";
     ToolStore.c_diameter_mm := 6%Q;
     ToolStore.c_length_mm := 50%Q;
     ToolStore.c_rpm := 12000%Z;
     ToolStore.c_feed_mm_min := 800%Q;
     ToolStore.c_direction := CW;
     ToolStore.c_climb := false |}.

Definition db : ToolStore.t Q := fst (ToolStore.add_tool ToolStore.empty end_mill).

(** The controller of [Scenario] over this database. *)
Definition controller (text : string) : MachineController.t Q :=
  MachineController.init
    (MachineController.files (Scenario.controller text))
    (ToolStore.get_tool db) Scenario.cfg.

End Workshop.

(** * Properties *)

(** ** Samples of the string and number helpers *)

Example float_of_string_samples :
  float_of_string (float := Q) "10" = Some (10 # 1)%Q /\
  float_of_string "-2.5" = Some (-5 # 2)%Q /\
  float_of_string "1E3" = Some (1000 # 1)%Q /\
  float_of_string ".5" = Some (1 # 2)%Q /\
  float_of_string (float := Q) "ABC" = None /\
  float_of_string (float := Q) EmptyString = None.
Proof. repeat split; reflexivity. Qed.

Example pystr_samples :
  PyStr.split "  G1 X5	Y-2 " = ["G1"; "X5"; "Y-2"] /\
  PyStr.split_on ";" "G1 X5 ; go" = ["G1 X5 "; " go"] /\
  PyStr.split_on ";" EmptyString = [EmptyString] /\
  PyStr.strip "  g0 x1  " = "g0 x1" /\
  PyStr.upper "g91 x1.5e2" = "G91 X1.5E2" /\
  PyStr.contains "G91" "N10 G91" = true /\
  PyStr.splitlines (String "a" (String PyStr.LF (String PyStr.CR (String PyStr.LF "b"))))
    = ["a"; EmptyString; "b"] /\
  PyStr.splitlines (String "a" (String PyStr.LF EmptyString)) = ["a"] /\
  PyStr.count_iter_lines (String "a" (String PyStr.LF "b")) = 2.
Proof. repeat split; reflexivity. Qed.


(** ** Runs of the end-to-end scenarios *)

Example parse_file_single_rapid :
  GCodeParser.parse_file (float := Q)
    ("G90" ++ Scenario.nl ++ "G0 X10 Y0" ++ Scenario.nl)%string
  = Ok {| segments := [ {| seg_start := Scenario.q3 0 0 0;
                           seg_end := Scenario.q3 10 0 0; rapid := true |} ];
          bbox_min := Scenario.q3 0 0 0;
          bbox_max := Scenario.q3 10 0 0 |}.
Proof. vm_compute. reflexivity. Qed.

Example job_single_rapid :
  MachineController.state
    (Scenario.simulate ("G90" ++ Scenario.nl ++ "G0 X10 Y0" ++ Scenario.nl)%string 3)
  = {| status := Complete; machine_pos := [10%Q; 0%Q; 0%Q];
       work_offset := {| wx := 0%Q; wy := 0%Q; wz := 0%Q |};
       feed_rate := 0%Q; spindle_rpm := 0%Q; spindle_dir := OFF; tool := None;
       current_line := 2; total_lines := 2; job_file := Some "job.nc" |}.
Proof. vm_compute. reflexivity. Qed.

Example job_incremental :
  let c := Scenario.simulate
      ("G91" ++ Scenario.nl ++ "G1 X5" ++ Scenario.nl ++ "G1 Y5" ++ Scenario.nl
       ++ "G1 Z-2" ++ Scenario.nl)%string 5 in
  machine_pos (MachineController.state c) = [5%Q; 5%Q; (-2)%Q] /\
  status (MachineController.state c) = Complete.
Proof. vm_compute. split; reflexivity. Qed.

(** ** The toolpath parser on malformed numbers *)

(** C1 (the code departs from it): the claim is that [parse_file] never raises
    and skips a line with a malformed axis token.  On the three-line file
    [G0 X1 / G1 Xabc / G0 X2] the call [float("ABC")] of [_extract_move] raises
    [ValueError] out of [parse_file]: no preview is produced, not even for the
    two well-formed lines. *)
Theorem C1_parse_file_raises_on_malformed_axis :
  GCodeParser.parse_file (float := Q)
    ("G0 X1" ++ Scenario.nl ++ "G1 Xabc" ++ Scenario.nl ++ "G0 X2" ++ Scenario.nl)%string
  = Raise ValueError.
Proof. vm_compute. reflexivity. Qed.

(** The executor has the same defect when no link is attached: the tracker
    raises in the job thread, which dies with the status left at [Running]. *)
Example job_thread_dies_on_malformed_axis :
  let c := Scenario.simulate ("G1 Xabc" ++ Scenario.nl)%string 4 in
  MachineController.job_thread c = MachineController.Died ValueError /\
  status (MachineController.state c) = Running.
Proof. vm_compute. split; reflexivity. Qed.

(** ** Starting a job *)

Section StartJob.
Context {float : Type} {FO : FloatOps float}.

(** C3: when the requested file exists and the status is [Running] or
    [Paused], [start_job] raises [RuntimeError("Job already running")] and
    the controller, hence every field of the machine state, is left as it
    was. *)
Theorem C3_start_job_rejected_while_busy :
  forall (self : MachineController.t float) (request : JobRequest),
    FileStore.exists_ (MachineController.files self)
      (FileStore.path_for (MachineController.files self) (filename request)) = true ->
    status (MachineController.state self) = Running \/
    status (MachineController.state self) = Paused ->
    MachineController.start_job self request
    = (self, Raise (RuntimeError "Job already running")).
Proof.
  intros self request Hfile Hbusy.
  unfold MachineController.start_job.
  rewrite Hfile. cbn [negb].
  destruct Hbusy as [-> | ->]; reflexivity.
Qed.

End StartJob.

Lemma C3_start_job_rejected_while_busy_witness :
  let self := Scenario.running "G0 X1" in
  FileStore.exists_ (MachineController.files self)
    (FileStore.path_for (MachineController.files self) (filename Scenario.job)) = true /\
  (status (MachineController.state self) = Running \/
   status (MachineController.state self) = Paused) /\
  MachineController.start_job self Scenario.job
  = (self, Raise (RuntimeError "Job already running")).
Proof.
  cbv zeta.
  assert (Hfile : FileStore.exists_ (MachineController.files (Scenario.running "G0 X1"))
            (FileStore.path_for (MachineController.files (Scenario.running "G0 X1"))
               (filename Scenario.job)) = true) by (vm_compute; reflexivity).
  assert (Hrun : status (MachineController.state (Scenario.running "G0 X1")) = Running)
    by (vm_compute; reflexivity).
  split; [exact Hfile | split; [left; exact Hrun |]].
  exact (C3_start_job_rejected_while_busy _ _ Hfile (or_introl Hrun)).
Defined.

(** ** Operator commands and the status *)

(** C5, as stated, fails: the claim is that [stop()] leaves the status alone
    outside [Running] and [Paused].  On a freshly built controller, whose
    status is [Idle], [stop()] writes [Stopped]. *)
Lemma C5_stop_changes_idle_status :
  status (MachineController.state (Scenario.controller "G0 X1")) = Idle /\
  status (MachineController.state (MachineController.stop (Scenario.controller "G0 X1")))
  <> status (MachineController.state (Scenario.controller "G0 X1")).
Proof. split; [reflexivity | vm_compute; discriminate]. Qed.

Section OperatorCommands.
Context {float : Type} {FO : FloatOps float}.

(** C5, amended: [pause()] leaves the status unchanged in every status other
    than [Running] and [resume()] in every status other than [Paused];
    [stop()] and [home()] have no precondition: from every status they
    write [Stopped] and [Homing]. *)
Theorem C5_commands_and_status :
  forall self : MachineController.t float,
    (status (MachineController.state self) <> Running ->
     status (MachineController.state (MachineController.pause self))
     = status (MachineController.state self)) /\
    (status (MachineController.state self) <> Paused ->
     status (MachineController.state (MachineController.resume self))
     = status (MachineController.state self)) /\
    status (MachineController.state (MachineController.stop self)) = Stopped /\
    status (MachineController.state (MachineController.home self)) = Homing.
Proof.
  intro self. repeat split.
  - intro H. unfold MachineController.pause.
    destruct (GrblClient.connected (MachineController.grbl self)); cbn;
      destruct (status (MachineController.state self)) eqn:E; cbn;
      rewrite ?E; cbn; congruence.
  - intro H. unfold MachineController.resume.
    destruct (GrblClient.connected (MachineController.grbl self)); cbn;
      destruct (status (MachineController.state self)) eqn:E; cbn;
      rewrite ?E; cbn; congruence.
Qed.

End OperatorCommands.

Lemma C5_commands_and_status_witness :
  let self := Scenario.controller "G0 X1" in
  status (MachineController.state self) <> Running /\
  status (MachineController.state self) <> Paused /\
  status (MachineController.state (MachineController.pause self)) = Idle /\
  status (MachineController.state (MachineController.resume self)) = Idle /\
  status (MachineController.state (MachineController.stop self)) = Stopped /\
  status (MachineController.state (MachineController.home self)) = Homing.
Proof.
  cbv zeta.
  assert (Hr : status (MachineController.state (Scenario.controller "G0 X1")) <> Running)
    by (vm_compute; discriminate).
  assert (Hp : status (MachineController.state (Scenario.controller "G0 X1")) <> Paused)
    by (vm_compute; discriminate).
  destruct (C5_commands_and_status (Scenario.controller "G0 X1"))
    as (Hpause & Hresume & Hstop & Hhome).
  split; [exact Hr | split; [exact Hp |]].
  split; [rewrite (Hpause Hr); reflexivity |].
  split; [rewrite (Hresume Hp); reflexivity |].
  split; [exact Hstop | exact Hhome].
Defined.

(** ** The number of segments of a preview *)

(** C6, as stated, fails: the line [G10 L20 P1 X1 Y2 Z3] (the work-offset
    command) has [G10] as its first token, neither [G0] nor [G1], and yet it
    yields a segment, because the parser tests a prefix of the line. *)
Lemma C6_segment_for_G10_line :
  let content := "G10 L20 P1 X1 Y2 Z3" in
  Lines.count Lines.first_token_is_G0_or_G1 (GCodeParser.file_lines content) = 0 /\
  exists pv, GCodeParser.parse_file (float := Q) content = Ok pv /\
             List.length (segments pv) = 1 /\
             List.length (segments pv)
             <> Lines.count Lines.first_token_is_G0_or_G1
                            (GCodeParser.file_lines content).
Proof.
  split; [reflexivity |].
  eexists. split; [vm_compute; reflexivity |].
  split; [reflexivity | vm_compute; discriminate].
Qed.

Section SegmentCount.
Context {float : Type} {FO : FloatOps float}.

Lemma parse_line_segments (fr fr' : GCodeParser.frame float) (raw : string) :
  GCodeParser.parse_line fr raw = Ok fr' ->
  List.length (GCodeParser.segs fr')
  = List.length (GCodeParser.segs fr)
    + (if Lines.starts_with_motion_prefix raw then 1 else 0).
Proof.
  unfold GCodeParser.parse_line, Lines.starts_with_motion_prefix.
  destruct (GCodeParser.residue raw) as [| c r] eqn:Hres.
  - cbn. intros [= <-]. lia.
  - cbn [PyStr.is_empty].
    destruct (GCodeParser.is_motion (PyStr.upper (String c r))).
    + destruct (GCodeParser._extract_move _ _) as [mv | e]; cbn [bind];
        [| discriminate].
      intros [= <-]. cbn [GCodeParser.segs].
      rewrite length_app. reflexivity.
    + intros [= <-]. cbn [GCodeParser.segs]. lia.
Qed.

Lemma parse_lines_segments (lines : list string) :
  forall fr fr' : GCodeParser.frame float,
    GCodeParser.parse_lines fr lines = Ok fr' ->
    List.length (GCodeParser.segs fr')
    = List.length (GCodeParser.segs fr)
      + Lines.count Lines.starts_with_motion_prefix lines.
Proof.
  induction lines as [| raw rest IH]; intros fr fr'; cbn [GCodeParser.parse_lines].
  - intros [= <-]. unfold Lines.count. cbn. lia.
  - destruct (GCodeParser.parse_line fr raw) as [fr1 |] eqn:H1; cbn [bind];
      [| discriminate].
    intro Hrest. apply IH in Hrest. apply parse_line_segments in H1.
    unfold Lines.count in *. cbn [filter].
    destruct (Lines.starts_with_motion_prefix raw); cbn [List.length]; lia.
Qed.

(** C6, amended: whenever [parse_file] returns a preview, its number of
    segments is the number of physical lines whose comment-free, trimmed,
    upper-cased text starts with the characters [G0] or [G1] (a prefix
    test, so that [G00], [G01], [G10], [G17] count too); no other line
    yields a segment. *)
Theorem C6_segment_count :
  forall (content : string) (pv : Preview float),
    GCodeParser.parse_file content = Ok pv ->
    List.length (segments pv)
    = Lines.count Lines.starts_with_motion_prefix (GCodeParser.file_lines content).
Proof.
  intros content pv. unfold GCodeParser.parse_file.
  destruct (GCodeParser.parse_lines _ _) as [fr |] eqn:Hfr; cbn [bind];
    [| discriminate].
  apply parse_lines_segments in Hfr. cbn [GCodeParser.segs List.length] in Hfr.
  intros [= <-].
  destruct (GCodeParser.box fr) as [[lo hi] |]; cbn [segments]; lia.
Qed.

End SegmentCount.

Lemma C6_segment_count_witness :
  let content := ("G90" ++ Scenario.nl ++ "G0 X10 Y0" ++ Scenario.nl)%string in
  let pv := {| segments := [ {| seg_start := Scenario.q3 0 0 0;
                                seg_end := Scenario.q3 10 0 0; rapid := true |} ];
               bbox_min := Scenario.q3 0 0 0;
               bbox_max := Scenario.q3 10 0 0 |} in
  GCodeParser.parse_file content = Ok pv /\
  List.length (segments pv)
  = Lines.count Lines.starts_with_motion_prefix (GCodeParser.file_lines content).
Proof.
  cbv zeta.
  split; [exact parse_file_single_rapid |].
  exact (C6_segment_count _ _ parse_file_single_rapid).
Defined.

(** ** The tracker against the preview *)

(** C2 (the code departs from it): the claim is that a simulated run ends at
    the end of the last segment of the preview.  The executor hands the
    tracker the stripped line with its comment, which the parser cuts off:
    on the file [G1 X5 ; X10] the preview ends at [[5, 0, 0]] and the
    simulated job at [[10, 0, 0]]. *)
Theorem C2_tracker_reads_comments :
  let content := "G1 X5 ; X10" in
  (exists pv, GCodeParser.parse_file (float := Q) content = Ok pv /\
              Simulation.last_end (segments pv) = Some (Scenario.q3 5 0 0)) /\
  Simulation.final_position (float := Q) content = Ok (Scenario.q3 10 0 0) /\
  let c := Scenario.simulate content 2 in
  MachineController.job_thread c = MachineController.Finished /\
  status (MachineController.state c) = Complete /\
  machine_pos (MachineController.state c) = [10%Q; 0%Q; 0%Q].
Proof.
  cbv zeta. split; [| split; [| split; [| split]]].
  - eexists. split; [vm_compute; reflexivity | reflexivity].
  - vm_compute. reflexivity.
  - vm_compute. reflexivity.
  - vm_compute. reflexivity.
  - vm_compute. reflexivity.
Qed.

Section TrackerAndPreview.
Context {float : Type} {FO : FloatOps float}.

Lemma split_on_absent (sep : ascii) (s : string) :
  Lines.has_char sep s = false -> PyStr.split_on sep s = [s].
Proof.
  induction s as [| c r IH]; cbn; [reflexivity |].
  intro H. apply orb_false_iff in H as [Hc Hr].
  rewrite Hc, (IH Hr). reflexivity.
Qed.

Lemma residue_comment_free (raw : string) :
  Lines.comment_free raw = true -> GCodeParser.residue raw = PyStr.strip raw.
Proof.
  unfold Lines.comment_free, GCodeParser.residue. intro H.
  apply andb_true_iff in H as [Hs Hp].
  apply negb_true_iff in Hs. apply negb_true_iff in Hp.
  rewrite (split_on_absent _ _ Hs). cbn [hd].
  rewrite (split_on_absent _ _ Hp). reflexivity.
Qed.


Lemma move_token_agree p tr (target : vec3 float) (tok : string) :
  same_state p tr ->
  GCodeParser.move_token p target tok = SimpleMoveTracker.move_token tr target tok.
Proof.
  destruct p as [pp pa], tr as [tp ta]. unfold same_state. cbn.
  intros [-> ->]. reflexivity.
Qed.

Lemma move_tokens_agree p tr (tokens : list string) :
  same_state p tr ->
  forall target : vec3 float,
    GCodeParser.move_tokens p target tokens
    = SimpleMoveTracker.move_tokens tr target tokens.
Proof.
  intro Hs. induction tokens as [| tok rest IH]; intro target; cbn; [reflexivity |].
  rewrite (move_token_agree p tr target tok Hs).
  destruct (SimpleMoveTracker.move_token tr target tok); cbn; [apply IH | reflexivity].
Qed.


Lemma set_mode_position (p : GCodeParser.t float) (code : string) :
  GCodeParser.position (GCodeParser.set_mode p code) = GCodeParser.position p.
Proof.
  unfold GCodeParser.set_mode.
  destruct (PyStr.contains "G90" code), (PyStr.contains "G91" code); reflexivity.
Qed.

Lemma parse_line_ends_at (fr fr' : GCodeParser.frame float) (raw : string) :
  GCodeParser.parse_line fr raw = Ok fr' ->
  ends_at_position fr -> ends_at_position fr'.
Proof.
  unfold GCodeParser.parse_line.
  destruct (PyStr.is_empty (GCodeParser.residue raw)).
  - intros [= <-]. trivial.
  - destruct (GCodeParser.is_motion _).
    + destruct (GCodeParser._extract_move _ _) as [mv |]; cbn [bind]; [| discriminate].
      intros [= <-] _ pos. unfold Simulation.last_end. cbn [GCodeParser.segs].
      rewrite rev_app_distr. cbn. congruence.
    + intros [= <-] H pos. cbn [GCodeParser.segs GCodeParser.self_].
      rewrite set_mode_position. apply H.
Qed.

Lemma parse_lines_ends_at (lines : list string) :
  forall fr fr' : GCodeParser.frame float,
    GCodeParser.parse_lines fr lines = Ok fr' ->
    ends_at_position fr -> ends_at_position fr'.
Proof.
  induction lines as [| raw rest IH]; intros fr fr'; cbn [GCodeParser.parse_lines].
  - intros [= <-]. trivial.
  - destruct (GCodeParser.parse_line fr raw) as [fr1 |] eqn:H1; cbn [bind];
      [| discriminate].
    intros Hrest Hfr. eapply IH; [exact Hrest |].
    eapply parse_line_ends_at; eassumption.
Qed.


Lemma line_agree (fr : GCodeParser.frame float) (tr : SimpleMoveTracker.t float) (raw : string) :
  Lines.comment_free raw = true ->
  same_state (GCodeParser.self_ fr) tr ->
  agree (GCodeParser.parse_line fr raw) (Simulation.track_line tr raw).
Proof.
  intros Hfree Hs.
  unfold GCodeParser.parse_line, Simulation.track_line.
  rewrite (residue_comment_free raw Hfree).
  destruct (PyStr.is_empty (PyStr.strip raw)); [exact Hs |].
  unfold SimpleMoveTracker.consume, GCodeParser.is_motion, GCodeParser._extract_move.
  set (code := PyStr.upper (PyStr.strip raw)).
  set (p := GCodeParser.set_mode (GCodeParser.self_ fr) code).
  set (t1 := if PyStr.contains "G90" code
             then {| SimpleMoveTracker.position := SimpleMoveTracker.position tr;
                     SimpleMoveTracker.absolute := true |} else tr).
  set (t2 := if PyStr.contains "G91" code
             then {| SimpleMoveTracker.position := SimpleMoveTracker.position t1;
                     SimpleMoveTracker.absolute := false |} else t1).
  assert (Hs2 : same_state p t2).
  { subst p t2 t1. unfold GCodeParser.set_mode. destruct Hs as [Hp Ha].
    destruct (PyStr.contains "G90" code), (PyStr.contains "G91" code);
      split; cbn; assumption || reflexivity. }
  destruct (PyStr.startswith "G0" code || PyStr.startswith "G1" code).
  - rewrite (move_tokens_agree p t2 _ Hs2).
    destruct Hs2 as [Hp Ha]. rewrite Hp.
    destruct (SimpleMoveTracker.move_tokens t2 _ _) as [target | e]; cbn.
    + split; [reflexivity | exact Ha].
    + reflexivity.
  - exact Hs2.
Qed.

Lemma lines_agree (lines : list string) :
  forallb Lines.comment_free lines = true ->
  forall (fr : GCodeParser.frame float) (tr : SimpleMoveTracker.t float),
    same_state (GCodeParser.self_ fr) tr ->
    agree (GCodeParser.parse_lines fr lines) (Simulation.track tr lines).
Proof.
  induction lines as [| raw rest IH]; cbn [forallb]; intros Hfree fr tr Hs.
  - exact Hs.
  - apply andb_true_iff in Hfree as [Hraw Hrest].
    cbn [GCodeParser.parse_lines Simulation.track].
    pose proof (line_agree fr tr raw Hraw Hs) as H1.
    destruct (GCodeParser.parse_line fr raw) as [fr1 | e],
             (Simulation.track_line tr raw) as [tr1 | e']; cbn in H1 |- *;
      try contradiction.
    + apply IH; assumption.
    + exact H1.
Qed.

(** The agreement of the preview and the tracker, as used below. *)
Lemma preview_and_tracker_agree :
  forall content : string,
    forallb Lines.comment_free (GCodeParser.file_lines content) = true ->
    match GCodeParser.parse_file content, Simulation.final_position content with
    | Ok pv, Ok pos =>
        forall last, Simulation.last_end (segments pv) = Some last -> last = pos
    | Raise e, Raise e' => e = e'
    | _, _ => False
    end.
Proof.
  intros content Hfree.
  unfold GCodeParser.parse_file, Simulation.final_position.
  set (fr0 := {| GCodeParser.self_ := GCodeParser.reset;
                 GCodeParser.segs := []; GCodeParser.box := None |}).
  assert (Hs0 : same_state (GCodeParser.self_ fr0) SimpleMoveTracker.init)
    by (split; reflexivity).
  pose proof (lines_agree _ Hfree fr0 SimpleMoveTracker.init Hs0) as Hag.
  assert (He0 : ends_at_position fr0) by (intros pos; discriminate).
  destruct (GCodeParser.parse_lines fr0 _) as [fr | e] eqn:Hfr,
           (Simulation.track SimpleMoveTracker.init _) as [tr | e'];
    cbn in Hag |- *; try contradiction; [| exact Hag].
  pose proof (parse_lines_ends_at _ _ _ Hfr He0) as Hend.
  destruct Hag as [Hp _]. rewrite <- Hp.
  intros last Hlast. apply Hend.
  destruct (GCodeParser.box fr) as [[lo hi] |]; exact Hlast.
Qed.

(** Where the two paths agree: on a file none of whose lines carries a
    comment, the preview and the tracker either raise the same exception or
    both succeed, and then the tracker ends where the last segment ends. *)
Theorem tracker_follows_preview_without_comments :
  forall content : string,
    forallb Lines.comment_free (GCodeParser.file_lines content) = true ->
    match GCodeParser.parse_file content, Simulation.final_position content with
    | Ok pv, Ok pos =>
        forall last, Simulation.last_end (segments pv) = Some last -> last = pos
    | Raise e, Raise e' => e = e'
    | _, _ => False
    end.
Proof.
  exact preview_and_tracker_agree.
Qed.


(** *** The executor in simulation is the tracker run over the lines *)

Lemma handle_spindle_tokens_simulating (self : MachineController.t float) (line : string) :
  simulating self ->
  exists self1,
    MachineController._handle_spindle_tokens self line = (self1, Ok tt) /\
    simulating self1 /\
    MachineController.move_tracker self1 = MachineController.move_tracker self /\
    MachineController.job_thread self1 = MachineController.job_thread self /\
    machine_pos (MachineController.state self1)
    = machine_pos (MachineController.state self).
Proof.
  intros (Hstop & Hrun & Hconn & Hvolts).
  unfold MachineController._handle_spindle_tokens, SpindleShim.apply.
  match goal with
  | |- context [bind (SpindleShim.volts_of ?c ?r) _] =>
      destruct (Hvolts r) as [volts Hv]; change c with (MachineController.cfg self);
      rewrite Hv
  end.
  cbn [bind]. eexists. split; [reflexivity |].
  unfold simulating.
  destruct (MachineController.scan_direction (PyStr.upper line)),
           (MachineController.scan_rpm (PyStr.upper line)); cbn; auto 10.
Qed.

Lemma step_track_line (self : MachineController.t float) (idx : nat)
      (raw : string) (rest : list string) (tr1 : SimpleMoveTracker.t float) :
  simulating self ->
  MachineController.job_thread self = MachineController.Looping idx (raw :: rest) ->
  Simulation.track_line (MachineController.move_tracker self) raw = Ok tr1 ->
  let self1 := MachineController.step self in
  simulating self1 /\
  MachineController.job_thread self1 = MachineController.Looping (S idx) rest /\
  MachineController.move_tracker self1 = tr1 /\
  machine_pos (MachineController.state self1)
  = if Simulation.blank raw then machine_pos (MachineController.state self)
    else vec_list (SimpleMoveTracker.position tr1).
Proof.
  intros Hsim Hth Htr. cbv zeta.
  pose proof Hsim as (Hstop & Hrun & Hconn & Hvolts).
  unfold MachineController.step. rewrite Hth, Hstop, Hrun. cbn [MachineStatus_eqb].
  unfold Simulation.track_line in Htr. unfold Simulation.blank.
  destruct (PyStr.is_empty (PyStr.strip raw)).
  - injection Htr as <-. repeat split; assumption || reflexivity.
  - destruct (handle_spindle_tokens_simulating self (PyStr.strip raw) Hsim)
      as (self0 & -> & (Hstop0 & Hrun0 & Hconn0 & Hvolts0) & Htr0 & _ & _).
    rewrite Hconn0, Htr0.
    destruct (SimpleMoveTracker.consume (MachineController.move_tracker self) (PyStr.strip raw))
      as [tr [pos | e]] eqn:Hc; [| discriminate].
    injection Htr as <-.
    assert (Hpos : pos = SimpleMoveTracker.position tr).
    { unfold SimpleMoveTracker.consume in Hc.
      destruct (_ || _) in Hc.
      - destruct (SimpleMoveTracker.move_tokens _ _ _) in Hc; [| discriminate].
        injection Hc as <- <-. reflexivity.
      - injection Hc as <- <-. reflexivity. }
    subst pos. cbn. repeat split; assumption || reflexivity.
Qed.

Lemma track_blank (lines : list string) (tr : SimpleMoveTracker.t float) :
  Simulation.consumed lines = false -> Simulation.track tr lines = Ok tr.
Proof.
  induction lines as [| raw rest IH]; cbn; [reflexivity |].
  intro H. apply orb_false_iff in H as [Hraw Hrest].
  apply negb_false_iff in Hraw. unfold Simulation.track_line.
  unfold Simulation.blank in Hraw. rewrite Hraw. cbn [bind]. apply IH, Hrest.
Qed.

(** The executor against [track], as used below. *)
Lemma run_is_track :
  forall (lines : list string) (idx : nat) (self : MachineController.t float)
         (tr' : SimpleMoveTracker.t float),
    simulating self ->
    MachineController.job_thread self = MachineController.Looping idx lines ->
    Simulation.track (MachineController.move_tracker self) lines = Ok tr' ->
    let self' := MachineController.run self
                   (repeat MachineController.Turn (S (List.length lines))) in
    MachineController.job_thread self' = MachineController.Finished /\
    status (MachineController.state self') = Complete /\
    MachineController.move_tracker self' = tr' /\
    machine_pos (MachineController.state self')
    = if Simulation.consumed lines then vec_list (SimpleMoveTracker.position tr')
      else machine_pos (MachineController.state self).
Proof.
  induction lines as [| raw rest IH]; intros idx self tr' Hsim Hth Htr; cbv zeta.
  - cbn in Htr. injection Htr as <-.
    destruct Hsim as (Hstop & _).
    cbn. unfold MachineController.step. rewrite Hth.
    unfold MachineController.finish. rewrite Hstop. cbn. auto.
  - cbn [Simulation.track] in Htr.
    destruct (Simulation.track_line (MachineController.move_tracker self) raw)
      as [tr1 |] eqn:H1; cbn [bind] in Htr; [| discriminate].
    destruct (step_track_line self idx raw rest tr1 Hsim Hth H1)
      as (Hsim1 & Hth1 & Htr1 & Hpos1).
    rewrite <- Htr1 in Htr.
    specialize (IH (S idx) _ tr' Hsim1 Hth1 Htr). cbv zeta in IH.
    destruct IH as (Hfin & Hst & Hmt & Hpos).
    unfold MachineController.run in *.
    change (repeat MachineController.Turn (S (List.length (raw :: rest))))
      with (MachineController.Turn
              :: repeat MachineController.Turn (S (List.length rest))).
    cbn [fold_left MachineController.handle].
    repeat split; try assumption.
    rewrite Hpos. cbn [Simulation.consumed existsb].
    fold (Simulation.consumed rest).
    destruct (Simulation.consumed rest) eqn:Hc.
    + rewrite orb_true_r. reflexivity.
    + rewrite orb_false_r, Hpos1.
      rewrite Htr1 in Htr. rewrite (track_blank rest tr1 Hc) in Htr.
      injection Htr as <-.
      destruct (Simulation.blank raw); reflexivity.
Qed.

(** Run to its end with no link and no interference, the executor leaves the
    tracker where [track] says, the status at [Complete], and the position of
    the tracker in [machine_pos] as soon as one line was consumed. *)
Theorem executor_runs_tracker :
  forall (lines : list string) (idx : nat) (self : MachineController.t float)
         (tr' : SimpleMoveTracker.t float),
    simulating self ->
    MachineController.job_thread self = MachineController.Looping idx lines ->
    Simulation.track (MachineController.move_tracker self) lines = Ok tr' ->
    let self' := MachineController.run self
                   (repeat MachineController.Turn (S (List.length lines))) in
    MachineController.job_thread self' = MachineController.Finished /\
    status (MachineController.state self') = Complete /\
    MachineController.move_tracker self' = tr' /\
    machine_pos (MachineController.state self')
    = if Simulation.consumed lines then vec_list (SimpleMoveTracker.position tr')
      else machine_pos (MachineController.state self).
Proof.
  exact run_is_track.
Qed.

Lemma motion_line_consumed (lines : list string) :
  forallb Lines.comment_free lines = true ->
  existsb Lines.starts_with_motion_prefix lines = true ->
  Simulation.consumed lines = true.
Proof.
  induction lines as [| raw rest IH]; cbn; [discriminate |].
  intros Hfree Hm. apply andb_true_iff in Hfree as [Hraw Hrest].
  apply orb_true_iff in Hm as [Hm | Hm].
  - apply orb_true_iff. left.
    unfold Lines.starts_with_motion_prefix in Hm.
    rewrite (residue_comment_free raw Hraw) in Hm.
    unfold Simulation.blank.
    destruct (PyStr.strip raw); [discriminate Hm | reflexivity].
  - apply orb_true_iff. right. apply IH; assumption.
Qed.

Lemma segments_need_motion_line (lines : list string) :
  forall fr fr' : GCodeParser.frame float,
    GCodeParser.parse_lines fr lines = Ok fr' ->
    GCodeParser.segs fr = [] ->
    GCodeParser.segs fr' <> [] ->
    existsb Lines.starts_with_motion_prefix lines = true.
Proof.
  intros fr fr' Hp Hnil Hne.
  apply parse_lines_segments in Hp. rewrite Hnil in Hp. cbn in Hp.
  unfold Lines.count in Hp.
  destruct (existsb Lines.starts_with_motion_prefix lines) eqn:E; [reflexivity |].
  exfalso. apply Hne.
  assert (Hf : filter Lines.starts_with_motion_prefix lines = []).
  { clear Hp. induction lines as [| raw rest IH]; [reflexivity |].
    cbn in E |- *. apply orb_false_iff in E as [-> Hr]. apply IH, Hr. }
  rewrite Hf in Hp. destruct (GCodeParser.segs fr'); [reflexivity | discriminate].
Qed.

(** The statement on previews and simulated jobs that the code satisfies: if
    no line of the file carries a comment and the preview has a last segment,
    a job over these lines, run to its end in simulation without pause or
    stop, completes with [machine_pos] at the end of that segment. *)
Theorem simulated_job_ends_at_preview_end :
  forall (content : string) (pv : Preview float) (last : vec3 float)
         (idx : nat) (self : MachineController.t float),
    forallb Lines.comment_free (GCodeParser.file_lines content) = true ->
    GCodeParser.parse_file content = Ok pv ->
    Simulation.last_end (segments pv) = Some last ->
    simulating self ->
    MachineController.job_thread self
    = MachineController.Looping idx (GCodeParser.file_lines content) ->
    MachineController.move_tracker self = SimpleMoveTracker.init ->
    let self' := MachineController.run self
                   (repeat MachineController.Turn
                           (S (List.length (GCodeParser.file_lines content)))) in
    status (MachineController.state self') = Complete /\
    machine_pos (MachineController.state self') = vec_list last.
Proof.
  intros content pv last idx self Hfree Hpv Hlast Hsim Hth Htr0. cbv zeta.
  pose proof (preview_and_tracker_agree content Hfree) as Hag.
  rewrite Hpv in Hag. unfold Simulation.final_position in Hag.
  destruct (Simulation.track SimpleMoveTracker.init (GCodeParser.file_lines content))
    as [tr' |] eqn:Htrack; cbn [bind] in Hag; [| contradiction].
  rewrite <- Htr0 in Htrack.
  destruct (run_is_track _ idx self tr' Hsim Hth Htrack)
    as (_ & Hst & _ & Hpos).
  split; [exact Hst |]. rewrite Hpos.
  rewrite (Hag last Hlast).
  assert (Hcons : Simulation.consumed (GCodeParser.file_lines content) = true).
  { apply motion_line_consumed; [exact Hfree |].
    unfold GCodeParser.parse_file in Hpv.
    destruct (GCodeParser.parse_lines _ _) as [fr |] eqn:Hfr; cbn [bind] in Hpv;
      [| discriminate].
    apply (segments_need_motion_line _ _ fr Hfr); [reflexivity |].
    injection Hpv as <-. intro Hnil.
    destruct (GCodeParser.box fr) as [[lo hi] |]; cbn [segments] in Hlast;
      rewrite Hnil in Hlast; discriminate Hlast. }
  rewrite Hcons. reflexivity.
Qed.

End TrackerAndPreview.

Example tracker_follows_preview_incremental :
  let content := ("G91" ++ Scenario.nl ++ "G1 X5" ++ Scenario.nl ++ "G1 Y5" ++ Scenario.nl
                  ++ "G1 Z-2" ++ Scenario.nl)%string in
  forallb Lines.comment_free (GCodeParser.file_lines content) = true /\
  exists pv, GCodeParser.parse_file (float := Q) content = Ok pv /\
             Simulation.last_end (segments pv) = Some (Scenario.q3 5 5 (-2)) /\
             Simulation.final_position content = Ok (Scenario.q3 5 5 (-2)).
Proof.
  cbv zeta. split; [reflexivity |].
  eexists. split; [vm_compute; reflexivity |].
  split; vm_compute; reflexivity.
Qed.

(** ** Status frames *)


Section StatusFrames.
Context {float : Type} {FO : FloatOps float}.


Lemma state_word_known (token : string) :
  known_status (Some (GrblClient.state_word token)).
Proof.
  unfold GrblClient.state_word, known_status.
  repeat match goal with
         | |- context [if ?b then _ else _] => destruct b
         end; eexists; reflexivity.
Qed.

Lemma MachineStatus_of_value_value (m : MachineStatus) :
  MachineStatus_of_value (MachineStatus_value m) = Ok m.
Proof. destruct m; reflexivity. Qed.

Ltac split_binds :=
  repeat (cbn [bind];
          match goal with
          | |- context [if ?b then _ else _] => destruct b eqn:?
          | |- context [bind ?m _] =>
              lazymatch m with
              | bind _ _ => fail
              | Ok _ => fail
              | Raise _ => fail
              | _ => let r := fresh "r" in
                     destruct m as [r |]; cbn [bind]; [| discriminate]
              end
          end).

(** What one token changes in the update. *)
Lemma parse_token_fields (p p' : GrblClient.payload float) (token : string) :
  GrblClient.parse_token p token = Ok p' ->
  GrblClient.p_status p'
  = (if GrblClient.is_state_word token
     then Some (GrblClient.state_word token) else GrblClient.p_status p) /\
  (PyStr.startswith "MPos:" token = false ->
   GrblClient.p_machine_pos p' = GrblClient.p_machine_pos p) /\
  (PyStr.startswith "WCO:" token = false ->
   GrblClient.p_work_offset p' = GrblClient.p_work_offset p) /\
  (PyStr.startswith "FS:" token = false ->
   GrblClient.p_feed_rate p' = GrblClient.p_feed_rate p /\
   GrblClient.p_spindle_rpm p' = GrblClient.p_spindle_rpm p).
Proof.
  unfold GrblClient.parse_token.
  split_binds; intros [= <-]; cbn;
    repeat split; intros; congruence.
Qed.

Lemma parse_tokens_fields (raw : list string) :
  forall p p' : GrblClient.payload float,
    GrblClient.parse_tokens p raw = Ok p' ->
    (known_status (GrblClient.p_status p) -> known_status (GrblClient.p_status p')) /\
    (existsb GrblClient.is_state_word raw = false ->
     GrblClient.p_status p' = GrblClient.p_status p) /\
    (existsb (PyStr.startswith "MPos:") raw = false ->
     GrblClient.p_machine_pos p' = GrblClient.p_machine_pos p) /\
    (existsb (PyStr.startswith "WCO:") raw = false ->
     GrblClient.p_work_offset p' = GrblClient.p_work_offset p) /\
    (existsb (PyStr.startswith "FS:") raw = false ->
     GrblClient.p_feed_rate p' = GrblClient.p_feed_rate p /\
     GrblClient.p_spindle_rpm p' = GrblClient.p_spindle_rpm p).
Proof.
  induction raw as [| token rest IH]; intros p p'; cbn [GrblClient.parse_tokens existsb].
  - intros [= <-]. repeat split; trivial.
  - destruct (GrblClient.parse_token p token) as [p1 |] eqn:H1; cbn [bind];
      [| discriminate].
    intro Hrest. apply IH in Hrest as (Ik & Is & Im & Iw & If).
    apply parse_token_fields in H1 as (Ts & Tm & Tw & Tf).
    repeat split.
    + intro Hk. apply Ik. rewrite Ts.
      destruct (GrblClient.is_state_word token); [apply state_word_known | exact Hk].
    + intro H. apply orb_false_iff in H as [Ht Hr].
      rewrite (Is Hr), Ts, Ht. reflexivity.
    + intro H. apply orb_false_iff in H as [Ht Hr]. rewrite (Im Hr). apply Tm, Ht.
    + intro H. apply orb_false_iff in H as [Ht Hr]. rewrite (Iw Hr). apply Tw, Ht.
    + apply orb_false_iff in H as [Ht Hr].
      rewrite (proj1 (If Hr)). apply Tf, Ht.
    + apply orb_false_iff in H as [Ht Hr].
      rewrite (proj2 (If Hr)). apply Tf, Ht.
Qed.

(** What [_ingest_status] writes, whether or not the work offset of the
    update is long enough. *)
Lemma ingest_fields (self : MachineController.t float)
      (p : GrblClient.payload float) (m : MachineStatus) :
  GrblClient.p_status p = Some (MachineStatus_value m) ->
  let st := MachineController.state self in
  let st' := MachineController.state (fst (MachineController._ingest_status self p)) in
  status st' = m /\
  machine_pos st' = match GrblClient.p_machine_pos p with
                    | Some v => v | None => machine_pos st end /\
  feed_rate st' = match GrblClient.p_feed_rate p with
                  | Some v => v | None => feed_rate st end /\
  spindle_rpm st' = match GrblClient.p_spindle_rpm p with
                    | Some v => v | None => spindle_rpm st end /\
  (GrblClient.p_work_offset p = None -> work_offset st' = work_offset st).
Proof.
  intro Hs. cbv zeta. unfold MachineController._ingest_status.
  rewrite Hs, MachineStatus_of_value_value. cbn [bind].
  destruct (GrblClient.p_machine_pos p), (GrblClient.p_feed_rate p),
    (GrblClient.p_spindle_rpm p), (GrblClient.p_work_offset p) as [w |];
    try (destruct (PyStr.index w 0) as [x |]; cbn [bind];
         [destruct (PyStr.index w 1) as [y |]; cbn [bind];
          [destruct (PyStr.index w 2) as [z |]; cbn [bind] | ] | ]);
    cbn; repeat split; intros; reflexivity || discriminate.
Qed.


End StatusFrames.


(** ** The spindle shim *)


Section SpindleVoltage.





Lemma volts_of_value (cfg : Config Q) (rpm : Q) :
  (0 < spindle_max_rpm cfg)%Q ->
  exists v, SpindleShim.volts_of cfg rpm = Ok v /\
            (v == SpindleShim.clamp cfg rpm / spindle_max_rpm cfg * dac_vref cfg)%Q.
Proof.
  intro Hmax. unfold SpindleShim.volts_of. cbn [fdiv fmul Qfloat].
  destruct (Qeq_bool (spindle_max_rpm cfg) 0) eqn:E.
  - apply Qeq_bool_iff in E. rewrite E in Hmax. exfalso. apply (Qlt_irrefl _ Hmax).
  - eexists. split; [reflexivity |].
    rewrite Qred_correct, Qred_correct. reflexivity.
Qed.


End SpindleVoltage.


(** ** The spindle-token scan *)

Section SpindleTokens.
Context {float : Type} {FO : FloatOps float}.



End SpindleTokens.


(** ** File names *)

(** C9 (the code departs from it): the claim is that every file name is
    resolved to its basename under the content directory.  Only [save_file]
    takes the basename; [path_for], used by the preview and by [start_job], and
    [delete] join the name as given.  The name [../tools.db] is resolved to
    the tool database next to the content directory: [delete] would unlink it
    and [start_job] accepts it as a job and reads its lines. *)
Theorem C9_path_for_leaves_content_directory :
  let self := Scenario.controller "G0 X1" in
  let store := MachineController.files self in
  let name := "../tools.db" in
  FileStore.save_file store name
  = FileStore.joinpath (FileStore.root store) (FileStore.basename name) /\
  FileStore.inside (FileStore.root store) (FileStore.save_file store name) = true /\
  FileStore.path_for store name
  <> FileStore.joinpath (FileStore.root store) (FileStore.basename name) /\
  FileStore.resolve (FileStore.path_for store name) = ["srv"; "data"; "tools.db"] /\
  FileStore.inside (FileStore.root store) (FileStore.path_for store name) = false /\
  FileStore.delete store name = Some (FileStore.path_for store name) /\
  (let out := MachineController.start_job self {| filename := name; tool_id := None |} in
   snd out = Ok tt /\
   MachineController.job_thread (fst out) = MachineController.Looping 1 ["SQLite"]).
Proof.
  cbv zeta. repeat split; try (vm_compute; reflexivity).
  vm_compute. discriminate.
Qed.

(** ** The line counter of a job *)

(** C8 (the code departs from it): the claim bounds [current_line] by
    [total_lines].  [total_lines] counts the lines of the text-mode file
    iterator, which end at LF only, whereas the executor numbers the lines of
    [str.splitlines()], which also end at a form feed (and at VT, FS, GS, RS).
    On the file [G0 X1 <FF> G0 X2] the job finishes with [current_line = 2]
    and [total_lines = 1]. *)
Theorem C8_current_line_exceeds_total_lines :
  let content := ("G0 X1" ++ Scenario.ff ++ "G0 X2")%string in
  let started := Scenario.running content in
  let c := Scenario.simulate content 3 in
  current_line (MachineController.state started) = 0 /\
  total_lines (MachineController.state started) = 1 /\
  MachineController.job_thread started
  = MachineController.Looping 1 ["G0 X1"; "G0 X2"] /\
  MachineController.job_thread c = MachineController.Finished /\
  status (MachineController.state c) = Complete /\
  current_line (MachineController.state c) = 2 /\
  total_lines (MachineController.state c) = 1.
Proof. cbv zeta. repeat split; vm_compute; reflexivity. Qed.

Section LineCounter.
Context {float : Type} {FO : FloatOps float}.


Lemma handle_spindle_tokens_frame (self : MachineController.t float) (line : string) :
  let self' := fst (MachineController._handle_spindle_tokens self line) in
  current_line (MachineController.state self') = current_line (MachineController.state self) /\
  MachineController.job_thread self' = MachineController.job_thread self.
Proof.
  cbv zeta. unfold MachineController._handle_spindle_tokens.
  destruct (SpindleShim.apply _ _ _ _); cbn;
    destruct (MachineController.scan_direction (PyStr.upper line)),
             (MachineController.scan_rpm (PyStr.upper line)); split; reflexivity.
Qed.

Lemma ingest_status_frame (self : MachineController.t float)
      (p : GrblClient.payload float) :
  let self' := fst (MachineController._ingest_status self p) in
  current_line (MachineController.state self') = current_line (MachineController.state self) /\
  MachineController.job_thread self' = MachineController.job_thread self.
Proof.
  cbv zeta. unfold MachineController._ingest_status.
  destruct (GrblClient.p_status p) as [v |]; cbn [bind].
  - destruct (MachineStatus_of_value v); cbn [bind]; [| split; reflexivity].
    destruct (GrblClient.p_machine_pos p), (GrblClient.p_feed_rate p),
      (GrblClient.p_spindle_rpm p), (GrblClient.p_work_offset p) as [w |];
      try (destruct (PyStr.index w 0); cbn [bind];
           [destruct (PyStr.index w 1); cbn [bind];
            [destruct (PyStr.index w 2); cbn [bind] | ] | ]);
      split; reflexivity.
  - destruct (GrblClient.p_machine_pos p), (GrblClient.p_feed_rate p),
      (GrblClient.p_spindle_rpm p), (GrblClient.p_work_offset p) as [w |];
      try (destruct (PyStr.index w 0); cbn [bind];
           [destruct (PyStr.index w 1); cbn [bind];
            [destruct (PyStr.index w 2); cbn [bind] | ] | ]);
      split; reflexivity.
Qed.

Lemma receive_frame (self : MachineController.t float) (data : string) :
  let self' := fst (MachineController.receive self data) in
  current_line (MachineController.state self') = current_line (MachineController.state self) /\
  MachineController.job_thread self' = MachineController.job_thread self.
Proof.
  cbv zeta. unfold MachineController.receive.
  destruct (PyStr.is_empty _); [split; reflexivity |].
  destruct (PyStr.startswith "<" _); [| split; reflexivity].
  destruct (GrblClient._parse_status _); [| split; reflexivity].
  apply ingest_status_frame.
Qed.

Lemma command_frame (self : MachineController.t float) :
  forall f, In f [MachineController.pause; MachineController.resume;
                  MachineController.stop; MachineController.home] ->
  current_line (MachineController.state (f self)) = current_line (MachineController.state self) /\
  MachineController.job_thread (f self) = MachineController.job_thread self.
Proof.
  intros f Hf. cbn in Hf.
  destruct Hf as [<- | [<- | [<- | [<- | []]]]];
    unfold MachineController.pause, MachineController.resume,
           MachineController.stop, MachineController.home; cbn;
    repeat match goal with
           | |- context [if ?b then _ else _] => destruct b; cbn
           end; split; reflexivity.
Qed.

Lemma step_in_job (n : nat) (self : MachineController.t float) :
  in_job n self ->
  in_job n (MachineController.step self) /\
  current_line (MachineController.state self)
  <= current_line (MachineController.state (MachineController.step self)).
Proof.
  unfold in_job, MachineController.step.
  destruct (MachineController.job_thread self) as [| idx [| raw rest] | |] eqn:Hth;
    try (rewrite Hth; intro H; split; [exact H | lia]).
  - intros [Hlt Hn]. cbn in *. split; lia.
  - intros [Hlt Hn]. cbn [List.length] in Hn.
    destruct (MachineController.stop_flag self); [cbn; split; lia |].
    destruct (MachineStatus_eqb _ _); [rewrite Hth; split; [split; assumption | lia] |].
    destruct (PyStr.is_empty _); [cbn; split; [split; lia | lia] |].
    pose proof (handle_spindle_tokens_frame self (PyStr.strip raw)) as [Hcl _].
    cbv zeta in Hcl.
    destruct (MachineController._handle_spindle_tokens self (PyStr.strip raw))
      as [self1 [[] | e]]; cbn [fst] in Hcl.
    + destruct (GrblClient.connected (MachineController.grbl self1)).
      * cbn. split; [split; lia | lia].
      * destruct (SimpleMoveTracker.consume _ _) as [tr [pos | e]]; cbn;
          (split; [try split; lia | lia]).
    + cbn. split; lia.
Qed.

Lemma handle_in_job (n : nat) (self : MachineController.t float)
      (ev : MachineController.event) :
  within_job ev ->
  in_job n self ->
  in_job n (MachineController.handle self ev) /\
  current_line (MachineController.state self)
  <= current_line (MachineController.state (MachineController.handle self ev)).
Proof.
  intros Hev Hin.
  assert (Hframe : forall self' : MachineController.t float,
             current_line (MachineController.state self')
             = current_line (MachineController.state self) /\
             MachineController.job_thread self' = MachineController.job_thread self ->
             in_job n self' /\
             current_line (MachineController.state self)
             <= current_line (MachineController.state self')).
  { intros self' [Hc Ht]. unfold in_job in *. rewrite Hc, Ht. split; [exact Hin | lia]. }
  destruct ev; cbn [MachineController.handle]; try contradiction.
  - apply step_in_job, Hin.
  - apply Hframe, (command_frame self MachineController.pause). cbn. auto.
  - apply Hframe, (command_frame self MachineController.resume). cbn. auto.
  - apply Hframe, (command_frame self MachineController.stop). cbn. auto.
  - apply Hframe, (command_frame self MachineController.home). cbn. auto 6.
  - apply Hframe, receive_frame.
Qed.

(** An accepted [start_job] sets the counter to 0 and hands the executor
    the lines of [splitlines()]. *)
Lemma start_job_in_job (self self' : MachineController.t float) (request : JobRequest) :
  MachineController.start_job self request = (self', Ok tt) ->
  current_line (MachineController.state self') = 0 /\
  FileStore.line_count (MachineController.files self) (filename request)
  = Ok (total_lines (MachineController.state self')) /\
  exists lines,
    FileStore.read_lines (MachineController.files self)
      (FileStore.path_for (MachineController.files self) (filename request)) = Ok lines /\
    MachineController.job_thread self' = MachineController.Looping 1 lines /\
    in_job (List.length lines) self'.
Proof.
  unfold MachineController.start_job, MachineController.set_tool.
  destruct (negb _); [discriminate |].
  destruct (MachineController.busy _); [discriminate |].
  destruct (FileStore.line_count _ _) as [n |]; [| discriminate].
  cbn -[FileStore.read_lines SpindleShim.apply].
  repeat match goal with
         | |- context [match tool_id request with _ => _ end] =>
             destruct (tool_id request) as [k |]
         | |- context [if Z.eqb ?k 0 then _ else _] => destruct (Z.eqb k 0)
         | |- context [MachineController.tools self ?k] =>
             destruct (MachineController.tools self k)
         | |- context [SpindleShim.apply ?a ?b ?c ?d] =>
             destruct (SpindleShim.apply a b c d); [| discriminate]
         end;
    destruct (FileStore.read_lines _ _) as [lines |]; try discriminate;
    intros [= <-]; (split; [reflexivity |]); (split; [reflexivity |]);
    exists lines;
    (split; [reflexivity |]); (split; [reflexivity |]);
    unfold in_job; cbn; lia.
Qed.

(** Over every sequence of executor turns, operator commands other than a
    new [start_job], and lines from the link, the counter never decreases
    and never exceeds the number of lines handed to the executor. *)
Theorem current_line_monotone_within_job :
  forall (evs : list MachineController.event) (n : nat)
         (self : MachineController.t float),
    Forall within_job evs ->
    in_job n self ->
    let counters := map (fun c => current_line (MachineController.state c))
                        (MachineController.trace self evs) in
    nondecreasing counters /\ Forall (fun k => k <= n) counters.
Proof.
  induction evs as [| ev rest IH]; intros n self Hevs Hin; cbv zeta.
  - cbn. assert (current_line (MachineController.state self) <= n).
    { unfold in_job in Hin.
      destruct (MachineController.job_thread self); try exact Hin. lia. }
    repeat split; auto.
  - inversion Hevs as [| ? ? Hev Hrest]; subst.
    destruct (handle_in_job n self ev Hev Hin) as [Hin' Hle].
    specialize (IH n _ Hrest Hin'). cbv zeta in IH. destruct IH as [Hnd Hbd].
    cbn [MachineController.trace map].
    assert (current_line (MachineController.state self) <= n).
    { unfold in_job in Hin.
      destruct (MachineController.job_thread self); try exact Hin. lia. }
    split.
    + cbn [nondecreasing]. split; [| exact Hnd].
      destruct rest; cbn [MachineController.trace map]; exact Hle.
    + constructor; assumption.
Qed.

End LineCounter.

(** ** A complete simulated job *)

Lemma running_is_simulating (text : string) :
  snd (MachineController.start_job (Scenario.controller text) Scenario.job) = Ok tt ->
  simulating (Scenario.running text).
Proof.
  intro Hok. unfold Scenario.running. cbn [MachineController.handle].
  destruct (MachineController.start_job (Scenario.controller text) Scenario.job)
    as [self' r] eqn:Hs. cbn [snd] in Hok. subst r. cbn [fst].
  revert Hs. unfold MachineController.start_job, MachineController.set_tool.
  destruct (negb _); [discriminate |].
  destruct (MachineController.busy _); [discriminate |].
  destruct (FileStore.line_count _ _) as [n |]; [| discriminate].
  cbn -[FileStore.read_lines].
  destruct (FileStore.read_lines _ _) as [lines |]; [| discriminate].
  intros [= <-]. repeat split.
  intro rpm. cbn [MachineController.cfg].
  destruct (volts_of_value Scenario.cfg rpm) as [v [Hv _]]; [reflexivity |].
  exists v. exact Hv.
Qed.

Example simulated_incremental_job :
  let content := ("G91" ++ Scenario.nl ++ "G1 X5" ++ Scenario.nl ++ "G1 Y5"
                  ++ Scenario.nl ++ "G1 Z-2" ++ Scenario.nl)%string in
  let self' := MachineController.run (Scenario.running content)
                 (repeat MachineController.Turn 5) in
  status (MachineController.state self') = Complete /\
  machine_pos (MachineController.state self') = [5%Q; 5%Q; (-2)%Q].
Proof.
  vm_compute. split; reflexivity.
Qed.

(** * Further properties of the code *)

(** ** The preview: comments, shape, failures *)

Section PreviewShape.
Context {float : Type} {FO : FloatOps float}.

Lemma hd_split_on_cons (sep x : ascii) (r : string) :
  hd EmptyString (PyStr.split_on sep (String x r))
  = if Ascii.eqb x sep then EmptyString
    else String x (hd EmptyString (PyStr.split_on sep r)).
Proof.
  cbn [PyStr.split_on]. destruct (Ascii.eqb x sep); [reflexivity |].
  destruct (PyStr.split_on sep r); reflexivity.
Qed.

Lemma hd_split_on_app (sep : ascii) (a c : string) :
  hd EmptyString (PyStr.split_on sep (a ++ String sep c)%string)
  = hd EmptyString (PyStr.split_on sep a).
Proof.
  induction a as [| x r IH].
  - cbn [String.append]. rewrite hd_split_on_cons, Ascii.eqb_refl. reflexivity.
  - cbn [String.append]. rewrite !hd_split_on_cons, IH. reflexivity.
Qed.

Lemma residue_semicolon (a c : string) :
  GCodeParser.residue (a ++ String ";"%char c)%string = GCodeParser.residue a.
Proof.
  unfold GCodeParser.residue. rewrite hd_split_on_app. reflexivity.
Qed.

Lemma residue_parenthesis (a c : string) :
  GCodeParser.residue (a ++ String "("%char c)%string = GCodeParser.residue a.
Proof.
  unfold GCodeParser.residue. f_equal.
  induction a as [| x r IH].
  - cbn [String.append]. rewrite (hd_split_on_cons ";"%char "("%char c).
    cbn [Ascii.eqb Bool.eqb]. rewrite hd_split_on_cons, Ascii.eqb_refl. reflexivity.
  - cbn [String.append]. rewrite !(hd_split_on_cons ";"%char x).
    destruct (Ascii.eqb x ";"%char); [reflexivity |].
    rewrite !(hd_split_on_cons "("%char x), IH. reflexivity.
Qed.

(** Text after the first [;] or the first [(] of a line never reaches the
    preview: the parser does the same on the line with and without it. *)
Theorem comment_text_is_ignored :
  forall (fr : GCodeParser.frame float) (a c : string),
    GCodeParser.parse_line fr (a ++ String ";"%char c)%string
    = GCodeParser.parse_line fr a /\
    GCodeParser.parse_line fr (a ++ String "("%char c)%string
    = GCodeParser.parse_line fr a.
Proof.
  intros fr a c. unfold GCodeParser.parse_line.
  rewrite residue_semicolon, residue_parenthesis. split; reflexivity.
Qed.

Lemma connects_snoc (start stop e : vec3 float) (segs : list (PathSegment float)) (r : bool) :
  Path.connects start segs stop ->
  Path.connects start
    (segs ++ [{| seg_start := stop; seg_end := e; rapid := r |}]) e.
Proof.
  revert start. induction segs as [| seg rest IH]; intros start; cbn.
  - intros ->. split; reflexivity.
  - intros [Hs Hr]. split; [exact Hs | apply IH, Hr].
Qed.

Lemma parse_line_connects (fr fr' : GCodeParser.frame float) (raw : string)
      (start : vec3 float) :
  GCodeParser.parse_line fr raw = Ok fr' ->
  Path.connects start (GCodeParser.segs fr) (GCodeParser.position (GCodeParser.self_ fr)) ->
  Path.connects start (GCodeParser.segs fr') (GCodeParser.position (GCodeParser.self_ fr')).
Proof.
  unfold GCodeParser.parse_line.
  destruct (PyStr.is_empty (GCodeParser.residue raw)).
  - intros [= <-]. trivial.
  - destruct (GCodeParser.is_motion _).
    + destruct (GCodeParser._extract_move _ _) as [mv |]; cbn [bind]; [| discriminate].
      intros [= <-] H. cbn [GCodeParser.segs GCodeParser.self_ GCodeParser.position].
      apply connects_snoc. rewrite set_mode_position. exact H.
    + intros [= <-] H. cbn [GCodeParser.segs GCodeParser.self_].
      rewrite set_mode_position. exact H.
Qed.

(** The segments of a preview form one connected path from the origin: the
    first starts at [[0, 0, 0]] and each next one starts where the one before
    ended. *)
Theorem preview_path_is_connected :
  forall (content : string) (pv : Preview float),
    GCodeParser.parse_file content = Ok pv ->
    exists stop, Path.connects zero3 (segments pv) stop.
Proof.
  intros content pv. unfold GCodeParser.parse_file.
  set (fr0 := {| GCodeParser.self_ := GCodeParser.reset;
                 GCodeParser.segs := []; GCodeParser.box := None |}).
  assert (H0 : Path.connects zero3 (GCodeParser.segs fr0)
                 (GCodeParser.position (GCodeParser.self_ fr0))) by reflexivity.
  generalize dependent fr0. generalize (GCodeParser.file_lines content).
  intros lines. induction lines as [| raw rest IH]; intros fr0 H0;
    cbn [GCodeParser.parse_lines bind].
  - intros [= <-]. exists (GCodeParser.position (GCodeParser.self_ fr0)).
    destruct (GCodeParser.box fr0) as [[lo hi] |]; exact H0.
  - destruct (GCodeParser.parse_line fr0 raw) as [fr1 |] eqn:H1; cbn [bind];
      [| discriminate].
    apply IH. eapply parse_line_connects; eassumption.
Qed.

Lemma move_token_outcome (self : GCodeParser.t float) (target : vec3 float) (tok : string) :
  match GCodeParser.move_token self target tok with
  | Ok _ => Path.axis_word_ok tok = true
  | Raise e => Path.axis_word_ok tok = false /\ e = ValueError
  end.
Proof.
  unfold GCodeParser.move_token, Path.axis_word_ok, GCodeParser.coordinate, to_float.
  destruct (float_of_string (PyStr.tail tok)) as [v |]; cbn [Path.is_some bind].
  - destruct (PyStr.startswith "X" tok), (PyStr.startswith "Y" tok),
      (PyStr.startswith "Z" tok); reflexivity.
  - destruct (PyStr.startswith "X" tok), (PyStr.startswith "Y" tok),
      (PyStr.startswith "Z" tok); cbn; auto.
Qed.

Lemma move_tokens_outcome (self : GCodeParser.t float) (tokens : list string) :
  forall target : vec3 float,
    match GCodeParser.move_tokens self target tokens with
    | Ok _ => forallb Path.axis_word_ok tokens = true
    | Raise e => forallb Path.axis_word_ok tokens = false /\ e = ValueError
    end.
Proof.
  induction tokens as [| tok rest IH]; intro target; cbn; [reflexivity |].
  pose proof (move_token_outcome self target tok) as H.
  destruct (GCodeParser.move_token self target tok) as [t1 | e]; cbn [bind].
  - rewrite H. cbn. apply IH.
  - destruct H as [-> ->]. auto.
Qed.

Lemma parse_line_outcome (fr : GCodeParser.frame float) (raw : string) :
  match GCodeParser.parse_line fr raw with
  | Ok _ => Path.line_readable raw = true
  | Raise e => Path.line_readable raw = false /\ e = ValueError
  end.
Proof.
  unfold GCodeParser.parse_line, Path.line_readable, Lines.starts_with_motion_prefix.
  destruct (GCodeParser.residue raw) as [| c r]; [reflexivity |].
  cbn [PyStr.is_empty].
  destruct (GCodeParser.is_motion (PyStr.upper (String c r))); [| reflexivity].
  cbn [negb orb]. unfold GCodeParser._extract_move.
  match goal with
  | |- context [GCodeParser.move_tokens ?s ?t ?ts] =>
      pose proof (move_tokens_outcome s ts t) as H;
      destruct (GCodeParser.move_tokens s t ts)
  end; cbn [bind]; exact H.
Qed.

Lemma parse_lines_outcome (lines : list string) :
  forall fr : GCodeParser.frame float,
    match GCodeParser.parse_lines fr lines with
    | Ok _ => forallb Path.line_readable lines = true
    | Raise e => forallb Path.line_readable lines = false /\ e = ValueError
    end.
Proof.
  induction lines as [| raw rest IH]; intro fr; cbn; [reflexivity |].
  pose proof (parse_line_outcome fr raw) as H.
  destruct (GCodeParser.parse_line fr raw) as [fr1 | e]; cbn [bind].
  - rewrite H. cbn. apply IH.
  - destruct H as [-> ->]. auto.
Qed.

(** When [parse_file] fails and when it does not: it returns a preview exactly
    when, on every line that starts with [G0] or [G1], the remainder of each
    word starting with [X], [Y] or [Z] is accepted by [float()]; otherwise it
    raises [ValueError], and it raises nothing else. *)
Theorem parse_file_outcome :
  forall content : string,
    match GCodeParser.parse_file content with
    | Ok _ => forallb Path.line_readable (GCodeParser.file_lines content) = true
    | Raise e =>
        forallb Path.line_readable (GCodeParser.file_lines content) = false /\
        e = ValueError
    end.
Proof.
  intro content. unfold GCodeParser.parse_file.
  match goal with
  | |- context [GCodeParser.parse_lines ?fr ?ls] =>
      pose proof (parse_lines_outcome ls fr) as H;
      destruct (GCodeParser.parse_lines fr ls)
  end; cbn [bind]; exact H.
Qed.

(** A file without motion line (an empty file, a file of comments, a file of
    [M] codes) gives the preview with no segment and both corners of the box
    at [[0, 0, 0]]. *)
Theorem preview_without_motion :
  forall content : string,
    existsb Lines.starts_with_motion_prefix (GCodeParser.file_lines content) = false ->
    GCodeParser.parse_file content
    = Ok {| segments := []; bbox_min := zero3; bbox_max := zero3 |}.
Proof.
  intros content. unfold GCodeParser.parse_file.
  set (fr0 := {| GCodeParser.self_ := GCodeParser.reset;
                 GCodeParser.segs := []; GCodeParser.box := None |}).
  assert (H0 : GCodeParser.segs fr0 = [] /\ GCodeParser.box fr0 = None)
    by (split; reflexivity).
  generalize dependent fr0. generalize (GCodeParser.file_lines content).
  intros lines. induction lines as [| raw rest IH]; intros fr0 [Hs Hb];
    cbn [GCodeParser.parse_lines existsb bind].
  - intros _. rewrite Hb, Hs. reflexivity.
  - intro H. apply orb_false_iff in H as [Hraw Hrest].
    unfold GCodeParser.parse_line.
    unfold Lines.starts_with_motion_prefix in Hraw.
    destruct (GCodeParser.residue raw) as [| c r]; cbn [PyStr.is_empty bind].
    + apply IH; [split; assumption | exact Hrest].
    + rewrite Hraw. cbn [bind]. apply IH; [split; assumption | exact Hrest].
Qed.

End PreviewShape.

Lemma comment_text_is_ignored_sample :
  GCodeParser.residue "G1 X5 ; X10" = "G1 X5" /\
  GCodeParser.residue "G1 X5 (to X10) Y2" = "G1 X5".
Proof. split; reflexivity. Qed.

Lemma preview_path_is_connected_witness :
  let content := ("G90" ++ Scenario.nl ++ "G0 X10 Y0" ++ Scenario.nl)%string in
  exists pv : Preview Q,
    GCodeParser.parse_file content = Ok pv /\
    exists stop, Path.connects zero3 (segments pv) stop.
Proof.
  cbv zeta. eexists. split; [exact parse_file_single_rapid |].
  exact (preview_path_is_connected _ _ parse_file_single_rapid).
Defined.

Lemma preview_without_motion_witness :
  let content := ("; header" ++ Scenario.nl ++ "M3 S12000" ++ Scenario.nl)%string in
  existsb Lines.starts_with_motion_prefix (GCodeParser.file_lines content) = false /\
  GCodeParser.parse_file (float := Q) content
  = Ok {| segments := []; bbox_min := zero3; bbox_max := zero3 |}.
Proof.
  cbv zeta.
  assert (H : existsb Lines.starts_with_motion_prefix
                (GCodeParser.file_lines
                   ("; header" ++ Scenario.nl ++ "M3 S12000" ++ Scenario.nl)%string)
              = false) by reflexivity.
  split; [exact H | exact (preview_without_motion _ H)].
Defined.

(** ** The bounding box of a preview *)

Section PreviewBox.










End PreviewBox.


(** ** Counting the lines of a file *)

Section LineCount.

Lemma universal_newlines_cons (c : ascii) (r : string) :
  PyStr.universal_newlines (String c r)
  = if Ascii.eqb c PyStr.CR then
      match r with
      | String d _ =>
          if Ascii.eqb d PyStr.LF then PyStr.universal_newlines r
          else String PyStr.LF (PyStr.universal_newlines r)
      | EmptyString => String PyStr.LF EmptyString
      end
    else String c (PyStr.universal_newlines r).
Proof.
  cbn [PyStr.universal_newlines]. destruct (Ascii.eqb c PyStr.CR); [| reflexivity].
  destruct r as [| d r']; [reflexivity |].
  destruct (Ascii.eqb d PyStr.LF) eqn:E; [| reflexivity].
  apply Ascii.eqb_eq in E. subst d. reflexivity.
Qed.

Lemma plain_char_cases (c : ascii) :
  TextLines.plain_char c = true ->
  Ascii.eqb c PyStr.CR = true \/ TextLines.unix_char c = true.
Proof.
  unfold TextLines.plain_char, TextLines.unix_char. intro H.
  destruct (Ascii.eqb c PyStr.CR); [left; reflexivity | right].
  rewrite orb_false_r in H. exact H.
Qed.

Lemma universal_newlines_unix (s : string) :
  TextLines.plain_breaks s = true ->
  TextLines.unix_breaks (PyStr.universal_newlines s) = true.
Proof.
  induction s as [| c r IH]; [reflexivity |].
  cbn [TextLines.plain_breaks]. intro H. apply andb_true_iff in H as [Hc Hr].
  specialize (IH Hr). rewrite universal_newlines_cons.
  destruct (Ascii.eqb c PyStr.CR) eqn:Ecr.
  - destruct r as [| d r']; [reflexivity |].
    destruct (Ascii.eqb d PyStr.LF); [exact IH |].
    cbn [TextLines.unix_breaks]. rewrite IH. reflexivity.
  - cbn [TextLines.unix_breaks]. rewrite IH.
    destruct (plain_char_cases c Hc) as [H | H]; [congruence | rewrite H; reflexivity].
Qed.

Lemma splitlines_nil (s : string) : PyStr.splitlines s = [] -> s = EmptyString.
Proof.
  destruct s as [| c r]; [reflexivity |]. cbn [PyStr.splitlines].
  destruct (Ascii.eqb c PyStr.CR).
  - destruct r as [| d r']; [discriminate |].
    destruct (Ascii.eqb d PyStr.LF); discriminate.
  - destruct (PyStr.is_linebreak c); [discriminate |].
    destruct (PyStr.splitlines r); discriminate.
Qed.

Lemma unix_char_cases (c : ascii) :
  TextLines.unix_char c = true ->
  Ascii.eqb c PyStr.CR = false /\
  (Ascii.eqb c PyStr.LF = true /\ PyStr.is_linebreak c = true \/
   Ascii.eqb c PyStr.LF = false /\ PyStr.is_linebreak c = false).
Proof.
  unfold TextLines.unix_char.
  destruct (Ascii.eqb c PyStr.LF) eqn:Elf.
  - apply Ascii.eqb_eq in Elf. subst c. intros _. split; [reflexivity |].
    left. split; reflexivity.
  - rewrite orb_false_r. intro H. apply negb_true_iff in H. split.
    + destruct (Ascii.eqb c PyStr.CR) eqn:Ecr; [| reflexivity].
      apply Ascii.eqb_eq in Ecr. subst c. discriminate H.
    + right. split; [reflexivity | exact H].
Qed.

(** The iterator of a text-mode file and [str.splitlines()] count the same
    lines when LF is the only line boundary of the text. *)
Lemma count_iter_lines_splitlines (t : string) :
  TextLines.unix_breaks t = true ->
  PyStr.count_iter_lines t = List.length (PyStr.splitlines t).
Proof.
  induction t as [| c r IH]; [reflexivity |].
  cbn [TextLines.unix_breaks]. intro H. apply andb_true_iff in H as [Hc Hr].
  specialize (IH Hr). cbn [PyStr.count_iter_lines PyStr.splitlines].
  destruct (unix_char_cases c Hc) as [Ecr [[Elf Elb] | [Elf Elb]]];
    rewrite Ecr, Elf, Elb.
  - cbn [List.length]. rewrite IH. reflexivity.
  - destruct r as [| d r']; [reflexivity |].
    rewrite IH.
    destruct (PyStr.splitlines (String d r')) as [| l ls] eqn:E;
      [apply splitlines_nil in E; discriminate | reflexivity].
Qed.

(** The two ways of counting lines, as used below. *)
Lemma line_count_splitlines :
  forall (store : FileStore.t) (name text : string),
    FileStore.content store (FileStore.resolve (FileStore.path_for store name))
    = Some text ->
    TextLines.plain_breaks text = true ->
    exists lines,
      FileStore.read_lines store (FileStore.path_for store name) = Ok lines /\
      FileStore.line_count store name = Ok (List.length lines).
Proof.
  intros store name text Hc Hp.
  unfold FileStore.read_lines, FileStore.line_count. rewrite Hc.
  eexists. split; [reflexivity |].
  rewrite (count_iter_lines_splitlines _ (universal_newlines_unix _ Hp)).
  reflexivity.
Qed.

(** [FileStore.line_count] and the lines read for the executor agree on every
    file whose only line boundaries are LF, CR and CR LF. *)
Theorem line_count_is_number_of_job_lines :
  forall (store : FileStore.t) (name text : string),
    FileStore.content store (FileStore.resolve (FileStore.path_for store name))
    = Some text ->
    TextLines.plain_breaks text = true ->
    exists lines,
      FileStore.read_lines store (FileStore.path_for store name) = Ok lines /\
      FileStore.line_count store name = Ok (List.length lines).
Proof.
  exact line_count_splitlines.
Qed.

End LineCount.

Lemma line_count_is_number_of_job_lines_witness :
  let store := MachineController.files
                 (Scenario.controller ("G90" ++ Scenario.nl ++ "G0 X10 Y0")%string) in
  FileStore.content store (FileStore.resolve (FileStore.path_for store "job.nc"))
  = Some ("G90" ++ Scenario.nl ++ "G0 X10 Y0")%string /\
  TextLines.plain_breaks ("G90" ++ Scenario.nl ++ "G0 X10 Y0")%string = true /\
  exists lines,
    FileStore.read_lines store (FileStore.path_for store "job.nc") = Ok lines /\
    FileStore.line_count store "job.nc" = Ok (List.length lines).
Proof.
  cbv zeta.
  assert (Hc : FileStore.content
                 (MachineController.files
                    (Scenario.controller ("G90" ++ Scenario.nl ++ "G0 X10 Y0")%string))
                 (FileStore.resolve
                    (FileStore.path_for
                       (MachineController.files
                          (Scenario.controller
                             ("G90" ++ Scenario.nl ++ "G0 X10 Y0")%string)) "job.nc"))
               = Some ("G90" ++ Scenario.nl ++ "G0 X10 Y0")%string)
    by (vm_compute; reflexivity).
  assert (Hp : TextLines.plain_breaks ("G90" ++ Scenario.nl ++ "G0 X10 Y0")%string = true)
    by reflexivity.
  split; [exact Hc | split; [exact Hp |]].
  exact (line_count_is_number_of_job_lines _ _ _ Hc Hp).
Defined.

(** ** The job counters on ordinary files *)

Section JobCounters.
Context {float : Type} {FO : FloatOps float}.








(** *** Stop *)

Lemma run_turns_idle (n : nat) (self : MachineController.t float) :
  (forall idx rest,
      MachineController.job_thread self <> MachineController.Looping idx rest) ->
  MachineController.run self (repeat MachineController.Turn n) = self.
Proof.
  intro H. induction n as [| n IH]; [reflexivity |].
  cbn [repeat]. unfold MachineController.run in *. cbn [fold_left MachineController.handle].
  assert (Hs : MachineController.step self = self).
  { unfold MachineController.step.
    destruct (MachineController.job_thread self) as [| idx rest | |] eqn:E;
      try reflexivity.
    exfalso. apply (H idx rest). reflexivity. }
  rewrite Hs. exact IH.
Qed.

(** [stop()] ends the job at the executor's next turn, also while it waits in
    the pause gate: the thread leaves the loop with the status [Stopped] and
    the vacuum switched off, no further line is executed (the line counter,
    the position, the transmit queue and the spindle sink are as they were),
    and later turns change nothing. *)
Theorem stop_ends_job :
  forall (self : MachineController.t float) (idx : nat) (rest : list string) (n : nat),
    MachineController.job_thread self = MachineController.Looping idx rest ->
    let self' := MachineController.run (MachineController.stop self)
                   (repeat MachineController.Turn (S n)) in
    MachineController.job_thread self' = MachineController.Finished /\
    status (MachineController.state self') = Stopped /\
    current_line (MachineController.state self')
    = current_line (MachineController.state self) /\
    machine_pos (MachineController.state self')
    = machine_pos (MachineController.state self) /\
    GrblClient.tx_queue (MachineController.grbl self')
    = GrblClient.tx_queue (MachineController.grbl self) /\
    MachineController.vfd self' = MachineController.vfd self /\
    MachineController.vacuum self' = MachineController.vacuum self ++ [false].
Proof.
  intros self idx rest n Hth. cbv zeta. cbn [repeat].
  unfold MachineController.run. cbn [fold_left MachineController.handle].
  fold (MachineController.run (MachineController.step (MachineController.stop self))
          (repeat MachineController.Turn n)).
  assert (Hstep : MachineController.step (MachineController.stop self)
                  = MachineController.finish (MachineController.stop self)).
  { unfold MachineController.step.
    assert (Hth' : MachineController.job_thread (MachineController.stop self)
                   = MachineController.Looping idx rest).
    { unfold MachineController.stop. cbn.
      destruct (GrblClient.connected (MachineController.grbl self)); exact Hth. }
    assert (Hflag : MachineController.stop_flag (MachineController.stop self) = true).
    { unfold MachineController.stop. cbn.
      destruct (GrblClient.connected (MachineController.grbl self)); reflexivity. }
    rewrite Hth', Hflag. destruct rest; reflexivity. }
  rewrite Hstep. rewrite run_turns_idle by (intros; discriminate).
  unfold MachineController.finish, MachineController.stop. cbn.
  unfold GrblClient.realtime_command.
  destruct (GrblClient.connected (MachineController.grbl self)) eqn:E; cbn;
    rewrite ?E; cbn; repeat split; reflexivity.
Qed.

(** *** Pause and resume *)

(** While a running job with lines left is paused, turns of the executor
    change nothing at all; and without a link, [resume()] after [pause()]
    gives back the controller as it was. *)
Theorem pause_suspends_job :
  forall (self : MachineController.t float) (idx : nat) (raw : string)
         (rest : list string) (n : nat),
    MachineController.job_thread self = MachineController.Looping idx (raw :: rest) ->
    MachineController.stop_flag self = false ->
    status (MachineController.state self) = Running ->
    MachineController.run (MachineController.pause self)
      (repeat MachineController.Turn n)
    = MachineController.pause self /\
    (GrblClient.connected (MachineController.grbl self) = false ->
     MachineController.resume
       (MachineController.run (MachineController.pause self)
          (repeat MachineController.Turn n))
     = self).
Proof.
  intros self idx raw rest n Hth Hstop Hrun.
  assert (Hwait : MachineController.run (MachineController.pause self)
                    (repeat MachineController.Turn n)
                  = MachineController.pause self).
  { induction n as [| n IH]; [reflexivity |].
    cbn [repeat]. unfold MachineController.run in *.
    cbn [fold_left MachineController.handle].
    assert (Hs : MachineController.step (MachineController.pause self)
                 = MachineController.pause self).
    { unfold MachineController.pause.
      destruct (GrblClient.connected (MachineController.grbl self)); cbn;
        rewrite Hrun; cbn; unfold MachineController.step; cbn;
        rewrite Hth, Hstop; reflexivity. }
    rewrite Hs. exact IH. }
  split; [exact Hwait |].
  intro Hconn. rewrite Hwait.
  unfold MachineController.resume, MachineController.pause.
  rewrite Hconn. cbn. rewrite Hrun. cbn. rewrite Hconn. cbn.
  destruct self as [fs tl cf gr vf va st sf mt jt]. cbn in *.
  destruct st. cbn in *. subst. reflexivity.
Qed.

End JobCounters.

(** ** The executor with the link attached *)

Section Streaming.
Context {float : Type} {FO : FloatOps float}.

Lemma rstrip_idempotent (s : string) : PyStr.rstrip (PyStr.rstrip s) = PyStr.rstrip s.
Proof.
  induction s as [| c r IH]; [reflexivity |].
  cbn [PyStr.rstrip].
  destruct (PyStr.isspace c && PyStr.is_empty (PyStr.rstrip r)) eqn:E; [reflexivity |].
  cbn [PyStr.rstrip]. rewrite IH, E. reflexivity.
Qed.

Lemma lstrip_head (s : string) :
  match PyStr.lstrip s with
  | EmptyString => True
  | String c _ => PyStr.isspace c = false
  end.
Proof.
  induction s as [| c r IH]; [exact I |].
  cbn [PyStr.lstrip]. destruct (PyStr.isspace c) eqn:E; [exact IH | exact E].
Qed.

(** [str.strip] is idempotent. *)
Lemma strip_idempotent (s : string) : PyStr.strip (PyStr.strip s) = PyStr.strip s.
Proof.
  unfold PyStr.strip. pose proof (lstrip_head s) as H.
  destruct (PyStr.lstrip s) as [| c r]; [reflexivity |].
  cbn [PyStr.rstrip]. rewrite H. cbn [andb PyStr.lstrip]. rewrite H.
  cbn [PyStr.rstrip]. rewrite H, rstrip_idempotent. reflexivity.
Qed.

Lemma handle_spindle_tokens_streaming (self : MachineController.t float) (line : string) :
  streaming self ->
  exists self1,
    MachineController._handle_spindle_tokens self line = (self1, Ok tt) /\
    streaming self1 /\
    MachineController.grbl self1 = MachineController.grbl self /\
    MachineController.move_tracker self1 = MachineController.move_tracker self /\
    MachineController.job_thread self1 = MachineController.job_thread self /\
    machine_pos (MachineController.state self1)
    = machine_pos (MachineController.state self).
Proof.
  intros (Hstop & Hrun & Hconn & Hvolts).
  unfold MachineController._handle_spindle_tokens, SpindleShim.apply.
  match goal with
  | |- context [bind (SpindleShim.volts_of ?c ?r) _] =>
      destruct (Hvolts r) as [volts Hv]; change c with (MachineController.cfg self);
      rewrite Hv
  end.
  cbn [bind]. eexists. split; [reflexivity |].
  unfold streaming.
  destruct (MachineController.scan_direction (PyStr.upper line)),
           (MachineController.scan_rpm (PyStr.upper line)); cbn; auto 10.
Qed.

Lemma step_stream_line (self : MachineController.t float) (idx : nat)
      (raw : string) (rest : list string) :
  streaming self ->
  MachineController.job_thread self = MachineController.Looping idx (raw :: rest) ->
  let self1 := MachineController.step self in
  streaming self1 /\
  MachineController.job_thread self1 = MachineController.Looping (S idx) rest /\
  GrblClient.tx_queue (MachineController.grbl self1)
  = GrblClient.tx_queue (MachineController.grbl self)
    ++ (if not_blank raw then [framed raw] else []) /\
  machine_pos (MachineController.state self1)
  = machine_pos (MachineController.state self) /\
  MachineController.move_tracker self1 = MachineController.move_tracker self.
Proof.
  intros Hsim Hth. cbv zeta.
  pose proof Hsim as (Hstop & Hrun & Hconn & Hvolts).
  unfold MachineController.step. rewrite Hth, Hstop, Hrun. cbn [MachineStatus_eqb].
  unfold not_blank, Simulation.blank, framed.
  destruct (PyStr.is_empty (PyStr.strip raw)); cbn [negb].
  - rewrite app_nil_r. repeat split; assumption || reflexivity.
  - destruct (handle_spindle_tokens_streaming self (PyStr.strip raw) Hsim)
      as (self0 & -> & (Hstop0 & Hrun0 & Hconn0 & Hvolts0) & Hg0 & Htr0 & _ & Hpos0).
    rewrite Hconn0. unfold GrblClient.send_line. rewrite Hconn0. cbn.
    rewrite Hg0, strip_idempotent.
    repeat split; try assumption; try reflexivity.
Qed.

(** With the link attached and no pause or stop, the executor puts every line
    that is not blank on the transmit queue, stripped and ended by LF, in the
    order of the file and after what was queued before; it ends with the
    status [Complete] and never touches the position or the tracker. *)
Theorem executor_streams_lines :
  forall (lines : list string) (idx : nat) (self : MachineController.t float),
    streaming self ->
    MachineController.job_thread self = MachineController.Looping idx lines ->
    let self' := MachineController.run self
                   (repeat MachineController.Turn (S (List.length lines))) in
    MachineController.job_thread self' = MachineController.Finished /\
    status (MachineController.state self') = Complete /\
    GrblClient.tx_queue (MachineController.grbl self')
    = GrblClient.tx_queue (MachineController.grbl self)
      ++ map framed (filter not_blank lines) /\
    machine_pos (MachineController.state self')
    = machine_pos (MachineController.state self) /\
    MachineController.move_tracker self' = MachineController.move_tracker self.
Proof.
  induction lines as [| raw rest IH]; intros idx self Hsim Hth; cbv zeta.
  - destruct Hsim as (Hstop & _).
    cbn. unfold MachineController.step. rewrite Hth.
    unfold MachineController.finish. rewrite Hstop. cbn.
    rewrite app_nil_r. auto.
  - destruct (step_stream_line self idx raw rest Hsim Hth)
      as (Hsim1 & Hth1 & Hq1 & Hpos1 & Htr1).
    specialize (IH (S idx) _ Hsim1 Hth1). cbv zeta in IH.
    destruct IH as (Hfin & Hst & Hq & Hpos & Htr).
    unfold MachineController.run in *.
    change (repeat MachineController.Turn (S (List.length (raw :: rest))))
      with (MachineController.Turn
              :: repeat MachineController.Turn (S (List.length rest))).
    cbn [fold_left MachineController.handle].
    repeat split; try assumption.
    + rewrite Hq, Hq1, <- app_assoc. f_equal. cbn [filter].
      destruct (not_blank raw); reflexivity.
    + rewrite Hpos. exact Hpos1.
    + rewrite Htr. exact Htr1.
Qed.

End Streaming.

(** ** Instances of the statements on jobs *)

Lemma start_job_accepted (text : string) :
  snd (MachineController.start_job (Scenario.controller text) Scenario.job) = Ok tt ->
  MachineController.start_job (Scenario.controller text) Scenario.job
  = (Scenario.running text, Ok tt).
Proof.
  unfold Scenario.running. cbn [MachineController.handle].
  destruct (MachineController.start_job (Scenario.controller text) Scenario.job)
    as [c r]. cbn [fst snd]. intros ->. reflexivity.
Qed.

Lemma linked_is_streaming (text : string) :
  snd (MachineController.start_job
         (MachineController.with_grbl (Scenario.controller text) Linked.link)
         Scenario.job) = Ok tt ->
  streaming (Linked.running text).
Proof.
  intro Hok. unfold Linked.running. cbn [MachineController.handle].
  destruct (MachineController.start_job _ Scenario.job) as [self' r] eqn:Hs.
  cbn [snd] in Hok. subst r. cbn [fst].
  revert Hs. unfold MachineController.start_job, MachineController.set_tool.
  destruct (negb _); [discriminate |].
  destruct (MachineController.busy _); [discriminate |].
  destruct (FileStore.line_count _ _) as [n |]; [| discriminate].
  cbn -[FileStore.read_lines].
  destruct (FileStore.read_lines _ _) as [lines |]; [| discriminate].
  intros [= <-]. repeat split.
  intro rpm. cbn [MachineController.cfg].
  destruct (volts_of_value Scenario.cfg rpm) as [v [Hv _]]; [reflexivity |].
  exists v. exact Hv.
Qed.


Lemma stop_ends_job_witness :
  let self := Scenario.running ("G0 X1" ++ Scenario.nl ++ "G0 X2")%string in
  MachineController.job_thread self = MachineController.Looping 1 ["G0 X1"; "G0 X2"] /\
  let self' := MachineController.run (MachineController.stop self)
                 (repeat MachineController.Turn 3) in
  MachineController.job_thread self' = MachineController.Finished /\
  status (MachineController.state self') = Stopped /\
  current_line (MachineController.state self') = 0.
Proof.
  cbv zeta.
  assert (Hth : MachineController.job_thread
                  (Scenario.running ("G0 X1" ++ Scenario.nl ++ "G0 X2")%string)
                = MachineController.Looping 1 ["G0 X1"; "G0 X2"])
    by (vm_compute; reflexivity).
  split; [exact Hth |].
  destruct (stop_ends_job _ 1 ["G0 X1"; "G0 X2"] 2 Hth) as (H1 & H2 & H3 & _).
  split; [exact H1 | split; [exact H2 |]].
  rewrite H3. vm_compute. reflexivity.
Defined.

Lemma pause_suspends_job_witness :
  let self := Scenario.running ("G0 X1" ++ Scenario.nl ++ "G0 X2")%string in
  MachineController.job_thread self = MachineController.Looping 1 ["G0 X1"; "G0 X2"] /\
  MachineController.stop_flag self = false /\
  status (MachineController.state self) = Running /\
  GrblClient.connected (MachineController.grbl self) = false /\
  MachineController.run (MachineController.pause self) (repeat MachineController.Turn 4)
  = MachineController.pause self /\
  MachineController.resume
    (MachineController.run (MachineController.pause self)
       (repeat MachineController.Turn 4)) = self.
Proof.
  cbv zeta.
  assert (Hth : MachineController.job_thread
                  (Scenario.running ("G0 X1" ++ Scenario.nl ++ "G0 X2")%string)
                = MachineController.Looping 1 ["G0 X1"; "G0 X2"])
    by (vm_compute; reflexivity).
  assert (Hstop : MachineController.stop_flag
                    (Scenario.running ("G0 X1" ++ Scenario.nl ++ "G0 X2")%string) = false)
    by (vm_compute; reflexivity).
  assert (Hrun : status (MachineController.state
                    (Scenario.running ("G0 X1" ++ Scenario.nl ++ "G0 X2")%string)) = Running)
    by (vm_compute; reflexivity).
  assert (Hconn : GrblClient.connected (MachineController.grbl
                    (Scenario.running ("G0 X1" ++ Scenario.nl ++ "G0 X2")%string)) = false)
    by (vm_compute; reflexivity).
  destruct (pause_suspends_job _ 1 "G0 X1" ["G0 X2"] 4 Hth Hstop Hrun) as [Hw Hr].
  split; [exact Hth |]. split; [exact Hstop |]. split; [exact Hrun |].
  split; [exact Hconn |]. split; [exact Hw | exact (Hr Hconn)].
Defined.

Lemma executor_streams_lines_witness :
  let self := Linked.running ("M3 S12000" ++ Scenario.nl ++ Scenario.nl
                              ++ "  G1 X1 " ++ Scenario.nl)%string in
  MachineController.job_thread self
  = MachineController.Looping 1 ["M3 S12000"; EmptyString; "  G1 X1 "] /\
  let self' := MachineController.run self (repeat MachineController.Turn 4) in
  status (MachineController.state self') = Complete /\
  GrblClient.tx_queue (MachineController.grbl self')
  = [("M3 S12000" ++ Scenario.nl)%string; ("G1 X1" ++ Scenario.nl)%string].
Proof.
  cbv zeta.
  set (text := ("M3 S12000" ++ Scenario.nl ++ Scenario.nl
                ++ "  G1 X1 " ++ Scenario.nl)%string).
  assert (Hth : MachineController.job_thread (Linked.running text)
                = MachineController.Looping 1 ["M3 S12000"; EmptyString; "  G1 X1 "])
    by (vm_compute; reflexivity).
  assert (Hsim : streaming (Linked.running text))
    by (apply linked_is_streaming; vm_compute; reflexivity).
  split; [exact Hth |].
  destruct (executor_streams_lines _ 1 _ Hsim Hth) as (_ & Hst & Hq & _).
  split; [exact Hst |]. cbn [List.length] in Hq. rewrite Hq. vm_compute. reflexivity.
Defined.

Lemma tracker_follows_preview_without_comments_witness :
  let content := ("G91" ++ Scenario.nl ++ "G1 X5" ++ Scenario.nl ++ "G1 Y5"
                  ++ Scenario.nl ++ "G1 Z-2" ++ Scenario.nl)%string in
  forallb Lines.comment_free (GCodeParser.file_lines content) = true /\
  match GCodeParser.parse_file (float := Q) content,
        Simulation.final_position content with
  | Ok pv, Ok pos =>
      forall last, Simulation.last_end (segments pv) = Some last -> last = pos
  | Raise e, Raise e' => e = e'
  | _, _ => False
  end.
Proof.
  cbv zeta.
  set (content := ("G91" ++ Scenario.nl ++ "G1 X5" ++ Scenario.nl ++ "G1 Y5"
                   ++ Scenario.nl ++ "G1 Z-2" ++ Scenario.nl)%string).
  assert (H : forallb Lines.comment_free (GCodeParser.file_lines content) = true)
    by reflexivity.
  split; [exact H |].
  pose proof (tracker_follows_preview_without_comments (float := Q) content H) as X.
  exact X.
Defined.

Lemma executor_runs_tracker_witness :
  let self := Scenario.running ("G91" ++ Scenario.nl ++ "G1 X5" ++ Scenario.nl)%string in
  let tr := {| SimpleMoveTracker.position := Scenario.q3 5 0 0;
               SimpleMoveTracker.absolute := false |} in
  MachineController.job_thread self = MachineController.Looping 1 ["G91"; "G1 X5"] /\
  Simulation.track (MachineController.move_tracker self) ["G91"; "G1 X5"] = Ok tr /\
  let self' := MachineController.run self (repeat MachineController.Turn 3) in
  status (MachineController.state self') = Complete /\
  MachineController.move_tracker self' = tr /\
  machine_pos (MachineController.state self') = [5%Q; 0%Q; 0%Q].
Proof.
  cbv zeta.
  set (text := ("G91" ++ Scenario.nl ++ "G1 X5" ++ Scenario.nl)%string).
  assert (Hth : MachineController.job_thread (Scenario.running text)
                = MachineController.Looping 1 ["G91"; "G1 X5"])
    by (vm_compute; reflexivity).
  assert (Htr : Simulation.track (MachineController.move_tracker (Scenario.running text))
                  ["G91"; "G1 X5"]
                = Ok {| SimpleMoveTracker.position := Scenario.q3 5 0 0;
                        SimpleMoveTracker.absolute := false |})
    by (vm_compute; reflexivity).
  assert (Hsim : simulating (Scenario.running text))
    by (apply running_is_simulating; vm_compute; reflexivity).
  split; [exact Hth | split; [exact Htr |]].
  destruct (executor_runs_tracker _ 1 _ _ Hsim Hth Htr) as (_ & Hst & Hmt & Hpos).
  split; [exact Hst | split; [exact Hmt |]].
  cbn [List.length] in Hpos. rewrite Hpos. reflexivity.
Defined.

Lemma simulated_job_ends_at_preview_end_witness :
  let content := ("G91" ++ Scenario.nl ++ "G1 X5" ++ Scenario.nl ++ "G1 Y5"
                  ++ Scenario.nl ++ "G1 Z-2" ++ Scenario.nl)%string in
  forallb Lines.comment_free (GCodeParser.file_lines content) = true /\
  (exists pv, GCodeParser.parse_file (float := Q) content = Ok pv /\
              Simulation.last_end (segments pv) = Some (Scenario.q3 5 5 (-2))) /\
  let self' := MachineController.run (Scenario.running content)
                 (repeat MachineController.Turn 5) in
  status (MachineController.state self') = Complete /\
  machine_pos (MachineController.state self') = [5%Q; 5%Q; (-2)%Q].
Proof.
  cbv zeta.
  set (content := ("G91" ++ Scenario.nl ++ "G1 X5" ++ Scenario.nl ++ "G1 Y5"
                   ++ Scenario.nl ++ "G1 Z-2" ++ Scenario.nl)%string).
  assert (Hfree : forallb Lines.comment_free (GCodeParser.file_lines content) = true)
    by reflexivity.
  assert (Hsim : simulating (Scenario.running content))
    by (apply running_is_simulating; vm_compute; reflexivity).
  destruct (GCodeParser.parse_file (float := Q) content) as [pv |] eqn:Hpv;
    [| exfalso; vm_compute in Hpv; discriminate Hpv].
  assert (Hlast : Simulation.last_end (segments pv) = Some (Scenario.q3 5 5 (-2))).
  { vm_compute in Hpv. injection Hpv as <-. reflexivity. }
  split; [exact Hfree |]. split; [exists pv; split; [reflexivity | exact Hlast] |].
  apply (simulated_job_ends_at_preview_end content pv (Scenario.q3 5 5 (-2)) 1
           (Scenario.running content) Hfree Hpv Hlast Hsim);
    vm_compute; reflexivity.
Defined.

Lemma current_line_monotone_within_job_witness :
  let self := Scenario.running ("G0 X1" ++ Scenario.nl ++ "G0 X2")%string in
  let evs := [MachineController.Turn; MachineController.Pause; MachineController.Turn;
              MachineController.Resume; MachineController.Turn; MachineController.Stop;
              MachineController.Turn] in
  Forall within_job evs /\
  in_job 2 self /\
  let counters := map (fun c => current_line (MachineController.state c))
                      (MachineController.trace self evs) in
  nondecreasing counters /\ Forall (fun k => k <= 2) counters.
Proof.
  cbv zeta.
  assert (Hevs : Forall within_job
                   [MachineController.Turn; MachineController.Pause;
                    MachineController.Turn; MachineController.Resume;
                    MachineController.Turn; MachineController.Stop;
                    MachineController.Turn]) by (repeat constructor).
  assert (Hin : in_job 2 (Scenario.running ("G0 X1" ++ Scenario.nl ++ "G0 X2")%string))
    by (vm_compute; split; [apply le_n | reflexivity]).
  split; [exact Hevs | split; [exact Hin |]].
  exact (current_line_monotone_within_job _ 2 _ Hevs Hin).
Defined.

Lemma start_job_in_job_witness :
  let text := ("G0 X1" ++ Scenario.nl ++ "G0 X2")%string in
  MachineController.start_job (Scenario.controller text) Scenario.job
  = (Scenario.running text, Ok tt) /\
  current_line (MachineController.state (Scenario.running text)) = 0 /\
  total_lines (MachineController.state (Scenario.running text)) = 2 /\
  MachineController.job_thread (Scenario.running text)
  = MachineController.Looping 1 ["G0 X1"; "G0 X2"].
Proof.
  cbv zeta.
  assert (Hs : MachineController.start_job
                 (Scenario.controller ("G0 X1" ++ Scenario.nl ++ "G0 X2")%string)
                 Scenario.job
               = (Scenario.running ("G0 X1" ++ Scenario.nl ++ "G0 X2")%string, Ok tt))
    by (apply start_job_accepted; vm_compute; reflexivity).
  split; [exact Hs |].
  destruct (start_job_in_job _ _ _ Hs) as (H0 & _ & lines & _ & Hth & _).
  split; [exact H0 |]. split; vm_compute; reflexivity.
Defined.

(** ** Status frames with a short work offset *)

Section WorkOffsetFrames.
Context {float : Type} {FO : FloatOps float}.

(** A frame whose [WCO:] field has fewer than three numbers makes the status
    callback raise [IndexError], after the status, position, feed and rpm of
    the same frame were written and with the work offset left as it was; with
    three numbers or more the callback returns and the first three become the
    work offset. *)
Theorem work_offset_needs_three_numbers :
  forall (self : MachineController.t float) (line : string)
         (p : GrblClient.payload float) (w : list float),
    GrblClient._parse_status line = Ok p ->
    GrblClient.p_work_offset p = Some w ->
    let out := MachineController._ingest_status self p in
    let st' := MachineController.state (fst out) in
    (List.length w < 3 ->
     snd out = Raise IndexError /\
     work_offset st' = work_offset (MachineController.state self) /\
     (exists m, GrblClient.p_status p = Some (MachineStatus_value m) /\ status st' = m) /\
     (forall v, GrblClient.p_machine_pos p = Some v -> machine_pos st' = v)) /\
    (forall x y z rest, w = x :: y :: z :: rest ->
     snd out = Ok tt /\ work_offset st' = {| wx := x; wy := y; wz := z |}).
Proof.
  intros self line p w Hp Hw. cbv zeta.
  unfold GrblClient._parse_status in Hp.
  apply parse_tokens_fields in Hp as (Hk & _).
  destruct Hk as [m Hm]; [exists Idle; reflexivity |].
  pose proof (ingest_fields self p m Hm) as (Is & Im & _).
  unfold MachineController._ingest_status in *.
  rewrite Hm, MachineStatus_of_value_value, Hw in *. cbn [bind] in *.
  split.
  - intro Hlen. destruct w as [| x [| y [| z rest]]]; cbn in Hlen; try lia;
      cbn in *;
      (split; [reflexivity |]); (split; [|split]);
      try (exists m; split; [reflexivity | exact Is]);
      try (intros v Hv; rewrite Im, Hv; reflexivity);
      destruct (GrblClient.p_machine_pos p), (GrblClient.p_feed_rate p),
        (GrblClient.p_spindle_rpm p); reflexivity.
  - intros x y z rest ->. cbn. split; reflexivity.
Qed.

End WorkOffsetFrames.

Lemma work_offset_needs_three_numbers_witness :
  let self := Scenario.running "G0 X1" in
  let p := {| GrblClient.p_status := Some "Running";
              GrblClient.p_machine_pos := Some [1%Q; 2%Q; 3%Q];
              GrblClient.p_work_offset := Some [4%Q; 5%Q];
              GrblClient.p_feed_rate := None;
              GrblClient.p_spindle_rpm := None |} in
  GrblClient._parse_status "<Run|MPos:1,2,3|WCO:4,5>" = Ok p /\
  snd (MachineController._ingest_status self p) = Raise IndexError /\
  machine_pos (MachineController.state (fst (MachineController._ingest_status self p)))
  = [1%Q; 2%Q; 3%Q].
Proof.
  cbv zeta.
  assert (Hp : GrblClient._parse_status (float := Q) "<Run|MPos:1,2,3|WCO:4,5>"
               = Ok {| GrblClient.p_status := Some "Running";
                       GrblClient.p_machine_pos := Some [1%Q; 2%Q; 3%Q];
                       GrblClient.p_work_offset := Some [4%Q; 5%Q];
                       GrblClient.p_feed_rate := None;
                       GrblClient.p_spindle_rpm := None |})
    by (vm_compute; reflexivity).
  split; [exact Hp |].
  destruct (work_offset_needs_three_numbers (Scenario.running "G0 X1") _ _ _ Hp eq_refl)
    as [Hshort _].
  destruct (Hshort (le_n 3)) as (Hr & _ & _ & Hm).
  split; [exact Hr | exact (Hm _ eq_refl)].
Defined.

(** ** Where uploads are written *)

Section SaveFile.

Lemma split_on_fields (sep : ascii) (s : string) :
  Forall (fun f => Lines.has_char sep f = false) (PyStr.split_on sep s).
Proof.
  induction s as [| c r IH]; cbn [PyStr.split_on].
  - constructor; [reflexivity | constructor].
  - destruct (Ascii.eqb c sep) eqn:E.
    + constructor; [reflexivity | exact IH].
    + destruct (PyStr.split_on sep r) as [| t ts].
      * constructor; [cbn; rewrite E; reflexivity | constructor].
      * inversion IH as [| ? ? Ht Hts]; subst.
        constructor; [cbn; rewrite E; exact Ht | exact Hts].
Qed.

Lemma basename_has_no_slash (name : string) :
  Lines.has_char "/"%char (FileStore.basename name) = false.
Proof.
  unfold FileStore.basename.
  pose proof (split_on_fields "/"%char name) as H.
  induction H as [| f fs Hf Hfs IH]; [reflexivity |].
  destruct fs as [| g gs]; [exact Hf | exact IH].
Qed.

Lemma resolve_parts_descending (todo : list string) :
  forall done, Parts.descending todo = true ->
               FileStore.resolve_parts done todo = rev done ++ todo.
Proof.
  induction todo as [| part rest IH]; intros done; cbn.
  - intros _. rewrite app_nil_r. reflexivity.
  - intro H. apply andb_true_iff in H as [Hp Hr].
    unfold Parts.not_parent in Hp. apply negb_true_iff in Hp. rewrite Hp.
    rewrite (IH _ Hr). cbn [rev]. rewrite <- app_assoc. reflexivity.
Qed.

Lemma is_prefix_app (xs ys : list string) : FileStore.is_prefix xs (xs ++ ys) = true.
Proof.
  induction xs as [| x xs IH]; [reflexivity |].
  cbn. rewrite String.eqb_refl. exact IH.
Qed.

(** [save_file] writes inside the content directory for every file name,
    whatever directories and [..] it spells, except when the name ends in the
    component [..] itself (the content directory being given without [..]). *)
Theorem save_file_stays_inside :
  forall (store : FileStore.t) (filename : string),
    Parts.descending (FileStore.parts (FileStore.root store)) = true ->
    FileStore.basename filename <> ".." ->
    FileStore.inside (FileStore.root store) (FileStore.save_file store filename) = true.
Proof.
  intros store filename Hroot Hdots.
  unfold FileStore.save_file, FileStore.inside, FileStore.joinpath, FileStore.path_of.
  pose proof (basename_has_no_slash filename) as Hslash.
  set (b := FileStore.basename filename) in *.
  rewrite (split_on_absent _ _ Hslash).
  assert (Hrel : PyStr.startswith "/" b = false).
  { destruct b as [| c r]; [reflexivity |].
    cbn in Hslash. apply orb_false_iff in Hslash as [Hc _].
    unfold PyStr.startswith. cbn [String.prefix].
    destruct (Ascii.ascii_dec "/"%char c) as [<- | _]; [| reflexivity].
    rewrite Ascii.eqb_refl in Hc. discriminate Hc. }
  cbn [FileStore.anchored]. rewrite Hrel.
  unfold FileStore.resolve. cbn [FileStore.parts].
  rewrite (resolve_parts_descending _ [] Hroot). cbn [rev app].
  rewrite resolve_parts_descending.
  - cbn [rev app]. apply is_prefix_app.
  - unfold Parts.descending in *. rewrite forallb_app, Hroot. cbn [andb filter].
    destruct (FileStore.keep b); [| reflexivity].
    cbn. unfold Parts.not_parent.
    destruct (String.eqb b "..") eqn:E; [| reflexivity].
    apply String.eqb_eq in E. contradiction.
Qed.

End SaveFile.

Lemma save_file_stays_inside_witness :
  let store := MachineController.files (Scenario.controller "G0 X1") in
  Parts.descending (FileStore.parts (FileStore.root store)) = true /\
  FileStore.basename "../../etc/job.nc" <> ".." /\
  FileStore.inside (FileStore.root store) (FileStore.save_file store "../../etc/job.nc")
  = true.
Proof.
  cbv zeta.
  assert (H1 : Parts.descending
                 (FileStore.parts
                    (FileStore.root (MachineController.files (Scenario.controller "G0 X1"))))
               = true) by reflexivity.
  assert (H2 : FileStore.basename "../../etc/job.nc" <> "..")
    by (vm_compute; discriminate).
  split; [exact H1 | split; [exact H2 |]].
  exact (save_file_stays_inside _ _ H1 H2).
Defined.

(** ** The tool database *)

Section ToolDatabase.
Context {float : Type}.


Lemma max_id_nonneg (rs : list (Tool float)) : (0 <= ToolStore.max_id rs)%Z.
Proof.
  unfold ToolStore.max_id. induction rs as [| r rest IH]; cbn [fold_right]; lia.
Qed.




Lemma seq_grows (db : ToolStore.t float) (c : ToolStore.call float) :
  (ToolStore.seq db <= ToolStore.seq (ToolStore.perform db c))%Z.
Proof.
  destruct c as [tool | tool_id | tool_id update]; cbn.
  - unfold ToolStore.next_id. lia.
  - lia.
  - unfold ToolStore.update_tool.
    destruct (ToolStore.get_tool db tool_id); cbn; lia.
Qed.

Lemma seq_grows_all (calls : list (ToolStore.call float)) :
  forall db, (ToolStore.seq db <= ToolStore.seq (ToolStore.perform_all db calls))%Z.
Proof.
  induction calls as [| c rest IH]; intro db; cbn; [lia |].
  unfold ToolStore.perform_all in IH. specialize (IH (ToolStore.perform db c)).
  pose proof (seq_grows db c). lia.
Qed.

(** Ids are never given twice: a tool added after any sequence of additions,
    deletions and updates gets an id larger than that of every tool added
    before, also when that tool has been deleted in between. *)
Theorem tool_ids_are_never_reused :
  forall (db : ToolStore.t float) (first later : ToolStore.ToolCreate float)
         (calls : list (ToolStore.call float)),
    let db1 := fst (ToolStore.add_tool db first) in
    let t1 := snd (ToolStore.add_tool db first) in
    let t2 := snd (ToolStore.add_tool (ToolStore.perform_all db1 calls) later) in
    (tool_ident t1 < tool_ident t2)%Z.
Proof.
  intros db first later calls. cbv zeta.
  pose proof (seq_grows_all calls (fst (ToolStore.add_tool db first))) as H.
  unfold ToolStore.add_tool in *. cbn [fst snd tool_ident ToolStore.seq] in *.
  unfold ToolStore.next_id at 2. lia.
Qed.

Lemma find_filter_other (rs : list (Tool float)) (gone tool_id : Z) :
  tool_id <> gone ->
  find (ToolStore.has_id tool_id)
       (filter (fun r => negb (ToolStore.has_id gone r)) rs)
  = find (ToolStore.has_id tool_id) rs.
Proof.
  intro Hne. induction rs as [| r rest IH]; cbn [filter find]; [reflexivity |].
  destruct (ToolStore.has_id gone r) eqn:Eg; cbn [negb].
  - assert (H : ToolStore.has_id tool_id r = false).
    { unfold ToolStore.has_id in *. apply Z.eqb_eq in Eg. apply Z.eqb_neq. congruence. }
    rewrite H. exact IH.
  - cbn [find]. destruct (ToolStore.has_id tool_id r); [reflexivity | exact IH].
Qed.

(** [delete_tool] reports whether the id was present, after it the id is
    absent, every other id is answered as before, and the id is not given
    again to a later tool. *)
Theorem delete_tool_removes :
  forall (db : ToolStore.t float) (tool_id : Z),
    let db' := fst (ToolStore.delete_tool db tool_id) in
    snd (ToolStore.delete_tool db tool_id)
    = Path.is_some (ToolStore.get_tool db tool_id) /\
    ToolStore.get_tool db' tool_id = None /\
    (forall other, other <> tool_id ->
                   ToolStore.get_tool db' other = ToolStore.get_tool db other) /\
    ToolStore.seq db' = ToolStore.seq db.
Proof.
  intros db tool_id. cbv zeta.
  unfold ToolStore.delete_tool, ToolStore.get_tool. cbn [fst snd ToolStore.rows ToolStore.seq].
  repeat split.
  - induction (ToolStore.rows db) as [| r rest IH]; cbn; [reflexivity |].
    destruct (ToolStore.has_id tool_id r); [reflexivity | exact IH].
  - induction (ToolStore.rows db) as [| r rest IH]; cbn; [reflexivity |].
    destruct (ToolStore.has_id tool_id r) eqn:E; cbn; [exact IH |].
    rewrite E. exact IH.
  - intros other Hne. apply find_filter_other, Hne.
Qed.

Lemma find_map_updated (rs : list (Tool float)) (tool_id : Z) (data : Tool float) :
  find (ToolStore.has_id tool_id)
       (map (fun r => if ToolStore.has_id tool_id r then ToolStore.written data r else r) rs)
  = match find (ToolStore.has_id tool_id) rs with
    | Some r => Some (ToolStore.written data r)
    | None => None
    end.
Proof.
  induction rs as [| r rest IH]; cbn [map find]; [reflexivity |].
  destruct (ToolStore.has_id tool_id r) eqn:E.
  - assert (H : ToolStore.has_id tool_id (ToolStore.written data r) = true) by exact E.
    rewrite H. reflexivity.
  - rewrite E. exact IH.
Qed.

Lemma find_map_other (rs : list (Tool float)) (tool_id other : Z) (data : Tool float) :
  other <> tool_id ->
  find (ToolStore.has_id other)
       (map (fun r => if ToolStore.has_id tool_id r then ToolStore.written data r else r) rs)
  = find (ToolStore.has_id other) rs.
Proof.
  intro Hne. induction rs as [| r rest IH]; cbn [map find]; [reflexivity |].
  destruct (ToolStore.has_id tool_id r) eqn:E.
  - assert (H : ToolStore.has_id other (ToolStore.written data r) = false).
    { unfold ToolStore.has_id in *. cbn [ToolStore.written tool_ident].
      apply Z.eqb_eq in E. apply Z.eqb_neq. congruence. }
    assert (H' : ToolStore.has_id other r = false).
    { unfold ToolStore.has_id in *. apply Z.eqb_eq in E. apply Z.eqb_neq. congruence. }
    rewrite H, H'. exact IH.
  - destruct (ToolStore.has_id other r); [reflexivity | exact IH].
Qed.

(** [update_tool] on an absent id returns nothing and leaves the database as
    it is; on a stored tool it returns, and stores under the same id, the tool
    with exactly the given fields replaced; the other tools are untouched. *)
Theorem update_tool_merges :
  forall (db : ToolStore.t float) (tool_id : Z) (update : ToolStore.ToolUpdate float),
    match ToolStore.get_tool db tool_id with
    | None => ToolStore.update_tool db tool_id update = (db, None)
    | Some current =>
        let db' := fst (ToolStore.update_tool db tool_id update) in
        snd (ToolStore.update_tool db tool_id update)
        = Some (ToolStore.merged current update) /\
        ToolStore.get_tool db' tool_id = Some (ToolStore.merged current update) /\
        tool_ident (ToolStore.merged current update) = tool_id /\
        (forall other, other <> tool_id ->
                       ToolStore.get_tool db' other = ToolStore.get_tool db other)
    end.
Proof.
  intros db tool_id update.
  unfold ToolStore.update_tool.
  destruct (ToolStore.get_tool db tool_id) as [current |] eqn:Hget; [| reflexivity].
  cbv zeta. cbn [fst snd].
  assert (Hid : tool_ident current = tool_id).
  { unfold ToolStore.get_tool in Hget. apply find_some in Hget as [_ H].
    apply Z.eqb_eq in H. exact H. }
  assert (Hnew : ToolStore.get_tool
                   {| ToolStore.rows :=
                        map (fun r => if ToolStore.has_id tool_id r
                                      then ToolStore.written (ToolStore.merged current update) r
                                      else r) (ToolStore.rows db);
                      ToolStore.seq := ToolStore.seq db |} tool_id
                 = Some (ToolStore.merged current update)).
  { unfold ToolStore.get_tool in *. cbn [ToolStore.rows].
    rewrite find_map_updated, Hget. reflexivity. }
  repeat split.
  - exact Hnew.
  - exact Hnew.
  - exact Hid.
  - intros other Hne. unfold ToolStore.get_tool. cbn [ToolStore.rows].
    apply find_map_other, Hne.
Qed.

Lemma increasing_weaken (rs : list (Tool float)) :
  forall low low', (low' <= low)%Z -> ToolStore.increasing low rs -> ToolStore.increasing low' rs.
Proof.
  destruct rs as [| r rest]; cbn; [auto |]. intros low low' Hle [H1 H2]. split; [lia | exact H2].
Qed.

Lemma increasing_above (rs : list (Tool float)) :
  forall low r, ToolStore.increasing low rs -> In r rs -> (low < tool_ident r)%Z.
Proof.
  induction rs as [| x rest IH]; cbn; [contradiction |].
  intros low r [H1 H2] [<- | Hin]; [exact H1 |].
  specialize (IH _ _ H2 Hin). lia.
Qed.

Lemma increasing_snoc (rs : list (Tool float)) (new : Tool float) :
  forall low,
    ToolStore.increasing low rs ->
    (low < tool_ident new)%Z ->
    (ToolStore.max_id rs < tool_ident new)%Z ->
    ToolStore.increasing low (rs ++ [new]).
Proof.
  unfold ToolStore.max_id.
  induction rs as [| x rest IH]; cbn [app ToolStore.increasing fold_right]; intros low H Hlow Hmax.
  - auto.
  - destruct H as [H1 H2]. split; [exact H1 |]. apply IH; [exact H2 | lia | lia].
Qed.

Lemma increasing_filter (f : Tool float -> bool) (rs : list (Tool float)) :
  forall low, ToolStore.increasing low rs -> ToolStore.increasing low (filter f rs).
Proof.
  induction rs as [| x rest IH]; cbn [filter ToolStore.increasing]; [auto |].
  intros low [H1 H2]. destruct (f x); cbn [ToolStore.increasing].
  - split; [exact H1 | apply IH, H2].
  - apply IH. apply (increasing_weaken rest (tool_ident x)); [lia | exact H2].
Qed.

Lemma increasing_map (g : Tool float -> Tool float) (rs : list (Tool float)) :
  (forall r, tool_ident (g r) = tool_ident r) ->
  forall low, ToolStore.increasing low rs -> ToolStore.increasing low (map g rs).
Proof.
  intro Hg. induction rs as [| x rest IH]; cbn [map ToolStore.increasing]; [auto |].
  intros low [H1 H2]. rewrite Hg. split; [exact H1 | apply IH, H2].
Qed.

Lemma max_id_snoc (rs : list (Tool float)) (new : Tool float) :
  ToolStore.max_id (rs ++ [new]) = Z.max (ToolStore.max_id rs) (tool_ident new).
Proof.
  pose proof (max_id_nonneg [new]) as Hn. unfold ToolStore.max_id in *.
  induction rs as [| x rest IH]; cbn [app fold_right] in *; [lia |]. rewrite IH. lia.
Qed.

Lemma max_id_filter (f : Tool float -> bool) (rs : list (Tool float)) :
  (ToolStore.max_id (filter f rs) <= ToolStore.max_id rs)%Z.
Proof.
  unfold ToolStore.max_id.
  induction rs as [| x rest IH]; cbn [filter fold_right]; [lia |].
  destruct (f x); cbn [fold_right]; lia.
Qed.

Lemma max_id_map (g : Tool float -> Tool float) (rs : list (Tool float)) :
  (forall r, tool_ident (g r) = tool_ident r) ->
  ToolStore.max_id (map g rs) = ToolStore.max_id rs.
Proof.
  intro Hg. unfold ToolStore.max_id.
  induction rs as [| x rest IH]; cbn [map fold_right]; [reflexivity |].
  rewrite Hg, IH. reflexivity.
Qed.

Lemma written_keeps_id (tool_id : Z) (data r : Tool float) :
  tool_ident (if ToolStore.has_id tool_id r then ToolStore.written data r else r)
  = tool_ident r.
Proof.
  destruct (ToolStore.has_id tool_id r); reflexivity.
Qed.

Lemma consistent_perform (db : ToolStore.t float) (c : ToolStore.call float) :
  ToolStore.consistent db -> ToolStore.consistent (ToolStore.perform db c).
Proof.
  unfold ToolStore.consistent. intros [Hinc Hmax].
  destruct c as [tool | tool_id | tool_id update]; cbn [ToolStore.perform].
  - unfold ToolStore.add_tool, ToolStore.next_id.
    cbn [fst ToolStore.rows ToolStore.seq].
    pose proof (max_id_nonneg (ToolStore.rows db)) as Hnn.
    split.
    + apply increasing_snoc; [exact Hinc | cbn; lia | cbn; lia].
    + rewrite max_id_snoc. cbn [tool_ident]. lia.
  - unfold ToolStore.delete_tool. cbn [fst ToolStore.rows ToolStore.seq].
    split; [apply increasing_filter, Hinc |].
    pose proof (max_id_filter (fun r => negb (ToolStore.has_id tool_id r))
                  (ToolStore.rows db)). lia.
  - unfold ToolStore.update_tool.
    destruct (ToolStore.get_tool db tool_id) as [current |]; cbn [fst];
      [| split; assumption].
    cbn [ToolStore.rows ToolStore.seq]. split.
    + apply increasing_map; [apply written_keeps_id | exact Hinc].
    + rewrite max_id_map; [exact Hmax | apply written_keeps_id].
Qed.

Lemma consistent_perform_all (calls : list (ToolStore.call float)) :
  forall db, ToolStore.consistent db ->
             ToolStore.consistent (ToolStore.perform_all db calls).
Proof.
  unfold ToolStore.perform_all.
  induction calls as [| c rest IH]; intros db H; cbn [fold_left]; [exact H |].
  apply IH, consistent_perform, H.
Qed.

Lemma order_by_id_increasing (rs : list (Tool float)) :
  forall low, ToolStore.increasing low rs -> ToolStore.order_by_id rs = rs.
Proof.
  unfold ToolStore.order_by_id.
  induction rs as [| x rest IH]; cbn [fold_right ToolStore.increasing]; [reflexivity |].
  intros low [H1 H2]. rewrite (IH _ H2).
  destruct rest as [| y rest']; cbn [ToolStore.insert_by_id]; [reflexivity |].
  destruct H2 as [H2 _]. destruct (Z.leb_spec (tool_ident x) (tool_ident y)); [reflexivity | lia].
Qed.

Lemma find_increasing (rs : list (Tool float)) :
  forall low r,
    ToolStore.increasing low rs -> In r rs ->
    find (ToolStore.has_id (tool_ident r)) rs = Some r.
Proof.
  induction rs as [| x rest IH]; cbn [In find ToolStore.increasing]; [contradiction |].
  intros low r [H1 H2] [<- | Hin].
  - unfold ToolStore.has_id. rewrite Z.eqb_refl. reflexivity.
  - pose proof (increasing_above _ _ _ H2 Hin) as Hgt.
    unfold ToolStore.has_id at 1.
    destruct (Z.eqb_spec (tool_ident x) (tool_ident r)); [lia |].
    apply (IH _ _ H2 Hin).
Qed.

(** Whatever additions, deletions and updates a new database has seen,
    [list_tools] gives the tools with positive, strictly increasing ids (so
    no id twice), and it lists a tool exactly when [get_tool] answers that
    tool for its id. *)
Theorem list_tools_agrees_with_get_tool :
  forall (calls : list (ToolStore.call float)),
    let db := ToolStore.perform_all ToolStore.empty calls in
    ToolStore.increasing 0 (ToolStore.list_tools db) /\
    forall r, In r (ToolStore.list_tools db)
              <-> ToolStore.get_tool db (tool_ident r) = Some r.
Proof.
  intros calls db.
  assert (Hc : ToolStore.consistent db).
  { apply consistent_perform_all. split; cbn; [exact I | lia]. }
  destruct Hc as [Hinc _].
  unfold ToolStore.list_tools, ToolStore.get_tool.
  rewrite (order_by_id_increasing _ _ Hinc).
  split; [exact Hinc |].
  intro r. split.
  - apply (find_increasing _ _ _ Hinc).
  - intro H. apply find_some in H. apply H.
Qed.

End ToolDatabase.

(** ** Starting a job with and without a tool *)

Section StartJobTool.
Context {float : Type} {FO : FloatOps float}.

(** [start_job] with the id of a stored tool, on an existing file and outside
    [Running] and [Paused]: the job is accepted, the state gets the tool, its
    rpm and its direction, the spindle sink gets the direction and then the
    voltage of that rpm, the vacuum is switched on, the stop flag is cleared
    and the tracker is a fresh one. *)
Theorem start_job_applies_tool :
  forall (self : MachineController.t float) (request : JobRequest) (text : string)
         (k : Z) (tl : Tool float) (volts : float),
    FileStore.content (MachineController.files self)
      (FileStore.resolve
         (FileStore.path_for (MachineController.files self) (filename request)))
    = Some text ->
    MachineController.busy (status (MachineController.state self)) = false ->
    tool_id request = Some k ->
    k <> 0%Z ->
    MachineController.tools self k = Some tl ->
    SpindleShim.volts_of (MachineController.cfg self) (float_of_Z (tool_rpm tl)) = Ok volts ->
    exists self',
      MachineController.start_job self request = (self', Ok tt) /\
      status (MachineController.state self') = Running /\
      job_file (MachineController.state self') = Some (filename request) /\
      tool (MachineController.state self') = Some tl /\
      spindle_rpm (MachineController.state self') = float_of_Z (tool_rpm tl) /\
      spindle_dir (MachineController.state self') = tool_direction tl /\
      MachineController.vfd self'
      = MachineController.vfd self
        ++ [SpindleShim.set_direction (tool_direction tl); SpindleShim.set_voltage volts] /\
      MachineController.vacuum self' = MachineController.vacuum self ++ [true] /\
      MachineController.stop_flag self' = false /\
      MachineController.move_tracker self' = SimpleMoveTracker.init.
Proof.
  intros self request text k tl volts Hc Hidle Hid Hk Htool Hv.
  unfold MachineController.start_job, MachineController.set_tool,
    FileStore.exists_, FileStore.line_count, FileStore.read_lines, SpindleShim.apply.
  rewrite Hc, Hidle, Hid. cbn [negb].
  apply Z.eqb_neq in Hk. rewrite Hk.
  cbn [MachineController.tools MachineController.with_state MachineController.cfg
       MachineController.vfd MachineController.state MachineController.files].
  rewrite Htool, Hv. cbn [bind].
  cbn [MachineController.files MachineController.with_state MachineController.with_vfd
       MachineController.with_vacuum MachineController.with_stop_flag].
  rewrite Hc. eexists. split; [reflexivity |].
  cbn. repeat split; reflexivity.
Qed.

(** [start_job] without a tool id, with the id 0 or with an id the store does
    not know: the job is accepted all the same, the tool of the state is
    cleared, and the spindle rpm, its direction and the spindle sink are left
    as they were. *)
Theorem start_job_without_tool :
  forall (self : MachineController.t float) (request : JobRequest) (text : string),
    FileStore.content (MachineController.files self)
      (FileStore.resolve
         (FileStore.path_for (MachineController.files self) (filename request)))
    = Some text ->
    MachineController.busy (status (MachineController.state self)) = false ->
    tool_id request = None \/ tool_id request = Some 0%Z \/
    (exists k, tool_id request = Some k /\ MachineController.tools self k = None) ->
    exists self',
      MachineController.start_job self request = (self', Ok tt) /\
      status (MachineController.state self') = Running /\
      tool (MachineController.state self') = None /\
      spindle_rpm (MachineController.state self')
      = spindle_rpm (MachineController.state self) /\
      spindle_dir (MachineController.state self')
      = spindle_dir (MachineController.state self) /\
      MachineController.vfd self' = MachineController.vfd self /\
      MachineController.vacuum self' = MachineController.vacuum self ++ [true].
Proof.
  intros self request text Hc Hidle Hno.
  unfold MachineController.start_job, MachineController.set_tool,
    FileStore.exists_, FileStore.line_count, FileStore.read_lines.
  rewrite Hc, Hidle. cbn [negb].
  assert (Hnone : match tool_id request with
                  | Some n => if Z.eqb n 0 then None else MachineController.tools self n
                  | None => None
                  end = None).
  { destruct Hno as [-> | [-> | [k [-> Hk]]]]; try reflexivity.
    destruct (Z.eqb k 0); [reflexivity | exact Hk]. }
  cbn [MachineController.tools MachineController.with_state MachineController.files].
  rewrite Hnone.
  cbn [MachineController.files MachineController.with_state
       MachineController.with_vacuum MachineController.with_stop_flag].
  rewrite Hc. eexists. split; [reflexivity |].
  cbn. repeat split; reflexivity.
Qed.

End StartJobTool.

Lemma start_job_applies_tool_witness :
  exists self',
    MachineController.start_job (Workshop.controller "G0 X1")
      {| filename := "job.nc"; tool_id := Some 1%Z |} = (self', Ok tt) /\
    status (MachineController.state self') = Running /\
    spindle_rpm (MachineController.state self') = 12000%Q /\
    spindle_dir (MachineController.state self') = CW /\
    MachineController.vfd self'
    = [SpindleShim.set_direction CW; SpindleShim.set_voltage (5 # 2)%Q] /\
    MachineController.vacuum self' = [true].
Proof.
  assert (Hk : (1 <> 0)%Z) by discriminate.
  assert (Hfile : FileStore.content (MachineController.files (Workshop.controller "G0 X1"))
                    (FileStore.resolve
                       (FileStore.path_for
                          (MachineController.files (Workshop.controller "G0 X1")) "job.nc"))
                  = Some "G0 X1") by (vm_compute; reflexivity).
  assert (Hidle : MachineController.busy
                    (status (MachineController.state (Workshop.controller "G0 X1")))
                  = false) by (vm_compute; reflexivity).
  assert (Htool : MachineController.tools (Workshop.controller "G0 X1") 1%Z
                  = Some {| tool_ident := 1; tool_name := "6mm end mill";
                            diameter_mm := 6%Q; length_mm := 50%Q; tool_rpm := 12000;
                            feed_mm_min := 800%Q; tool_direction := CW; climb := false |})
    by (vm_compute; reflexivity).
  assert (Hv : SpindleShim.volts_of (MachineController.cfg (Workshop.controller "G0 X1"))
                 (float_of_Z 12000%Z) = Ok (5 # 2)%Q) by (vm_compute; reflexivity).
  destruct (start_job_applies_tool (Workshop.controller "G0 X1")
              {| filename := "job.nc"; tool_id := Some 1%Z |} "G0 X1" 1%Z _ _
              Hfile Hidle eq_refl Hk Htool Hv)
    as (self' & Hs & Hst & _ & _ & Hrpm & Hdir & Hvfd & Hvac & _).
  exists self'. split; [exact Hs |]. split; [exact Hst |].
  split; [exact Hrpm |]. split; [exact Hdir |]. split; [exact Hvfd |]. exact Hvac.
Defined.

Lemma start_job_without_tool_witness :
  exists self',
    MachineController.start_job (Workshop.controller "G0 X1")
      {| filename := "job.nc"; tool_id := Some 7%Z |} = (self', Ok tt) /\
    status (MachineController.state self') = Running /\
    tool (MachineController.state self') = None /\
    MachineController.vfd self' = [] /\
    MachineController.vacuum self' = [true].
Proof.
  assert (Hfile : FileStore.content (MachineController.files (Workshop.controller "G0 X1"))
                    (FileStore.resolve
                       (FileStore.path_for
                          (MachineController.files (Workshop.controller "G0 X1")) "job.nc"))
                  = Some "G0 X1") by (vm_compute; reflexivity).
  assert (Hidle : MachineController.busy
                    (status (MachineController.state (Workshop.controller "G0 X1")))
                  = false) by (vm_compute; reflexivity).
  assert (Hno : MachineController.tools (Workshop.controller "G0 X1") 7%Z = None)
    by (vm_compute; reflexivity).
  destruct (start_job_without_tool (Workshop.controller "G0 X1")
              {| filename := "job.nc"; tool_id := Some 7%Z |} "G0 X1" Hfile Hidle
              (or_intror (or_intror (ex_intro _ 7%Z (conj eq_refl Hno)))))
    as (self' & Hs & Hst & Htl & _ & _ & Hvfd & Hvac).
  exists self'. split; [exact Hs |]. split; [exact Hst |].
  split; [exact Htl |]. split; [exact Hvfd |]. exact Hvac.
Defined.

(** ** The DAC of the spindle drive *)

Section Dac.








End Dac.



(** ** Jogging and the work offset *)

Section JogAndOffset.
Context {float : Type} {FO : FloatOps float}.
Variables (fixed3 fixed1 plain : float -> string).

Lemma add_at_spec (delta : float) (pos : list float) :
  forall i,
    match nth_error pos i with
    | Some x =>
        exists pos',
          Operator.add_at i delta pos = Ok pos' /\
          nth_error pos' i = Some (fadd x delta) /\
          (forall j, j <> i -> nth_error pos' j = nth_error pos j) /\
          List.length pos' = List.length pos
    | None => Operator.add_at i delta pos = Raise IndexError
    end.
Proof.
  induction pos as [| x rest IH]; intro i.
  - destruct i; reflexivity.
  - destruct i as [| i]; cbn [nth_error Operator.add_at].
    + eexists. split; [reflexivity |]. split; [reflexivity |].
      split; [| reflexivity]. intros [| j] Hj; [congruence | reflexivity].
    + specialize (IH i). destruct (nth_error rest i) as [y |].
      * destruct IH as (rest' & -> & Hi & Hother & Hlen). cbn [bind].
        eexists. split; [reflexivity |]. split; [exact Hi |]. split.
        -- intros [| j] Hj; [reflexivity |]. cbn. apply Hother. congruence.
        -- cbn. rewrite Hlen. reflexivity.
      * rewrite IH. reflexivity.
Qed.

(** [jog] never touches the status, the job or its line counter.  An axis
    other than x, y, z (in either case) raises [ValueError] and changes
    nothing.  With the link attached the state is left alone and exactly one
    line is queued.  Without a link the delta is added to the addressed
    component of [machine_pos] and to no other; when [machine_pos] is too
    short for the axis (a status frame may have shortened it) the call
    raises [IndexError] and changes nothing. *)
Theorem jog_moves_one_axis :
  forall (self : MachineController.t float) (axis : string) (delta feed : float),
    let out := Operator.jog fixed3 fixed1 self axis delta feed in
    let self' := fst out in
    status (MachineController.state self') = status (MachineController.state self) /\
    MachineController.job_thread self' = MachineController.job_thread self /\
    current_line (MachineController.state self')
    = current_line (MachineController.state self) /\
    match Operator.axis_index (PyStr.upper axis) with
    | None => out = (self, Raise ValueError)
    | Some i =>
        if GrblClient.connected (MachineController.grbl self) then
          snd out = Ok tt /\
          MachineController.state self' = MachineController.state self /\
          exists cmd,
            GrblClient.tx_queue (MachineController.grbl self')
            = GrblClient.tx_queue (MachineController.grbl self) ++ [cmd]
        else
          match nth_error (machine_pos (MachineController.state self)) i with
          | Some x =>
              snd out = Ok tt /\
              nth_error (machine_pos (MachineController.state self')) i
              = Some (fadd x delta) /\
              forall j, j <> i ->
                        nth_error (machine_pos (MachineController.state self')) j
                        = nth_error (machine_pos (MachineController.state self)) j
          | None => out = (self, Raise IndexError)
          end
    end.
Proof.
  intros self axis delta feed. cbv zeta. unfold Operator.jog.
  destruct (Operator.axis_index (PyStr.upper axis)) as [i |]; [| auto].
  destruct (GrblClient.connected (MachineController.grbl self)) eqn:Hc.
  - cbn [fst snd]. repeat split.
    unfold GrblClient.send_line. rewrite Hc. cbn. eexists. reflexivity.
  - pose proof (add_at_spec delta (machine_pos (MachineController.state self)) i) as H.
    destruct (nth_error (machine_pos (MachineController.state self)) i) as [x |].
    + destruct H as (pos' & -> & Hi & Hother & _). cbn. repeat split; auto.
    + rewrite H. auto.
Qed.

(** Storing a work offset changes the work offset of the state and nothing
    else of it, and without a link it does not interfere with the job: a
    turn of the executor gives the same controller whether the offset is
    stored before or after it.  The position is never shifted by the
    offset. *)
Theorem work_offset_is_only_stored :
  forall (self : MachineController.t float) (offset : WorkOffset float),
    let self' := Operator.set_work_offset plain self offset in
    work_offset (MachineController.state self') = offset /\
    machine_pos (MachineController.state self')
    = machine_pos (MachineController.state self) /\
    status (MachineController.state self') = status (MachineController.state self) /\
    (GrblClient.connected (MachineController.grbl self) = false ->
     MachineController.step self'
     = Operator.set_work_offset plain (MachineController.step self) offset).
Proof.
  intros self offset. cbv zeta.
  assert (Hsim : forall c : MachineController.t float,
             GrblClient.connected (MachineController.grbl c) = false ->
             Operator.set_work_offset plain c offset
             = MachineController.with_state c
                 (set_work_offset (MachineController.state c) offset)).
  { intros c Hc. unfold Operator.set_work_offset, Operator.state_work_offset.
    cbn [MachineController.grbl MachineController.with_state]. rewrite Hc. reflexivity. }
  split; [| split; [| split]].
  - unfold Operator.set_work_offset.
    destruct (GrblClient.connected _); reflexivity.
  - unfold Operator.set_work_offset.
    destruct (GrblClient.connected _); reflexivity.
  - unfold Operator.set_work_offset.
    destruct (GrblClient.connected _); reflexivity.
  - intro Hc.
    assert (Hstep : GrblClient.connected (MachineController.grbl (MachineController.step self))
                    = false).
    { unfold MachineController.step, MachineController.finish,
        MachineController._handle_spindle_tokens.
      destruct (MachineController.job_thread self) as [| idx [| raw rest] | | e];
        try exact Hc.
      destruct (MachineController.stop_flag self); [exact Hc |].
      destruct (MachineStatus_eqb _ _); [exact Hc |].
      destruct (PyStr.is_empty _); [exact Hc |].
      destruct (SpindleShim.apply _ _ _ _) as [a | e]; [| exact Hc].
      cbn [MachineController.grbl MachineController.with_state MachineController.with_vfd].
      rewrite Hc.
      destruct (SimpleMoveTracker.consume _ _) as [tr [pos | e]]; exact Hc. }
    rewrite (Hsim self Hc), (Hsim _ Hstep).
    unfold MachineController.step, MachineController.finish,
      MachineController._handle_spindle_tokens.
    cbn [MachineController.job_thread MachineController.with_state
         MachineController.stop_flag MachineController.state status set_work_offset].
    destruct (MachineController.job_thread self) as [| idx [| raw rest] | | e];
      try reflexivity.
    destruct (MachineController.stop_flag self); [reflexivity |].
    destruct (MachineStatus_eqb (status (MachineController.state self)) Paused);
      [reflexivity |].
    destruct (PyStr.is_empty (PyStr.strip raw)); [reflexivity |].
    cbn [MachineController.cfg MachineController.vfd MachineController.with_state
         MachineController.state spindle_rpm spindle_dir set_work_offset].
    destruct (MachineController.scan_rpm (PyStr.upper (PyStr.strip raw))),
      (MachineController.scan_direction (PyStr.upper (PyStr.strip raw)));
      cbn [set_spindle_rpm set_spindle_dir spindle_rpm spindle_dir set_work_offset
           MachineController.cfg MachineController.vfd MachineController.with_state
           MachineController.state];
      match goal with
      | |- context [SpindleShim.apply ?a ?b ?c ?d] =>
          destruct (SpindleShim.apply a b c d) as [a' | e]
      end; try reflexivity;
      cbn [MachineController.grbl MachineController.with_state MachineController.with_vfd
           MachineController.move_tracker];
      rewrite ?Hc;
      try (destruct (SimpleMoveTracker.consume _ _) as [tr [pos | e]]); reflexivity.
Qed.

End JogAndOffset.
